(** * SSPDiagnosticAna: a shallow embedding of the SSP diagnostic analyzer

    Source: dune/daqinput35t/SSPDiagnosticAna_module.cc.

    The analyzer walks the trigger records of raw SSP fragments, derives a
    pulse amplitude and an integrated charge from each header, fills
    per-channel histograms, and at the end of a run estimates the
    photo-electron spacing and extends one "amplitude versus run" histogram
    per channel.

    Conventions of the embedding
    - C++ [double] is Rocq's primitive binary64 [float]; C++ [float] is a
      binary32 value kept as a [spec_float] and computed on with the
      specification operations at precision 24.
    - machine integers are [Z] with the wrap-around written where the source
      has it ([unsigned int], [unsigned short], [unsigned long]).
    - [std::map<int, T*>] is [gmap Z T]; every histogram is referenced from
      exactly one map, so the maps hold the histograms themselves.
    - what the source takes from other packages (the SSP event header and
      the header decoding of SSPReformatterAlgs, the peak search of
      TSpectrum) is a parameter of the development.
    - ROOT's histograms are modelled by their binning and their bin
      contents, with the library's fixed-bin formulas. *)

From Stdlib Require Import ZArith Lia Bool List Floats.
From Stdlib Require Import Sorting.Sorted.
From stdpp Require Import base option list list_numbers gmap.

Set Warnings "-inexact-float".

Local Open Scope Z_scope.

(** ** Numbers *)

Module Double.

(** [double(n)] for an integer [n]: the correctly rounded conversion. *)
Definition of_Z (z : Z) : float :=
  SF2Prim (binary_normalize prec emax z 0 false).

(** [int(x)]: truncation toward zero. The conversion of a NaN or an
    infinity has no defined result in C++; the model gives 0 there. *)
Definition to_Z (x : float) : Z :=
  match Prim2SF x with
  | S754_finite s m e => cond_Zopp s (Z.shiftl (Zpos m) e)
  | _ => 0
  end.

End Double.

Module Float32.

Definition prec : Z := 24.
Definition emax : Z := 128.

(** A binary32 value. *)
Definition t : Type := spec_float.

Definition of_Z (z : Z) : t := binary_normalize prec emax z 0 false.
Definition sub (x y : t) : t := SFsub prec emax x y.
Definition ltb (x y : t) : bool := SFltb x y.
Definition leb (x y : t) : bool := SFleb x y.
Definition is_nan (x : t) : bool :=
  match x with S754_nan => true | _ => false end.

(** Widening to [double]; exact, every binary32 value is a binary64 value. *)
Definition to_double (x : t) : float := SF2Prim x.

End Float32.

Definition u16 (z : Z) : Z := z mod 2 ^ 16.
Definition u32 (z : Z) : Z := z mod 2 ^ 32.
Definition u64 (z : Z) : Z := z mod 2 ^ 64.

(** An [int]: the 32-bit two's complement value of [z], for the
    narrowing of a [size_t] and for [int] sums. The overflow of an [int]
    sum is undefined in C++; the value here is the wrapped one, which the
    two's complement addition of the machine gives. *)
Definition s32 (z : Z) : Z :=
  if u32 z <? 2 ^ 31 then u32 z else u32 z - 2 ^ 32.

(** [(int) x] for a [double] [x] that holds the integer [z]. Outside the
    range of [int] the conversion is undefined in C++; the value here is
    the one the conversion instruction of x86-64 gives, [-2^31]. *)
Definition int_of_double (z : Z) : Z :=
  if (- 2 ^ 31 <=? z) && (z <? 2 ^ 31) then z else - 2 ^ 31.

(** ** ROOT histograms *)

Module TAxis.

(** A fixed-bin axis: [fNbins] bins of equal width over [fXmin, fXmax);
    bin 0 is the underflow bin and bin [fNbins + 1] the overflow bin. *)
Record t : Type := Build { fNbins : Z; fXmin : float; fXmax : float }.

Definition GetNbins (a : t) : Z := fNbins a.

Definition FindBin (a : t) (x : float) : Z :=
  if (x <? fXmin a)%float then 0
  else if negb (x <? fXmax a)%float then fNbins a + 1
  else 1 + Double.to_Z
             (Double.of_Z (fNbins a) * (x - fXmin a) / (fXmax a - fXmin a))%float.

Definition binwidth (a : t) : float :=
  ((fXmax a - fXmin a) / Double.of_Z (fNbins a))%float.

Definition GetBinLowEdge (a : t) (bin : Z) : float :=
  (fXmin a + Double.of_Z (bin - 1) * binwidth a)%float.

Definition GetBinCenter (a : t) (bin : Z) : float :=
  (fXmin a + Double.of_Z (bin - 1) * binwidth a + 0.5 * binwidth a)%float.

End TAxis.

(** Bin numbers passed to a histogram are clamped to [0, nbins + 1]. *)
Definition clamp_bin (nbins bin : Z) : Z := Z.max 0 (Z.min bin (nbins + 1)).

(** The constructors of TH1 and TH2 replace a number of bins that is not
    positive by 1. *)
Definition positive_bins (nbins : Z) : Z := if nbins <=? 0 then 1 else nbins.

Module TH1D.

Record t : Type := Build {
  fXaxis : TAxis.t;
  fArray : gmap Z float;     (* bin contents; an absent bin holds 0 *)
  fEntries : Z;
  fStats : bool              (* cleared by SetStats(false) *)
}.

Definition make (nbins : Z) (xlow xup : float) : t :=
  Build (TAxis.Build (positive_bins nbins) xlow xup) ∅ 0 true.

Definition GetNbinsX (h : t) : Z := TAxis.GetNbins (fXaxis h).

Definition GetBinContent (h : t) (bin : Z) : float :=
  default 0%float (fArray h !! clamp_bin (GetNbinsX h) bin).

Definition GetBinCenter (h : t) (bin : Z) : float :=
  TAxis.GetBinCenter (fXaxis h) bin.

Definition AddBinContent (h : t) (bin : Z) (w : float) : t :=
  Build (fXaxis h) (<[bin := (GetBinContent h bin + w)%float]> (fArray h))
        (fEntries h) (fStats h).

(** [Fill(x)]: one more entry, one more count in the bin of [x]. *)
Definition Fill (h : t) (x : float) : t :=
  let h := Build (fXaxis h) (fArray h) (fEntries h + 1) (fStats h) in
  AddBinContent h (TAxis.FindBin (fXaxis h) x) 1%float.

Definition SetStats (h : t) (stats : bool) : t :=
  Build (fXaxis h) (fArray h) (fEntries h) stats.

End TH1D.

Module TH2D.

Record t : Type := Build {
  fXaxis : TAxis.t;
  fYaxis : TAxis.t;
  fArray : gmap (Z * Z) float;
  fEntries : Z;
  fStats : bool
}.

Definition make (nx : Z) (xlow xup : float) (ny : Z) (ylow yup : float) : t :=
  Build (TAxis.Build (positive_bins nx) xlow xup)
        (TAxis.Build (positive_bins ny) ylow yup) ∅ 0 true.

Definition GetBinContent (h : t) (binx biny : Z) : float :=
  default 0%float
    (fArray h !! (clamp_bin (TAxis.GetNbins (fXaxis h)) binx,
                  clamp_bin (TAxis.GetNbins (fYaxis h)) biny)).

Definition Fill (h : t) (x y : float) : t :=
  let binx := TAxis.FindBin (fXaxis h) x in
  let biny := TAxis.FindBin (fYaxis h) y in
  Build (fXaxis h) (fYaxis h)
        (<[(binx, biny) := (GetBinContent h binx biny + 1)%float]> (fArray h))
        (fEntries h + 1) (fStats h).

Definition SetStats (h : t) (stats : bool) : t :=
  Build (fXaxis h) (fYaxis h) (fArray h) (fEntries h) stats.

End TH2D.

(** ** Derived quantities *)

Definition m1_window : Z := 10.
Definition i1_window : Z := 500.
Definition i2_window : Z := 500.

(** Line 476:
    [-prerise/i2_window*1.0 + peakSum/m1_window*1.0]. *)
Definition PulseAmplitude (prerise peakSum : float) : float :=
  (- prerise / Double.of_Z i2_window * 1.0
   + peakSum / Double.of_Z m1_window * 1.0)%float.

(** Line 488:
    [integratedSum - prerise/i2_window*i1_window*1.0]. *)
Definition IntegratedCharge (prerise integratedSum : float) : float :=
  (integratedSum
   - prerise / Double.of_Z i2_window * Double.of_Z i1_window * 1.0)%float.

(** The formulas as the specification writes them, with window lengths
    [W1], [W2] and [W1i]. *)
Definition spec_amplitude (W1 W2 : float) (B P : float) : float :=
  (- B / W2 + P / W1)%float.

Definition spec_charge (W2 W1i : float) (B I : float) : float :=
  (I - (B / W2) * W1i)%float.

(** ** The amplitude-versus-run histogram

    The X axis of a PulseAmpVsRun histogram is built from run numbers
    ([int]): ROOT keeps the edges as doubles, and sums, differences and
    unit-width products of run numbers are exact in binary64, so this axis
    is kept in [Z]. Its formulas are those of [TAxis]. *)

Module RunAxis.

Record t : Type := Build { fNbins : Z; fXmin : Z; fXmax : Z }.

Definition GetNbins (a : t) : Z := fNbins a.

Definition FindBin (a : t) (x : Z) : Z :=
  if x <? fXmin a then 0
  else if negb (x <? fXmax a) then fNbins a + 1
  else 1 + fNbins a * (x - fXmin a) / (fXmax a - fXmin a).

Definition GetBinLowEdge (a : t) (bin : Z) : Z :=
  fXmin a + (bin - 1) * ((fXmax a - fXmin a) / fNbins a).

End RunAxis.

Module TH2Run.

Record t : Type := Build {
  fXaxis : RunAxis.t;
  fYaxis : TAxis.t;
  fArray : gmap (Z * Z) float;
  fEntries : Z
}.

Definition make (nx xlow xup : Z) (ny : Z) (ylow yup : float) : t :=
  Build (RunAxis.Build (positive_bins nx) xlow xup)
        (TAxis.Build (positive_bins ny) ylow yup) ∅ 0.

Definition GetNbinsX (h : t) : Z := RunAxis.GetNbins (fXaxis h).
Definition GetNbinsY (h : t) : Z := TAxis.GetNbins (fYaxis h).

Definition GetBin (h : t) (binx biny : Z) : Z * Z :=
  (clamp_bin (GetNbinsX h) binx, clamp_bin (GetNbinsY h) biny).

Definition GetBinContent (h : t) (binx biny : Z) : float :=
  default 0%float (fArray h !! GetBin h binx biny).

Definition SetBinContent (h : t) (binx biny : Z) (content : float) : t :=
  Build (fXaxis h) (fYaxis h) (<[GetBin h binx biny := content]> (fArray h))
        (fEntries h + 1).

(** [Fill(x, y, w)]: the weight is added to the cell of [(x, y)]. *)
Definition Fill (h : t) (x : Z) (y : float) (w : float) : t :=
  let binx := RunAxis.FindBin (fXaxis h) x in
  let biny := TAxis.FindBin (fYaxis h) y in
  Build (fXaxis h) (fYaxis h)
        (<[(binx, biny) := (GetBinContent h binx biny + w)%float]> (fArray h))
        (fEntries h + 1).

Definition add_cells (a b : option float) : option float :=
  match a, b with
  | None, None => None
  | _, _ => Some (default 0 a + default 0 b)%float
  end.

(** [Add(h1)]: cell by cell sum, for two histograms of equal binning. *)
Definition Add (h h1 : t) : t :=
  Build (fXaxis h) (fYaxis h) (merge add_cells (fArray h) (fArray h1))
        (fEntries h + fEntries h1).

End TH2Run.

(** ** The SSP event header and its decoding

    [SSPDAQ::EventHeader] and [SSPReformatterAlgs] are declared in other
    packages. The development takes the header type, its [length] field
    (the record length in 32-bit words, header included), the header size
    in words and the five decoding functions as parameters. A decoding
    function that throws [cet::exception] returns [None]. *)

Module SSPDAQ.

Class Layout : Type := {
  EventHeader : Type;
  length : EventHeader -> Z;
  (** [sizeof(SSPDAQ::EventHeader)/sizeof(unsigned int)] *)
  header_words : Z
}.

End SSPDAQ.

Class SSPReformatterAlgs `{SSPDAQ.Layout} : Type := {
  GetOpChannel : SSPDAQ.EventHeader -> option Z;
  GetGlobalFirstSample : SSPDAQ.EventHeader -> option Z;
  GetPeakSum : SSPDAQ.EventHeader -> option float;
  GetBaselineSum : SSPDAQ.EventHeader -> option float;
  GetIntegratedSum : SSPDAQ.EventHeader -> option float
}.

(** The peak search of [TSpectrum]: the positions found in a histogram
    for a width and a threshold, in the library's order (by height). *)
Class TSpectrum : Type := {
  Search : TH1D.t -> float -> float -> list Float32.t
}.

(** ** The analyzer's state *)

Record SSPDiagnosticAna : Type := Build_Ana {
  fSampleFreq : float;
  averageWaveforms : gmap Z TH2D.t;
  fPulseAmplitude : TH1D.t;
  PulseAmplitudePerChannel : gmap Z TH1D.t;
  IntegratedChargePerChannel : gmap Z TH1D.t;
  PulseAmplitudeVsIntegratedChargePerChannel : gmap Z TH2D.t;
  PulseAmpVsRun : gmap Z TH2Run.t;
  firstTime : Z;
  lastTime : Z;
  triggerCount : gmap Z Z
}.

Definition set_averageWaveforms (m : gmap Z TH2D.t) (a : SSPDiagnosticAna) :=
  Build_Ana (fSampleFreq a) m (fPulseAmplitude a)
    (PulseAmplitudePerChannel a) (IntegratedChargePerChannel a)
    (PulseAmplitudeVsIntegratedChargePerChannel a) (PulseAmpVsRun a)
    (firstTime a) (lastTime a) (triggerCount a).

Definition set_fPulseAmplitude (h : TH1D.t) (a : SSPDiagnosticAna) :=
  Build_Ana (fSampleFreq a) (averageWaveforms a) h
    (PulseAmplitudePerChannel a) (IntegratedChargePerChannel a)
    (PulseAmplitudeVsIntegratedChargePerChannel a) (PulseAmpVsRun a)
    (firstTime a) (lastTime a) (triggerCount a).

Definition set_PulseAmplitudePerChannel (m : gmap Z TH1D.t)
    (a : SSPDiagnosticAna) :=
  Build_Ana (fSampleFreq a) (averageWaveforms a) (fPulseAmplitude a)
    m (IntegratedChargePerChannel a)
    (PulseAmplitudeVsIntegratedChargePerChannel a) (PulseAmpVsRun a)
    (firstTime a) (lastTime a) (triggerCount a).

Definition set_IntegratedChargePerChannel (m : gmap Z TH1D.t)
    (a : SSPDiagnosticAna) :=
  Build_Ana (fSampleFreq a) (averageWaveforms a) (fPulseAmplitude a)
    (PulseAmplitudePerChannel a) m
    (PulseAmplitudeVsIntegratedChargePerChannel a) (PulseAmpVsRun a)
    (firstTime a) (lastTime a) (triggerCount a).

Definition set_PulseAmplitudeVsIntegratedChargePerChannel (m : gmap Z TH2D.t)
    (a : SSPDiagnosticAna) :=
  Build_Ana (fSampleFreq a) (averageWaveforms a) (fPulseAmplitude a)
    (PulseAmplitudePerChannel a) (IntegratedChargePerChannel a)
    m (PulseAmpVsRun a)
    (firstTime a) (lastTime a) (triggerCount a).

Definition set_PulseAmpVsRun (m : gmap Z TH2Run.t) (a : SSPDiagnosticAna) :=
  Build_Ana (fSampleFreq a) (averageWaveforms a) (fPulseAmplitude a)
    (PulseAmplitudePerChannel a) (IntegratedChargePerChannel a)
    (PulseAmplitudeVsIntegratedChargePerChannel a) m
    (firstTime a) (lastTime a) (triggerCount a).

Definition set_timing (first last : Z) (count : gmap Z Z)
    (a : SSPDiagnosticAna) :=
  Build_Ana (fSampleFreq a) (averageWaveforms a) (fPulseAmplitude a)
    (PulseAmplitudePerChannel a) (IntegratedChargePerChannel a)
    (PulseAmplitudeVsIntegratedChargePerChannel a) (PulseAmpVsRun a)
    first last count.

(** The constructor: every map empty. [fPulseAmplitude] and the two
    times hold no meaningful value before [beginJob] sets them. *)
Definition construct (sampleFreq : float) : SSPDiagnosticAna :=
  Build_Ana sampleFreq ∅ (TH1D.make 125 (-50) 200) ∅ ∅ ∅ ∅ 0 0 ∅.

(** Lines 161-170. *)
Definition beginJob (a : SSPDiagnosticAna) : SSPDiagnosticAna :=
  set_timing (Z.shiftl 1 63) 0 (triggerCount a)
    (set_fPulseAmplitude (TH1D.make 125 (-50) 200) a).

(** Lines 172-177. *)
Definition beginRun (a : SSPDiagnosticAna) : SSPDiagnosticAna :=
  set_PulseAmplitudeVsIntegratedChargePerChannel ∅
    (set_IntegratedChargePerChannel ∅
       (set_PulseAmplitudePerChannel ∅ a)).

(** ** analyze: the waveform loop (lines 400-427) *)

Record OpDetWaveform : Type := Build_OpDetWaveform {
  ChannelNumber : Z;
  samples : list Z                (* ADC counts, [short] *)
}.

(** [m.find(channel) == m.end()] followed by [m[channel] = fresh]. *)
Definition book {H : Type} (m : gmap Z H) (channel : Z) (fresh : H) : gmap Z H :=
  match m !! channel with
  | Some _ => m
  | None => <[channel := fresh]> m
  end.

Definition fill_waveform (sampleFreq : float) (pulse : list Z) (h : TH2D.t) : TH2D.t :=
  foldl (fun h tick =>
           TH2D.Fill h (Double.of_Z tick / sampleFreq)%float
                       (Double.of_Z (default 0 (pulse !! Z.to_nat tick))))
        h (seqZ 0 (Z.of_nat (List.length pulse))).

(** Lines 400-427 for one waveform. [pulse.size()], a [size_t], is
    narrowed to the [Int_t] number of bins of the constructor. *)
Definition add_waveform (a : SSPDiagnosticAna) (pulse : OpDetWaveform) : SSPDiagnosticAna :=
  let channel := ChannelNumber pulse in
  let size := Z.of_nat (List.length (samples pulse)) in
  let booked :=
    book (averageWaveforms a) channel
      (TH2D.make (s32 size) 0 (Double.of_Z size / fSampleFreq a)%float
                 2000 1200 5200) in
  set_averageWaveforms
    (alter (fill_waveform (fSampleFreq a) (samples pulse)) channel booked) a.

(** ** analyze: the trigger loop (lines 447-540) *)

Section TriggerLoop.

Context `{Algs : SSPReformatterAlgs}.

(** The fills of lines 490-519 for one decoded trigger. *)
Definition fill_trigger (channel : Z) (amplitude charge : float)
    (a : SSPDiagnosticAna) : SSPDiagnosticAna :=
  let a := set_fPulseAmplitude (TH1D.Fill (fPulseAmplitude a) amplitude) a in
  let a :=
    set_PulseAmplitudePerChannel
      (alter (fun h => TH1D.Fill h amplitude) channel
         (book (PulseAmplitudePerChannel a) channel (TH1D.make 125 (-20) 230)))
      a in
  let a :=
    set_IntegratedChargePerChannel
      (alter (fun h => TH1D.Fill h charge) channel
         (book (IntegratedChargePerChannel a) channel (TH1D.make 300 0 3e4)))
      a in
  set_PulseAmplitudeVsIntegratedChargePerChannel
    (alter (fun h => TH2D.Fill h charge amplitude) channel
       (book (PulseAmplitudeVsIntegratedChargePerChannel a) channel
          (TH2D.make 300 0 3e4 125 (-20) 230)))
    a.

(** [FirstSample < 1e16], an [unsigned long] compared with a [double]. *)
Definition problem_timestamp (FirstSample : Z) : bool :=
  (Double.of_Z FirstSample <? 1e16)%float.

(** How the [try] block of lines 466-531 ends: it runs to its end, it
    leaves through the [continue] of line 526, or a decoding function
    throws and the handler of line 529 executes [continue]. *)
Inductive TryExit : Type :=
  | Completed (OpChannel FirstSample : Z)
  | ProblemTimestamp
  | Thrown.

Definition try_block (daqHeader : SSPDAQ.EventHeader) (a : SSPDiagnosticAna)
    : SSPDiagnosticAna * TryExit :=
  match GetOpChannel daqHeader with
  | None => (a, Thrown)
  | Some c =>
    let OpChannel := u16 c in
    match GetGlobalFirstSample daqHeader with
    | None => (a, Thrown)
    | Some f =>
      let FirstSample := u64 f in
      match GetPeakSum daqHeader with
      | None => (a, Thrown)
      | Some peakSum =>
        match GetBaselineSum daqHeader with
        | None => (a, Thrown)
        | Some prerise =>
          match GetIntegratedSum daqHeader with
          | None => (a, Thrown)
          | Some integratedSum =>
            let amplitude := PulseAmplitude prerise peakSum in
            let channel := OpChannel in
            let charge := IntegratedCharge prerise integratedSum in
            let a := fill_trigger channel amplitude charge a in
            if problem_timestamp FirstSample then (a, ProblemTimestamp)
            else (a, Completed OpChannel FirstSample)
          end
        end
      end
    end
  end.

(** Lines 533-535. *)
Definition count_trigger (OpChannel FirstSample : Z) (a : SSPDiagnosticAna)
    : SSPDiagnosticAna :=
  set_timing (Z.min (firstTime a) FirstSample)
             (Z.max (lastTime a) FirstSample)
             (<[OpChannel := default 0 (triggerCount a !! OpChannel) + 1]>
                (triggerCount a))
             a.

(** Line 463. The subtraction and the product are computed in [size_t],
    the result is stored in an [unsigned int]. *)
Definition nADC (daqHeader : SSPDAQ.EventHeader) : Z :=
  u32 ((SSPDAQ.length daqHeader - SSPDAQ.header_words) * 2).

(** A fragment: its trigger count, the bounds of its data region as word
    addresses, and the header seen at each word address. *)
Record Fragment : Type := Build_Fragment {
  nTriggers : Z;
  dataBegin : Z;
  dataEnd : Z;
  headerAt : Z -> SSPDAQ.EventHeader
}.

(** The loop variables, and the address of every header the loop has
    read ([headersRead] is not a variable of the source; it records where
    line 459 pointed). *)
Record Cursor : Type := Build_Cursor {
  triggersProcessed : Z;
  dataPointer : Z;
  headersRead : list Z
}.

(** The test of line 448. *)
Definition loop_test (frag : Fragment) (c : Cursor) : bool :=
  ((nTriggers frag =? 0) || (triggersProcessed c <? nTriggers frag))
  && (dataPointer c <? dataEnd frag).

(** One pass through the body, lines 450-539, and the [++triggersProcessed]
    of line 449, which also follows a [continue]. *)
Definition loop_body (frag : Fragment) (c : Cursor) (a : SSPDiagnosticAna)
    : Cursor * SSPDiagnosticAna :=
  let daqHeader := headerAt frag (dataPointer c) in
  let read := headersRead c ++ [dataPointer c] in
  let pointer := dataPointer c + SSPDAQ.header_words in
  let n := nADC daqHeader in
  let next := u32 (triggersProcessed c + 1) in
  match try_block daqHeader a with
  | (a, Completed OpChannel FirstSample) =>
      (Build_Cursor next (pointer + n / 2) read,
       count_trigger OpChannel FirstSample a)
  | (a, _) => (Build_Cursor next pointer read, a)
  end.

Fixpoint trigger_loop (fuel : nat) (frag : Fragment) (c : Cursor)
    (a : SSPDiagnosticAna) : option (Cursor * SSPDiagnosticAna) :=
  if loop_test frag c then
    match fuel with
    | O => None
    | S fuel =>
        let '(c, a) := loop_body frag c a in
        trigger_loop fuel frag c a
    end
  else Some (c, a).

(** The walk over one fragment. The pointer moves forward by at least the
    header size in every pass, so the size of the data region bounds the
    number of passes. *)
Definition walk_fragment (frag : Fragment) (a : SSPDiagnosticAna)
    : option (Cursor * SSPDiagnosticAna) :=
  trigger_loop (Z.to_nat (dataEnd frag - dataBegin frag)) frag
               (Build_Cursor 0 (dataBegin frag) []) a.

(** The words read by the walk: every header read covers [header_words]
    words from its address. *)
Definition words_read (c : Cursor) : list Z :=
  concat ((fun p => seqZ p SSPDAQ.header_words) <$> headersRead c).

Record Event : Type := Build_Event {
  (** [None]: the fragment collection is not in the event. *)
  rawFragments : option (list Fragment);
  waveforms : list OpDetWaveform
}.

(** Lines 364-543. [None] when a walk runs out of steps. *)
Definition analyze (evt : Event) (a : SSPDiagnosticAna) : option SSPDiagnosticAna :=
  match rawFragments evt with
  | None => Some a
  | Some frags =>
      let a := foldl add_waveform a (waveforms evt) in
      foldl (fun acc frag => a ← acc; snd <$> walk_fragment frag a)
            (Some a) frags
  end.

End TriggerLoop.

(** ** endRun: the photo-electron spacing (lines 246-287) *)

(** [std::sort] on the peak positions, by [operator<]. *)
Fixpoint sort_insert (x : Float32.t) (l : list Float32.t) : list Float32.t :=
  match l with
  | [] => [x]
  | y :: l' => if Float32.ltb x y then x :: l else y :: sort_insert x l'
  end.

Definition sort (l : list Float32.t) : list Float32.t :=
  foldr sort_insert [] l.

(** One pass of the loop of lines 257-265 (and 275-283): [peakVec.at]
    throws [std::out_of_range] outside the vector, [None] here. *)
Definition spacing_step (upper lower : float) (peakVec : list Float32.t)
    (acc : float * Z) (p : Z) : option (float * Z) :=
  hi ← peakVec !! Z.to_nat (p + 1);
  lo ← peakVec !! Z.to_nat p;
  let diff := Float32.to_double (Float32.sub hi lo) in
  if (upper <? diff)%float || (diff <? lower)%float then Some acc
  else Some ((fst acc + diff)%float, snd acc + 1).

(** The block of lines 250-267, for the peaks returned by the search:
    the value left in [ADCperPE] (or [INTperPE]). *)
Definition spacing (upper lower : float) (peaks : list Float32.t) : option float :=
  let nPeaks := Z.of_nat (List.length peaks) in
  let peakVec := sort peaks in
  acc ← foldl (fun acc p => acc ← acc; spacing_step upper lower peakVec acc p)
              (Some (0%float, 0)) (seqZ 1 (nPeaks - 1 - 1));
  Some (fst acc / Double.of_Z (snd acc))%float.

Definition ADCperPE (peaks : list Float32.t) : option float :=
  spacing 20 10 peaks.

Definition INTperPE (peaks : list Float32.t) : option float :=
  spacing 1800 1000 peaks.

(** ** endRun and endJob: the loops over the channels *)

(** [for (int i = 0; i < 100; ++i)]. A body returns [None] when it
    dereferences a null pointer ([m[i]] for a key the map does not hold). *)
Definition for_channels {S : Type} (body : Z -> S -> option S) (s : S) : option S :=
  foldl (fun acc i => s ← acc; body i s) (Some s) (seqZ 0 100).

(** Lines 229-243. *)
Definition format_plots (a : SSPDiagnosticAna) : option SSPDiagnosticAna :=
  for_channels (fun i a =>
    match PulseAmplitudePerChannel a !! i with
    | None => Some a
    | Some hA =>
        hQ ← IntegratedChargePerChannel a !! i;
        hAQ ← PulseAmplitudeVsIntegratedChargePerChannel a !! i;
        hW ← averageWaveforms a !! i;
        Some
          (set_averageWaveforms
             (<[i := TH2D.SetStats hW false]> (averageWaveforms a))
          (set_PulseAmplitudeVsIntegratedChargePerChannel
             (<[i := TH2D.SetStats hAQ false]>
                (PulseAmplitudeVsIntegratedChargePerChannel a))
          (set_IntegratedChargePerChannel
             (<[i := TH1D.SetStats hQ false]> (IntegratedChargePerChannel a))
          (set_PulseAmplitudePerChannel
             (<[i := TH1D.SetStats hA false]> (PulseAmplitudePerChannel a))
             a))))
    end) a.

(** One line of the report printed at line 286. *)
Record Calibration : Type := Build_Calibration {
  cal_channel : Z;
  cal_ADCperPE : float;
  cal_INTperPE : float
}.

(** Lines 246-287. *)
Definition analyze_plots `{TSpectrum} (a : SSPDiagnosticAna) : option (list Calibration) :=
  for_channels (fun i report =>
    match PulseAmplitudePerChannel a !! i with
    | None => Some report
    | Some hA =>
        adc ← ADCperPE (Search hA 1.5 0.001);
        hQ ← IntegratedChargePerChannel a !! i;
        int ← INTperPE (Search hQ 2.5 0.001);
        Some (report ++ [Build_Calibration i adc int])
    end) [].

(** Lines 321-334: the histogram is made again over the extended range
    and the old cells are copied. [firstRun], [lastRun] and [runNum] are
    [int]s converted from doubles (lines 322, 323 and 329), and the number
    of bins and the upper edge, [lastRun-firstRun+1] and [lastRun+1], are
    [int] sums (line 324). *)
Definition remake (run : Z) (oldHist : TH2Run.t) : TH2Run.t :=
  let firstRun :=
    int_of_double
      (Z.min run (RunAxis.GetBinLowEdge (TH2Run.fXaxis oldHist) 1)) in
  let lastRun :=
    int_of_double
      (Z.max run (RunAxis.GetBinLowEdge (TH2Run.fXaxis oldHist)
                    (TH2Run.GetNbinsX oldHist))) in
  foldl (fun newHist binX =>
    foldl (fun newHist binY =>
      let oldVal := TH2Run.GetBinContent oldHist binX binY in
      let runNum :=
        int_of_double
          (RunAxis.GetBinLowEdge (TH2Run.fXaxis oldHist) binX) in
      let targBin := RunAxis.FindBin (TH2Run.fXaxis newHist) runNum in
      TH2Run.SetBinContent newHist targBin binY oldVal)
    newHist (seqZ 0 (TH2Run.GetNbinsY oldHist + 1)))
  (TH2Run.make (s32 (lastRun - firstRun + 1)) firstRun (s32 (lastRun + 1))
               125 (-20) 230)
  (seqZ 0 (TH2Run.GetNbinsX oldHist + 1)).

(** Lines 337-342. *)
Definition add_new_data (run : Z) (hA : TH1D.t) (h : TH2Run.t) : TH2Run.t :=
  foldl (fun h binY =>
    let val := TH1D.GetBinContent hA binY in
    let amp := TH1D.GetBinCenter hA binY in
    TH2Run.Fill h run amp val)
  h (seqZ 0 (TH1D.GetNbinsX hA + 1)).

(** Lines 313-342, the body of the loop for channel [i]: the summary of
    the channel is created or made again, then the amplitude distribution
    of the run is added. [run.run()] is an [unsigned int]. *)
Definition extend (i : Z) (run : Z) (hA : TH1D.t) (summary : gmap Z TH2Run.t)
    : gmap Z TH2Run.t :=
  let h :=
    match summary !! i with
    | None => TH2Run.make 1 run (u32 (run + 1)) 125 (-20) 230
    | Some oldHist => remake run oldHist
    end in
  <[i := add_new_data run hA h]> summary.

(** Lines 311-344. *)
Definition extend_summaries (run : Z) (a : SSPDiagnosticAna) : option SSPDiagnosticAna :=
  for_channels (fun i a =>
    match PulseAmplitudePerChannel a !! i with
    | None => Some a
    | Some hA => Some (set_PulseAmpVsRun (extend i run hA (PulseAmpVsRun a)) a)
    end) a.

(** Lines 195-346, without the rate report, which only prints, and
    without the FFT of the average waveforms (lines 290-308), which
    writes to [waveformFFTs] only. *)
Definition endRun `{TSpectrum} (run : Z) (a : SSPDiagnosticAna)
    : option (SSPDiagnosticAna * list Calibration) :=
  a ← format_plots a;
  report ← analyze_plots a;
  a ← extend_summaries run a;
  Some (a, report).

(** Lines 348-360: what the job registers with the file service, by
    channel. *)
Definition endJob (a : SSPDiagnosticAna) : gmap Z TH2Run.t :=
  foldl (fun registered i =>
    match PulseAmpVsRun a !! i with
    | None => registered
    | Some h =>
        let newHist :=
          TH2Run.make
            (TH2Run.GetNbinsX h)
            (RunAxis.GetBinLowEdge (TH2Run.fXaxis h) 1)
            (RunAxis.GetBinLowEdge (TH2Run.fXaxis h) (TH2Run.GetNbinsX h + 1))
            (TH2Run.GetNbinsY h)
            (TAxis.GetBinLowEdge (TH2Run.fYaxis h) 1)
            (TAxis.GetBinLowEdge (TH2Run.fYaxis h) (TH2Run.GetNbinsY h + 1)) in
        <[i := TH2Run.Add newHist h]> registered
    end) ∅ (seqZ 0 100).

(** ** The binning of the amplitude-versus-run histograms *)

(** The amplitude axis of lines 318, 324 and 498. *)
Definition amplitude_axis : TAxis.t := TAxis.Build 125 (-20) 230.

(** A summary histogram as the source makes them: one bin per run on the
    X axis, the amplitude axis on the Y axis. *)
Definition unit_bins (h : TH2Run.t) : Prop :=
  0 < RunAxis.fNbins (TH2Run.fXaxis h) /\
  RunAxis.fXmax (TH2Run.fXaxis h) =
    RunAxis.fXmin (TH2Run.fXaxis h) + RunAxis.fNbins (TH2Run.fXaxis h) /\
  TH2Run.fYaxis h = amplitude_axis.

(** The runs a summary spans are run numbers that are [int] values, and
    so is the successor of the last of them: the conversions to [int] and
    the [int] sums of lines 322-324 and 329 are exact on it. *)
Definition int_runs (h : TH2Run.t) : Prop :=
  0 <= RunAxis.fXmin (TH2Run.fXaxis h) /\
  RunAxis.fXmax (TH2Run.fXaxis h) < 2 ^ 31.

(** The same axis with its edges as doubles, as ROOT stores it. *)
Definition double_axis (a : RunAxis.t) : TAxis.t :=
  TAxis.Build (RunAxis.fNbins a) (Double.of_Z (RunAxis.fXmin a))
              (Double.of_Z (RunAxis.fXmax a)).

(** Whether, on the axis of [nbins] unit bins from [first], the formulas
    in [Z] give the bins and the low edges that the formulas on doubles
    give, for every bin and for the runs from [first - 2] to
    [first + nbins + 1]. *)
Definition axes_agree (first nbins : Z) : bool :=
  let a := RunAxis.Build nbins first (first + nbins) in
  forallb (fun bin =>
             Double.to_Z (TAxis.GetBinLowEdge (double_axis a) bin)
             =? RunAxis.GetBinLowEdge a bin)
          (seqZ 0 (nbins + 2))
  && forallb (fun run =>
                TAxis.FindBin (double_axis a) (Double.of_Z run)
                =? RunAxis.FindBin a run)
             (seqZ (first - 2) (nbins + 4)).

(** ** The spacing, stated on the list of differences *)

(** Differences of consecutive positions, as the source computes one:
    a binary32 subtraction widened to [double]. *)
Fixpoint differences (l : list Float32.t) : list float :=
  match l with
  | x :: (y :: _) as l' => Float32.to_double (Float32.sub y x) :: differences l'
  | _ => []
  end.

Definition in_window (lower upper d : float) : bool :=
  (lower <=? d)%float && (d <=? upper)%float.

Definition average (l : list float) : float :=
  (foldl PrimFloat.add 0 l / Double.of_Z (Z.of_nat (List.length l)))%float.

(** "Sort ascending; compute consecutive differences, excluding the first
    and last peak; keep only differences within the window; average the
    kept differences." *)
Definition spec_spacing (lower upper : float) (peaks : list Float32.t) : float :=
  average (List.filter (in_window lower upper)
                       (differences (removelast (tail (sort peaks))))).

(** What the source keeps: a difference [d] for which neither [d > upper]
    nor [d < lower] holds, that is a difference inside the window, or a
    NaN, for which both comparisons are false. *)
Definition kept (lower upper d : float) : bool :=
  PrimFloat.is_nan d || in_window lower upper d.

(** The pass of the loop on a sum and a count, without the accesses. *)
Definition keep_step (upper lower : float) (acc : float * Z) (d : float)
    : float * Z :=
  if (upper <? d)%float || (d <? lower)%float then acc
  else ((fst acc + d)%float, snd acc + 1).

(** No element is greater than its successor. *)
Definition ascending (l : list Float32.t) : Prop :=
  Sorted (fun x y => Float32.ltb y x = false) l.

(** Four peaks, at 35, 0, 20 and 10, in the order of the search. *)
Definition peaks_example : list Float32.t := Float32.of_Z <$> [35; 0; 20; 10].

(** ** A concrete header layout, for the examples

    A header is given by its declared length and by what each decoding
    function returns for it; it takes 12 words. *)

Module Sim.

Record Header : Type := Build_Header {
  h_length : Z;
  h_channel : option Z;
  h_first : option Z;
  h_peak : option float;
  h_base : option float;
  h_int : option float
}.

(** A header that decodes. *)
Definition good (len channel first : Z) (peak base int : float) : Header :=
  Build_Header len (Some channel) (Some first) (Some peak) (Some base) (Some int).

(** A header for which the decoding throws. *)
Definition corrupt (len : Z) : Header :=
  Build_Header len None None None None None.

(** The memory of a fragment: the records at their addresses; any other
    address shows a header that does not decode. *)
Definition memory (records : list (Z * Header)) (p : Z) : Header :=
  default (corrupt 12) (snd <$> List.find (fun r => fst r =? p) records).

End Sim.

#[global] Instance sim_layout : SSPDAQ.Layout := {|
  SSPDAQ.EventHeader := Sim.Header;
  SSPDAQ.length := Sim.h_length;
  SSPDAQ.header_words := 12
|}.

#[global] Instance sim_algs : SSPReformatterAlgs := {|
  GetOpChannel := Sim.h_channel;
  GetGlobalFirstSample := Sim.h_first;
  GetPeakSum := Sim.h_peak;
  GetBaselineSum := Sim.h_base;
  GetIntegratedSum := Sim.h_int
|}.

(** A peak search that finds nothing. *)
#[global] Instance no_peaks : TSpectrum := {| Search := fun _ _ _ => [] |}.

(** The analyzer at the start of a job, with a 150 MHz sampling clock. *)
Definition ana0 : SSPDiagnosticAna := beginJob (construct 150).

(** A time stamp above the threshold of line 523. *)
Definition late : Z := 2 * 10 ^ 16.

(** A record of 14 words (12 of header, 2 of samples) that does not
    decode, followed by a record of 12 words that does. *)
Definition fragment_corrupt_first (count : Z) : Fragment :=
  Build_Fragment count 0 26
    (Sim.memory [(0, Sim.corrupt 14); (14, Sim.good 12 5 late 1000 500 7000)]).

(** A record of 14 words (12 of header, 2 of samples) on channel 3 that
    decodes and whose first-sample time, 1000, is below the threshold,
    followed by a record of 12 words on channel 5 with a valid time. *)
Definition fragment_flagged_first (count : Z) : Fragment :=
  Build_Fragment count 0 26
    (Sim.memory [(0, Sim.good 14 3 1000 1000 500 7000);
                 (14, Sim.good 12 5 late 1000 500 7000)]).

(** A data region of 5 words, shorter than one header. *)
Definition fragment_short : Fragment :=
  Build_Fragment 0 0 5 (Sim.memory [(0, Sim.good 12 5 late 1000 500 7000)]).

(** Three records of 12 words, on channels 1, 1 and 2. *)
Definition fragment_three (count : Z) : Fragment :=
  Build_Fragment count 0 36
    (Sim.memory [(0, Sim.good 12 1 late 1000 500 7000);
                 (12, Sim.good 12 1 late 1100 500 7100);
                 (24, Sim.good 12 2 late 1200 500 7200)]).

(** One record whose declared length, 0, is below the header size. *)
Definition fragment_bad_length : Fragment :=
  Build_Fragment 1 0 12 (Sim.memory [(0, Sim.good 0 5 late 1000 500 7000)]).

(** An event with no fragment and one waveform of two samples on
    channel 7. *)
Definition event_waveform7 : Event :=
  Build_Event (Some []) [Build_OpDetWaveform 7 [1500; 1600]].

(** An event with the same waveform and one fragment of two records, on
    channels 7 and 150. *)
Definition event_channels_7_150 : Event :=
  Build_Event
    (Some [Build_Fragment 0 0 24
             (Sim.memory [(0, Sim.good 12 7 late 1000 500 7000);
                          (12, Sim.good 12 150 late 1100 500 7100)])])
    [Build_OpDetWaveform 7 [1500; 1600]].

(** The first run of a job that sees [event_channels_7_150], to the end
    of the run (run 5): the analyzer after the event, the analyzer after
    [endRun], and the calibration report. *)
Definition job_channels_7_150
    : option (SSPDiagnosticAna * SSPDiagnosticAna * list Calibration) :=
  a1 ← analyze event_channels_7_150 (beginRun ana0);
  r ← endRun 5 a1;
  Some (a1, fst r, snd r).

(** Two amplitude distributions: two pulses of amplitude 99 for run 5,
    one pulse of amplitude 45 for run 3. *)
Definition amplitudes_run5 : TH1D.t :=
  TH1D.Fill (TH1D.Fill (TH1D.make 125 (-20) 230) 99) 99.

Definition amplitudes_run3 : TH1D.t :=
  TH1D.Fill (TH1D.make 125 (-20) 230) 45.

(** ** The records of a fragment *)

Section Records.

Context `{Algs : SSPReformatterAlgs}.

(** What one pass of the trigger loop leaves in the analyzer for the
    header it reads: the fills of the [try] block, and the counting of
    lines 533-535 when the block runs to its end. *)
Definition process_record (daqHeader : SSPDAQ.EventHeader)
    (a : SSPDiagnosticAna) : SSPDiagnosticAna :=
  match try_block daqHeader a with
  | (a, Completed OpChannel FirstSample) => count_trigger OpChannel FirstSample a
  | (a, _) => a
  end.

(** The channel whose histograms a header fills: the one it decodes to,
    when every decoding function returns. *)
Definition filled_channel (daqHeader : SSPDAQ.EventHeader) : option Z :=
  match GetOpChannel daqHeader, GetGlobalFirstSample daqHeader,
        GetPeakSum daqHeader, GetBaselineSum daqHeader,
        GetIntegratedSum daqHeader with
  | Some c, Some _, Some _, Some _, Some _ => Some (u16 c)
  | _, _, _, _, _ => None
  end.

(** The channel for which a header is counted: the channel it fills,
    when its time stamp passes the test of line 523. *)
Definition counted_channel (daqHeader : SSPDAQ.EventHeader) : option Z :=
  match filled_channel daqHeader, GetGlobalFirstSample daqHeader with
  | Some channel, Some f =>
      if problem_timestamp (u64 f) then None else Some channel
  | _, _ => None
  end.

(** A record keeps the walk in step when the pass over it ends at the
    start of the next record: its declared length is at least the header
    size and below header size + 2^31, and either the pass reaches line
    538 or the record has no samples. *)
Definition in_step (daqHeader : SSPDAQ.EventHeader) : Prop :=
  SSPDAQ.header_words <= SSPDAQ.length daqHeader
    < SSPDAQ.header_words + 2 ^ 31 /\
  (is_Some (counted_channel daqHeader) \/
   SSPDAQ.length daqHeader = SSPDAQ.header_words).

(** The records that start at [starts] fill the data region from [p] to
    its end, each as long as it declares, and each keeps the walk in
    step. *)
Fixpoint tiled (frag : Fragment) (p : Z) (starts : list Z) : Prop :=
  match starts with
  | [] => p = dataEnd frag
  | q :: rest =>
      q = p /\ p < dataEnd frag /\
      in_step (headerAt frag p) /\
      tiled frag (p + SSPDAQ.length (headerAt frag p)) rest
  end.

End Records.

(** The number of entries of the histogram of a channel, 0 when the
    channel has none. *)
Definition entries1 (m : gmap Z TH1D.t) (channel : Z) : Z :=
  default 0 (TH1D.fEntries <$> m !! channel).

Definition entries2 (m : gmap Z TH2D.t) (channel : Z) : Z :=
  default 0 (TH2D.fEntries <$> m !! channel).

(** ** The time span of the rate report of endRun (line 199) *)

(** The value of an [unsigned long] read as a [long int]. *)
Definition s64 (z : Z) : Z :=
  if u64 z <? 2 ^ 63 then u64 z else u64 z - 2 ^ 64.

(** Line 199: [long int deltaT = lastTime-firstTime]. *)
Definition deltaT (a : SSPDiagnosticAna) : Z :=
  s64 (lastTime a - firstTime a).

(** ** What the analyzer keeps true of its maps *)

(** The three maps filled by the trigger loop hold the same channels,
    which are [unsigned short] values; the amplitude histograms have the
    amplitude axis; and the three histograms of a channel have the same
    number of entries. *)
Definition per_channel_ok (a : SSPDiagnosticAna) : Prop :=
  (forall channel,
     is_Some (PulseAmplitudePerChannel a !! channel) ->
     0 <= channel < 2 ^ 16) /\
  (forall channel,
     (is_Some (PulseAmplitudePerChannel a !! channel) <->
      is_Some (IntegratedChargePerChannel a !! channel)) /\
     (is_Some (PulseAmplitudePerChannel a !! channel) <->
      is_Some (PulseAmplitudeVsIntegratedChargePerChannel a !! channel))) /\
  (forall channel h,
     PulseAmplitudePerChannel a !! channel = Some h ->
     TH1D.fXaxis h = amplitude_axis) /\
  (forall channel,
     entries1 (PulseAmplitudePerChannel a) channel =
       entries1 (IntegratedChargePerChannel a) channel /\
     entries1 (PulseAmplitudePerChannel a) channel =
       entries2 (PulseAmplitudeVsIntegratedChargePerChannel a) channel).

(** Once a trigger is counted, [firstTime] is not above [lastTime]. *)
Definition timing_ok (a : SSPDiagnosticAna) : Prop :=
  triggerCount a <> ∅ -> firstTime a <= lastTime a.

(** Every summary has one bin per run and the amplitude axis. *)
Definition summaries_ok (a : SSPDiagnosticAna) : Prop :=
  forall i h, PulseAmpVsRun a !! i = Some h -> unit_bins h.

(** Every summary spans run numbers that are [int] values. *)
Definition summaries_int (a : SSPDiagnosticAna) : Prop :=
  forall i h, PulseAmpVsRun a !! i = Some h -> int_runs h.

(** What every state of a job keeps true. *)
Definition job_invariant (a : SSPDiagnosticAna) : Prop :=
  per_channel_ok a /\ timing_ok a /\
  forall i, is_Some (PulseAmpVsRun a !! i) -> 0 <= i < 100.

(** ** The states of a job *)

Section Job.

Context `{Algs : SSPReformatterAlgs} `{Spectrum : TSpectrum}.

(** The states the framework drives the analyzer through: [beginJob]
    after the constructor, then [beginRun], [analyze] and [endRun] in any
    order and any number of times, for run numbers below [2^32 - 1]. *)
Inductive reachable : SSPDiagnosticAna -> Prop :=
  | reach_beginJob (sampleFreq : float) :
      reachable (beginJob (construct sampleFreq))
  | reach_beginRun (a : SSPDiagnosticAna) :
      reachable a -> reachable (beginRun a)
  | reach_analyze (evt : Event) (a a' : SSPDiagnosticAna) :
      reachable a -> analyze evt a = Some a' -> reachable a'
  | reach_endRun (run : Z) (a a' : SSPDiagnosticAna)
      (report : list Calibration) :
      reachable a -> 0 <= run < 2 ^ 32 - 1 ->
      endRun run a = Some (a', report) -> reachable a'.

(** The same states when every run number is an [int] whose successor is
    an [int] too, that is when it is below [2^31 - 1]: the states in which
    the conversions and the [int] sums of lines 322-324 are exact. *)
Inductive reachable_int : SSPDiagnosticAna -> Prop :=
  | reach_int_beginJob (sampleFreq : float) :
      reachable_int (beginJob (construct sampleFreq))
  | reach_int_beginRun (a : SSPDiagnosticAna) :
      reachable_int a -> reachable_int (beginRun a)
  | reach_int_analyze (evt : Event) (a a' : SSPDiagnosticAna) :
      reachable_int a -> analyze evt a = Some a' -> reachable_int a'
  | reach_int_endRun (run : Z) (a a' : SSPDiagnosticAna)
      (report : list Calibration) :
      reachable_int a -> 0 <= run < 2 ^ 31 - 1 ->
      endRun run a = Some (a', report) -> reachable_int a'.

End Job.

(** The channels [endRun] works on hold every histogram it formats. *)
Definition formattable (a : SSPDiagnosticAna) : Prop :=
  forall i, 0 <= i < 100 ->
    is_Some (PulseAmplitudePerChannel a !! i) ->
    is_Some (IntegratedChargePerChannel a !! i) /\
    is_Some (PulseAmplitudeVsIntegratedChargePerChannel a !! i) /\
    is_Some (averageWaveforms a !! i).

(** [x] is [a] with the statistics box switched off in the histograms of
    the channels below [n] that have an amplitude histogram, and nothing
    else changed. *)
Definition formatted (n : Z) (a x : SSPDiagnosticAna) : Prop :=
  (forall j, PulseAmplitudePerChannel x !! j =
     if decide (0 <= j < n /\ is_Some (PulseAmplitudePerChannel a !! j))
     then (fun h => TH1D.SetStats h false) <$> PulseAmplitudePerChannel a !! j
     else PulseAmplitudePerChannel a !! j) /\
  (forall j, IntegratedChargePerChannel x !! j =
     if decide (0 <= j < n /\ is_Some (PulseAmplitudePerChannel a !! j))
     then (fun h => TH1D.SetStats h false) <$> IntegratedChargePerChannel a !! j
     else IntegratedChargePerChannel a !! j) /\
  (forall j, PulseAmplitudeVsIntegratedChargePerChannel x !! j =
     if decide (0 <= j < n /\ is_Some (PulseAmplitudePerChannel a !! j))
     then (fun h => TH2D.SetStats h false)
            <$> PulseAmplitudeVsIntegratedChargePerChannel a !! j
     else PulseAmplitudeVsIntegratedChargePerChannel a !! j) /\
  (forall j, averageWaveforms x !! j =
     if decide (0 <= j < n /\ is_Some (PulseAmplitudePerChannel a !! j))
     then (fun h => TH2D.SetStats h false) <$> averageWaveforms a !! j
     else averageWaveforms a !! j) /\
  PulseAmpVsRun x = PulseAmpVsRun a /\
  fPulseAmplitude x = fPulseAmplitude a /\
  fSampleFreq x = fSampleFreq a /\
  firstTime x = firstTime a /\
  lastTime x = lastTime a /\
  triggerCount x = triggerCount a.

(** ** The calibration report *)

Section ReportLines.

Context `{Spectrum : TSpectrum}.

(** What a line of the report holds for the analyzer [a]: the averages
    of the kept differences of the peaks found in the amplitude and in the
    charge histogram of its channel. *)
Definition line_of (a : SSPDiagnosticAna) (line : Calibration) : Prop :=
  exists hA hQ,
    PulseAmplitudePerChannel a !! cal_channel line = Some hA /\
    IntegratedChargePerChannel a !! cal_channel line = Some hQ /\
    cal_ADCperPE line =
      average (List.filter (kept 10 20)
                 (differences (tail (sort (Search hA 1.5 0.001))))) /\
    cal_INTperPE line =
      average (List.filter (kept 1000 1800)
                 (differences (tail (sort (Search hQ 2.5 0.001))))).

End ReportLines.

(** ** Two more states for the examples *)

(** The analyzer after [event_channels_7_150] in the first run of a job,
    and after the end of that run, run 5. *)
Definition after_event_7_150 : SSPDiagnosticAna :=
  default ana0 (analyze event_channels_7_150 (beginRun ana0)).

Definition after_run5 : SSPDiagnosticAna :=
  default ana0 (fst <$> endRun 5 after_event_7_150).

(** * Proofs *)

(** ** Binary64 facts *)

Lemma digits2_pos_iter_xO (n m : positive) :
  Zpos (digits2_pos (Pos.iter xO m n)) = Zpos (digits2_pos m) + Zpos n.
Proof.
  induction n as [|n IH] using Pos.peano_ind.
  - cbn [Pos.iter digits2_pos]. lia.
  - rewrite Pos.iter_succ. cbn [digits2_pos]. lia.
Qed.

Lemma SF64mul_one_r (x : spec_float) :
  valid_binary x = true ->
  SF64mul x (S754_finite false 4503599627370496 (-52)) = x.
Proof.
  destruct x as [s|s| |s m e]; unfold SF64mul;
    cbn [SFmul SpecFloat.valid_binary]; intros Hv.
  - now destruct s.
  - now destruct s.
  - reflexivity.
  - unfold bounded, canonical_mantissa in Hv.
    apply andb_prop in Hv as [Hc He].
    apply Z.eqb_eq in Hc.
    rewrite Pos.mul_comm.
    change (4503599627370496 * m)%positive with (Pos.iter xO m 52).
    unfold binary_round_aux, shr_fexp.
    cbn [Zdigits2]. rewrite digits2_pos_iter_xO.
    replace (Z.pos (digits2_pos m) + 52 + (e + -52))
      with (Z.pos (digits2_pos m) + e) by lia.
    rewrite Hc.
    replace (e - (e + -52)) with 52 by lia.
    cbn [shr shr_record_of_loc SpecFloat.iter_pos shr_1 Pos.iter orb shr_m
         loc_of_shr_record round_nearest_even].
    replace (e + -52 + 52) with e by lia.
    cbn [Zdigits2]. rewrite Hc, Z.sub_diag.
    cbn [shr shr_record_of_loc shr_m].
    rewrite He. now destruct s.
Qed.

(** Multiplying a double by 1.0 returns it unchanged, whatever it is. *)
Lemma float_mul_1_r (x : float) : (x * 1)%float = x.
Proof.
  apply Prim2SF_inj.
  rewrite mul_spec.
  change (Prim2SF 1) with (S754_finite false 4503599627370496 (-52)).
  apply SF64mul_one_r, Prim2SF_valid.
Qed.

(** C4. For all baseline, peak and integrated sums the amplitude is
    [-B/W2 + P/W1] and the charge is [I - (B/W2)*W1i], in binary64
    arithmetic with the signs and the order of operations of the
    specification and with W1 = 10, W2 = 500, W1i = 500; the baseline sum
    500 and the peak sum 1000 give the amplitude 99.0. *)
Theorem derived_quantities_formulas :
  (forall B P : float, PulseAmplitude B P = spec_amplitude 10 500 B P) /\
  (forall B I : float, IntegratedCharge B I = spec_charge 500 500 B I) /\
  PulseAmplitude 500 1000 = 99%float.
Proof.
  split; [|split].
  - intros B P. unfold PulseAmplitude, spec_amplitude.
    rewrite !float_mul_1_r. reflexivity.
  - intros B I. unfold IntegratedCharge, spec_charge.
    rewrite float_mul_1_r. reflexivity.
  - vm_compute. reflexivity.
Qed.

(** ** The trigger loop *)

Section TriggerLoopFacts.

Context `{Algs : SSPReformatterAlgs}.

Lemma nADC_range (h : SSPDAQ.EventHeader) : 0 <= nADC h < 2 ^ 32.
Proof. unfold nADC, u32. apply Z.mod_pos_bound. lia. Qed.

Lemma loop_body_cursor (frag : Fragment) (c : Cursor) (a : SSPDiagnosticAna) :
  let c' := fst (loop_body frag c a) in
  triggersProcessed c' = u32 (triggersProcessed c + 1) /\
  headersRead c' = headersRead c ++ [dataPointer c] /\
  dataPointer c + SSPDAQ.header_words <= dataPointer c'.
Proof.
  unfold loop_body.
  pose proof (nADC_range (headerAt frag (dataPointer c))) as Hn.
  assert (0 <= nADC (headerAt frag (dataPointer c)) / 2) by (apply Z.div_pos; lia).
  destruct (try_block _ a) as [a' [ch fs| |]]; cbn; repeat split; lia.
Qed.

(** An invariant of the loop that holds at the start still holds when
    the loop ends, and the loop ends: the steps allowed by the size of the
    data region are enough. *)
Lemma trigger_loop_invariant (frag : Fragment)
    (P : Cursor -> SSPDiagnosticAna -> Prop) :
  0 < SSPDAQ.header_words ->
  (forall c a, P c a -> loop_test frag c = true ->
     P (fst (loop_body frag c a)) (snd (loop_body frag c a))) ->
  forall (fuel : nat) (c : Cursor) (a : SSPDiagnosticAna),
    dataEnd frag - dataPointer c <= Z.of_nat fuel ->
    P c a ->
    exists c' a', trigger_loop fuel frag c a = Some (c', a') /\
                  P c' a' /\ loop_test frag c' = false.
Proof.
  intros Hw Hstep fuel.
  induction fuel as [|fuel IH]; intros c a Hfuel HP; cbn [trigger_loop].
  - destruct (loop_test frag c) eqn:Ht.
    + unfold loop_test in Ht. apply andb_prop in Ht as [_ Ht].
      apply Z.ltb_lt in Ht. lia.
    + eauto.
  - destruct (loop_test frag c) eqn:Ht; [|eauto].
    pose proof (Hstep c a HP Ht) as HP'.
    pose proof (loop_body_cursor frag c a) as (_ & _ & Hp).
    destruct (loop_body frag c a) as [c1 a1]. cbn [fst snd] in *.
    apply IH; [lia|done].
Qed.

End TriggerLoopFacts.

Section FragmentWalk.

Context `{Algs : SSPReformatterAlgs}.

(** When the decoding throws, the pointer has moved over the header
    only: line 538 is not reached from the handler of line 529. *)
Lemma loop_body_thrown (frag : Fragment) (c : Cursor) (a : SSPDiagnosticAna) :
  snd (try_block (headerAt frag (dataPointer c)) a) = Thrown ->
  dataPointer (fst (loop_body frag c a)) = dataPointer c + SSPDAQ.header_words /\
  snd (loop_body frag c a) = a.
Proof.
  unfold loop_body, try_block.
  destruct (GetOpChannel _); [|done].
  destruct (GetGlobalFirstSample _); [|done].
  destruct (GetPeakSum _); [|done].
  destruct (GetBaselineSum _); [|done].
  destruct (GetIntegratedSum _); [|done].
  destruct (problem_timestamp _); done.
Qed.

(** C5 (amended). With a declared trigger count of 0 the walk ends, and it
    ends exactly when the data pointer is no longer below the declared data
    end: every header it has read starts inside the data region, below the
    data end, and the final pointer is at or beyond the data end. *)
Theorem walk_count0_stops_at_data_end (frag : Fragment) (a : SSPDiagnosticAna) :
  nTriggers frag = 0 ->
  0 < SSPDAQ.header_words ->
  exists c a',
    walk_fragment frag a = Some (c, a') /\
    dataEnd frag <= dataPointer c /\
    Forall (fun p => dataBegin frag <= p < dataEnd frag) (headersRead c).
Proof.
  intros Hn Hw. unfold walk_fragment.
  destruct (trigger_loop_invariant frag
    (fun c _ => Forall (fun p => dataBegin frag <= p < dataEnd frag) (headersRead c)
                /\ dataBegin frag <= dataPointer c) Hw)
    with (fuel := Z.to_nat (dataEnd frag - dataBegin frag))
         (c := Build_Cursor 0 (dataBegin frag) []) (a := a)
    as (c' & a' & Hrun & [Hall _] & Hstop).
  - intros c a0 [Hall Hlow] Htest.
    pose proof (loop_body_cursor frag c a0) as (_ & Hread & Hp).
    cbn zeta in Hread, Hp. rewrite Hread. split; [|lia].
    apply Forall_app; split; [done|].
    apply Forall_singleton.
    unfold loop_test in Htest. apply andb_prop in Htest as [_ Hlt].
    apply Z.ltb_lt in Hlt. lia.
  - cbn. lia.
  - cbn. split; [constructor|lia].
  - exists c', a'. split; [done|]. split; [|done].
    unfold loop_test in Hstop. rewrite Hn in Hstop. cbn in Hstop.
    apply Z.ltb_ge in Hstop. done.
Qed.

(** C6. With a declared trigger count N > 0 the walk ends after at most
    N passes: the number of headers read is the final value of the trigger
    counter, it does not exceed N, and the walk stops short of N passes
    only when the data pointer has reached the declared data end. *)
Theorem walk_countN_at_most_N (frag : Fragment) (a : SSPDiagnosticAna) :
  0 < nTriggers frag < 2 ^ 32 ->
  0 < SSPDAQ.header_words ->
  exists c a',
    walk_fragment frag a = Some (c, a') /\
    Z.of_nat (List.length (headersRead c)) = triggersProcessed c /\
    triggersProcessed c <= nTriggers frag /\
    (triggersProcessed c = nTriggers frag \/ dataEnd frag <= dataPointer c).
Proof.
  intros HN Hw. unfold walk_fragment.
  destruct (trigger_loop_invariant frag
    (fun c _ => Z.of_nat (List.length (headersRead c)) = triggersProcessed c
                /\ 0 <= triggersProcessed c <= nTriggers frag) Hw)
    with (fuel := Z.to_nat (dataEnd frag - dataBegin frag))
         (c := Build_Cursor 0 (dataBegin frag) []) (a := a)
    as (c' & a' & Hrun & [Hlen Hle] & Hstop).
  - intros c a0 [Hlen Hle] Htest.
    pose proof (loop_body_cursor frag c a0) as (Htp & Hread & _).
    cbn zeta in Htp, Hread. rewrite Htp, Hread, length_app. cbn [List.length].
    unfold loop_test in Htest. apply andb_prop in Htest as [Hc _].
    apply orb_prop in Hc as [Hc|Hc]; [apply Z.eqb_eq in Hc; lia|].
    apply Z.ltb_lt in Hc.
    unfold u32. rewrite Z.mod_small by lia. lia.
  - cbn. lia.
  - cbn. lia.
  - exists c', a'. repeat split; [done|done|lia|].
    unfold loop_test in Hstop. apply andb_false_iff in Hstop as [Hc|Hc].
    + apply orb_false_iff in Hc as [_ Hc]. apply Z.ltb_ge in Hc. left. lia.
    + apply Z.ltb_ge in Hc. right. lia.
Qed.

(** C7 (amended). [nADC] is the unsigned 32-bit value of
    2 * (length - header size): it lies in [0, 2^32) whatever the declared
    length, and it is 2 * (length - header size) itself when the length is
    at least the header size and below header size + 2^31. The loop makes
    no check of the declared length: two headers that decode alike leave
    the same statistics whatever their lengths, and the pointer moves by the
    header size, plus [nADC / 2] when the pass reaches line 538. *)
Theorem nADC_wraps_and_length_unchecked (frag1 frag2 : Fragment) (c : Cursor)
    (a : SSPDiagnosticAna) :
  let h1 := headerAt frag1 (dataPointer c) in
  let h2 := headerAt frag2 (dataPointer c) in
  GetOpChannel h1 = GetOpChannel h2 ->
  GetGlobalFirstSample h1 = GetGlobalFirstSample h2 ->
  GetPeakSum h1 = GetPeakSum h2 ->
  GetBaselineSum h1 = GetBaselineSum h2 ->
  GetIntegratedSum h1 = GetIntegratedSum h2 ->
  (0 <= nADC h1 < 2 ^ 32 /\
   nADC h1 = (2 * (SSPDAQ.length h1 - SSPDAQ.header_words)) mod 2 ^ 32 /\
   (SSPDAQ.header_words <= SSPDAQ.length h1 < SSPDAQ.header_words + 2 ^ 31 ->
    nADC h1 = 2 * (SSPDAQ.length h1 - SSPDAQ.header_words))) /\
  snd (loop_body frag1 c a) = snd (loop_body frag2 c a) /\
  dataPointer (fst (loop_body frag1 c a)) =
    dataPointer c + SSPDAQ.header_words +
    match snd (try_block h1 a) with
    | Completed _ _ => nADC h1 / 2
    | _ => 0
    end.
Proof.
  intros h1 h2 E1 E2 E3 E4 E5.
  split; [|split].
  - split; [apply nADC_range|].
    unfold nADC, u32. rewrite (Z.mul_comm _ 2). split; [done|].
    intros Hr. apply Z.mod_small. lia.
  - assert (try_block h1 a = try_block h2 a) as Et.
    { unfold try_block. rewrite E1, E2, E3, E4, E5. done. }
    unfold loop_body. fold h1 h2. rewrite Et.
    destruct (try_block h2 a) as [a' [ch fs| |]]; done.
  - unfold loop_body. fold h1.
    destruct (try_block h1 a) as [a' [ch fs| |]]; cbn; lia.
Qed.

(** Every record that decodes and whose first-sample time is below the
    threshold has its amplitude and its charge filled, for its channel and
    in the job-wide amplitude histogram, and changes neither [firstTime]
    nor [lastTime] nor the trigger counts. The pass ends with the [continue]
    of line 526: the trigger counter is one higher and the pointer has
    moved over the header only, line 538 is not reached. *)
Lemma problem_timestamp_filled_not_counted (frag : Fragment) (c : Cursor)
    (a : SSPDiagnosticAna) (ch fs : Z) (peakSum prerise integratedSum : float) :
  let daqHeader := headerAt frag (dataPointer c) in
  let channel := u16 ch in
  let amplitude := PulseAmplitude prerise peakSum in
  let charge := IntegratedCharge prerise integratedSum in
  GetOpChannel daqHeader = Some ch ->
  GetGlobalFirstSample daqHeader = Some fs ->
  GetPeakSum daqHeader = Some peakSum ->
  GetBaselineSum daqHeader = Some prerise ->
  GetIntegratedSum daqHeader = Some integratedSum ->
  problem_timestamp (u64 fs) = true ->
  let c' := fst (loop_body frag c a) in
  let a' := snd (loop_body frag c a) in
  (PulseAmplitudePerChannel a' !! channel =
     Some (TH1D.Fill (default (TH1D.make 125 (-20) 230)
                        (PulseAmplitudePerChannel a !! channel)) amplitude) /\
   IntegratedChargePerChannel a' !! channel =
     Some (TH1D.Fill (default (TH1D.make 300 0 3e4)
                        (IntegratedChargePerChannel a !! channel)) charge) /\
   fPulseAmplitude a' = TH1D.Fill (fPulseAmplitude a) amplitude) /\
  (firstTime a' = firstTime a /\ lastTime a' = lastTime a /\
   triggerCount a' = triggerCount a) /\
  (triggersProcessed c' = u32 (triggersProcessed c + 1) /\
   dataPointer c' = dataPointer c + SSPDAQ.header_words).
Proof.
  intros daqHeader channel amplitude charge E1 E2 E3 E4 E5 Hts c' a'.
  assert (loop_body frag c a =
          (Build_Cursor (u32 (triggersProcessed c + 1))
                        (dataPointer c + SSPDAQ.header_words)
                        (headersRead c ++ [dataPointer c]),
           fill_trigger channel amplitude charge a)) as Hbody.
  { unfold loop_body, try_block. fold daqHeader.
    rewrite E1, E2, E3, E4, E5, Hts. done. }
  subst c' a'. rewrite Hbody. cbn [fst snd].
  split; [|split].
  - unfold fill_trigger, book; cbn.
    repeat split.
    + destruct (PulseAmplitudePerChannel a !! channel) as [h|] eqn:E.
      * by rewrite lookup_alter_eq, E.
      * by rewrite lookup_alter_eq, lookup_insert_eq.
    + destruct (IntegratedChargePerChannel a !! channel) as [h|] eqn:E.
      * by rewrite lookup_alter_eq, E.
      * by rewrite lookup_alter_eq, lookup_insert_eq.
  - done.
  - done.
Qed.

(** The walk over a fragment always ends, and so does the analysis of an
    event. *)
Lemma walk_fragment_total (frag : Fragment) (a : SSPDiagnosticAna) :
  0 < SSPDAQ.header_words ->
  is_Some (walk_fragment frag a).
Proof.
  intros Hw. unfold walk_fragment.
  destruct (trigger_loop_invariant frag (fun _ _ => True) Hw)
    with (fuel := Z.to_nat (dataEnd frag - dataBegin frag))
         (c := Build_Cursor 0 (dataBegin frag) []) (a := a)
    as (c' & a' & Hrun & _); [done|cbn; lia|done|].
  rewrite Hrun. eauto.
Qed.

Lemma analyze_total (evt : Event) (a : SSPDiagnosticAna) :
  0 < SSPDAQ.header_words ->
  is_Some (analyze evt a).
Proof.
  intros Hw. unfold analyze.
  destruct (rawFragments evt) as [frags|]; [|eauto].
  generalize (foldl add_waveform a (waveforms evt)). clear a.
  induction frags as [|frag frags IH]; intros a; cbn [foldl]; [eauto|].
  cbn [mbind option_bind].
  destruct (walk_fragment_total frag a Hw) as [[c a'] Hwalk].
  rewrite Hwalk. cbn. apply IH.
Qed.

End FragmentWalk.

(** ** The walk on concrete fragments *)

(** Splits the conjunctions of a goal, and nothing else. *)
Ltac split_all := repeat match goal with |- _ /\ _ => split end.

Lemma walk_count0_witness :
  exists c a',
    walk_fragment (fragment_three 0) ana0 = Some (c, a') /\
    dataEnd (fragment_three 0) <= dataPointer c /\
    Forall (fun p => dataBegin (fragment_three 0) <= p < dataEnd (fragment_three 0))
           (headersRead c).
Proof.
  apply (walk_count0_stops_at_data_end (fragment_three 0) ana0);
    [reflexivity | cbn; lia].
Defined.

(** A data region of 5 words with a trigger count of 0: the one header
    read covers the words 0 to 11, and the walk stops with the pointer at
    12, beyond the data end. *)
Lemma walk_count0_reads_past_data_end :
  exists c a',
    walk_fragment fragment_short ana0 = Some (c, a') /\
    dataEnd fragment_short < dataPointer c /\
    ~ Forall (fun w => w < dataEnd fragment_short) (words_read c).
Proof.
  eexists. eexists. split; [vm_compute; reflexivity|].
  split; [vm_compute; reflexivity|].
  intros Hall. rewrite Forall_forall in Hall.
  specialize (Hall 11). cbn in Hall.
  assert (11 < 5) by (apply Hall; vm_compute; set_solver).
  lia.
Qed.

Lemma walk_countN_witness :
  exists c a',
    walk_fragment (fragment_three 2) ana0 = Some (c, a') /\
    Z.of_nat (List.length (headersRead c)) = triggersProcessed c /\
    triggersProcessed c <= nTriggers (fragment_three 2) /\
    (triggersProcessed c = nTriggers (fragment_three 2) \/
     dataEnd (fragment_three 2) <= dataPointer c).
Proof.
  apply (walk_countN_at_most_N (fragment_three 2) ana0); cbn; lia.
Defined.

(** With a trigger count of 2 and three records in the data region the
    walk stops after the second record, 12 words before the data end. *)
Lemma walk_count2_leaves_third_record :
  exists c a',
    walk_fragment (fragment_three 2) ana0 = Some (c, a') /\
    headersRead c = [0; 12] /\
    dataPointer c = 24 /\ dataEnd (fragment_three 2) = 36 /\
    triggerCount a' = {[ 1 := 2 ]}.
Proof.
  eexists. eexists. split; [vm_compute; reflexivity|].
  split_all; vm_compute; reflexivity.
Qed.

(** C1, at a fragment whose first record declares 14 words and does not
    decode: the walk reads its next header at word 12, inside that record,
    and never at word 14, where the next record starts; the record there,
    which decodes, leaves no entry in any histogram or counter. *)
Theorem corrupt_record_payload_not_skipped :
  exists c a',
    walk_fragment (fragment_corrupt_first 0) ana0 = Some (c, a') /\
    SSPDAQ.length (headerAt (fragment_corrupt_first 0) 0) = 14 /\
    headersRead c = [0; 12; 24] /\
    is_Some (GetOpChannel (headerAt (fragment_corrupt_first 0) 14)) /\
    PulseAmplitudePerChannel a' = ∅ /\
    triggerCount a' = ∅.
Proof.
  eexists. eexists. split; [vm_compute; reflexivity|].
  split_all; try (vm_compute; reflexivity).
  vm_compute. eauto.
Qed.

(** C8, at a fragment whose first record declares 14 words, decodes,
    and has a first-sample time below the threshold. The record is filled
    (one entry for channel 3, in the three per-channel histograms and in
    the job-wide one) and it is not counted: the trigger counts stay
    empty, [firstTime] and [lastTime] keep their initial values. But the
    walk over the remaining records does not go on as the claim says: the
    [continue] of line 526 skips line 538, the next header is read at word
    12, inside the flagged record, then at word 24, and never at word 14,
    where the next record starts; that record, which decodes with a valid
    time, leaves no entry in any histogram or counter. *)
Theorem flagged_record_payload_not_skipped :
  exists c a',
    walk_fragment (fragment_flagged_first 0) ana0 = Some (c, a') /\
    SSPDAQ.length (headerAt (fragment_flagged_first 0) 0) = 14 /\
    filled_channel (headerAt (fragment_flagged_first 0) 0) = Some 3 /\
    counted_channel (headerAt (fragment_flagged_first 0) 0) = None /\
    counted_channel (headerAt (fragment_flagged_first 0) 14) = Some 5 /\
    headersRead c = [0; 12; 24] /\
    map_to_list (TH1D.fEntries <$> PulseAmplitudePerChannel a') = [(3, 1)] /\
    map_to_list (TH1D.fEntries <$> IntegratedChargePerChannel a') = [(3, 1)] /\
    map_to_list (TH2D.fEntries <$> PulseAmplitudeVsIntegratedChargePerChannel a')
      = [(3, 1)] /\
    TH1D.fEntries (fPulseAmplitude a') = 1 /\
    triggerCount a' = ∅ /\
    firstTime a' = firstTime ana0 /\
    lastTime a' = lastTime ana0.
Proof.
  eexists. eexists. split; [vm_compute; reflexivity|].
  split_all; vm_compute; reflexivity.
Qed.

(** A record that declares a length of 0 words: 2 * (0 - 12) is negative,
    [nADC] is 2^32 - 24, and the record is not skipped: it is filled and
    counted, and the pointer moves 12 + 2^31 - 12 words forward. *)
Lemma bad_length_processed :
  let h := headerAt fragment_bad_length 0 in
  2 * (SSPDAQ.length h - SSPDAQ.header_words) < 0 /\
  nADC h = 4294967272 /\
  exists c a',
    walk_fragment fragment_bad_length ana0 = Some (c, a') /\
    triggerCount a' = {[ 5 := 1 ]} /\
    TH1D.fEntries <$> PulseAmplitudePerChannel a' = {[ 5 := 1 ]} /\
    dataPointer c = 2147483648.
Proof.
  split; [vm_compute; reflexivity|].
  split; [vm_compute; reflexivity|].
  eexists. eexists. split; [vm_compute; reflexivity|].
  split_all; vm_compute; reflexivity.
Qed.

Lemma nADC_wraps_witness :
  let frag1 := fragment_bad_length in
  let frag2 := fragment_short in
  let c := Build_Cursor 0 0 [] in
  snd (loop_body frag1 c ana0) = snd (loop_body frag2 c ana0) /\
  nADC (headerAt frag1 0) = (2 * (0 - 12)) mod 2 ^ 32.
Proof.
  intros frag1 frag2 c.
  pose proof (nADC_wraps_and_length_unchecked frag1 frag2 c ana0
                eq_refl eq_refl eq_refl eq_refl eq_refl) as (Hn & Hs & _).
  split; [exact Hs|]. exact (proj1 (proj2 Hn)).
Defined.

(** A record on channel 3 whose time stamp, 1000, is below the threshold. *)
Lemma problem_timestamp_witness :
  let frag :=
    Build_Fragment 0 0 24
      (Sim.memory [(0, Sim.good 12 3 1000 1000 500 7000);
                   (12, Sim.good 12 4 late 1000 500 7000)]) in
  let c := Build_Cursor 0 0 [] in
  let a' := snd (loop_body frag c ana0) in
  TH1D.fEntries <$> PulseAmplitudePerChannel a' !! 3 = Some 1 /\
  triggerCount a' = ∅ /\
  firstTime a' = 2 ^ 63 /\
  dataPointer (fst (loop_body frag c ana0)) = 12.
Proof.
  intros frag c a'.
  pose proof (problem_timestamp_filled_not_counted frag c ana0 3 1000 1000 500 7000
                eq_refl eq_refl eq_refl eq_refl eq_refl eq_refl)
    as ((HA & _ & _) & (Hf & _ & Hc) & (_ & Hp)).
  split; [|split; [|split]].
  - exact (f_equal (fmap TH1D.fEntries) HA).
  - exact Hc.
  - exact Hf.
  - exact Hp.
Defined.

(** ** The start of a run *)

(** C2, at two runs that each see one waveform of two samples on channel
    7. [beginRun] empties the amplitude, the charge and the
    amplitude-versus-charge maps, and leaves [averageWaveforms] as it is:
    at the start of the second run the waveform histogram of channel 7
    still holds the two entries of the first run, and the second run adds
    its two entries to them. *)
Theorem beginRun_keeps_averageWaveforms :
  (forall a,
     PulseAmplitudePerChannel (beginRun a) = ∅ /\
     IntegratedChargePerChannel (beginRun a) = ∅ /\
     PulseAmplitudeVsIntegratedChargePerChannel (beginRun a) = ∅ /\
     averageWaveforms (beginRun a) = averageWaveforms a) /\
  exists a1 a2,
    analyze event_waveform7 (beginRun ana0) = Some a1 /\
    analyze event_waveform7 (beginRun a1) = Some a2 /\
    TH2D.fEntries <$> averageWaveforms (beginRun a1) !! 7 = Some 2 /\
    TH2D.fEntries <$> averageWaveforms a2 !! 7 = Some 4.
Proof.
  split; [done|].
  eexists. eexists. split; [vm_compute; reflexivity|].
  split; [vm_compute; reflexivity|].
  split; vm_compute; reflexivity.
Qed.

(** ** The loops over the channels *)

Lemma for_channels_invariant {S : Type} (body : Z -> S -> option S)
    (P : S -> Prop) (s s' : S) :
  P s ->
  (forall i s1 s2, 0 <= i < 100 -> P s1 -> body i s1 = Some s2 -> P s2) ->
  for_channels body s = Some s' ->
  P s'.
Proof.
  intros Hs Hstep. unfold for_channels.
  assert (Forall (fun i => 0 <= i < 100) (seqZ 0 100)) as Hl
    by (apply Forall_seqZ; lia).
  revert s Hs. induction Hl as [|i l Hi Hl IH]; intros s Hs; cbn [foldl].
  - congruence.
  - cbn [mbind option_bind]. destruct (body i s) as [s2|] eqn:Hb.
    + apply IH. eauto.
    + clear. intros Hnone. exfalso. revert Hnone.
      induction l as [|j l IHl]; cbn [foldl]; [congruence|exact IHl].
Qed.

Lemma foldl_lookup_outside {V : Type} (g : gmap Z V -> Z -> gmap Z V)
    (l : list Z) (m : gmap Z V) (j : Z) :
  (forall m i, i ∈ l -> g m i !! j = m !! j) ->
  foldl g m l !! j = m !! j.
Proof.
  revert m. induction l as [|i l IH]; intros m Hg; cbn [foldl]; [done|].
  rewrite IH.
  - apply Hg. left.
  - intros m' i' Hi'. apply Hg. by right.
Qed.

(** [endJob] registers channels 0 to 99 only. *)
Lemma endJob_channels (a : SSPDiagnosticAna) (i : Z) :
  is_Some (endJob a !! i) -> 0 <= i < 100.
Proof.
  unfold endJob.
  assert (Forall (fun k => 0 <= k < 100) (seqZ 0 100)) as Hl
    by (apply Forall_seqZ; lia).
  revert Hl. generalize (seqZ 0 100). intros l Hl Hsome.
  destruct (decide (0 <= i < 100)) as [|Hout]; [done|].
  exfalso. rewrite foldl_lookup_outside in Hsome.
  - rewrite lookup_empty in Hsome. by destruct Hsome.
  - intros m k Hk. rewrite Forall_forall in Hl. apply Hl in Hk.
    destruct (PulseAmpVsRun a !! k); [|reflexivity].
    apply lookup_insert_ne. lia.
Qed.

Lemma format_plots_outside (a a' : SSPDiagnosticAna) (j : Z) :
  format_plots a = Some a' ->
  ~ (0 <= j < 100) ->
  PulseAmplitudePerChannel a' !! j = PulseAmplitudePerChannel a !! j /\
  IntegratedChargePerChannel a' !! j = IntegratedChargePerChannel a !! j /\
  averageWaveforms a' !! j = averageWaveforms a !! j /\
  PulseAmpVsRun a' = PulseAmpVsRun a.
Proof.
  intros Hf Hj. unfold format_plots in Hf.
  refine (for_channels_invariant _ (fun x =>
    PulseAmplitudePerChannel x !! j = PulseAmplitudePerChannel a !! j /\
    IntegratedChargePerChannel x !! j = IntegratedChargePerChannel a !! j /\
    averageWaveforms x !! j = averageWaveforms a !! j /\
    PulseAmpVsRun x = PulseAmpVsRun a) a a' _ _ Hf); [done|].
  intros i s1 s2 Hi (H1 & H2 & H3 & H4) Hbody.
  destruct (PulseAmplitudePerChannel s1 !! i); [|by simplify_eq].
  destruct (IntegratedChargePerChannel s1 !! i); [|done].
  destruct (PulseAmplitudeVsIntegratedChargePerChannel s1 !! i); [|done].
  destruct (averageWaveforms s1 !! i); [|done].
  cbn in Hbody. simplify_eq. cbn.
  rewrite !lookup_insert_ne by lia. done.
Qed.

Lemma analyze_plots_channels `{TSpectrum} (a : SSPDiagnosticAna)
    (report : list Calibration) :
  analyze_plots a = Some report ->
  Forall (fun line => 0 <= cal_channel line < 100) report.
Proof.
  unfold analyze_plots. intros Hf.
  refine (for_channels_invariant _
    (Forall (fun line => 0 <= cal_channel line < 100)) [] report _ _ Hf);
    [constructor|].
  intros i r1 r2 Hi Hr Hbody.
  destruct (PulseAmplitudePerChannel a !! i); [|by simplify_eq].
  destruct (ADCperPE _); [|done].
  destruct (IntegratedChargePerChannel a !! i); [|done].
  cbn in Hbody. destruct (INTperPE _); [|done].
  cbn in Hbody. simplify_eq.
  apply Forall_app. split; [done|]. by apply Forall_singleton.
Qed.

Lemma extend_summaries_outside (run : Z) (a a' : SSPDiagnosticAna) (j : Z) :
  extend_summaries run a = Some a' ->
  ~ (0 <= j < 100) ->
  PulseAmplitudePerChannel a' = PulseAmplitudePerChannel a /\
  PulseAmpVsRun a' !! j = PulseAmpVsRun a !! j.
Proof.
  intros Hf Hj. unfold extend_summaries in Hf.
  refine (for_channels_invariant _ (fun x =>
    PulseAmplitudePerChannel x = PulseAmplitudePerChannel a /\
    PulseAmpVsRun x !! j = PulseAmpVsRun a !! j) a a' _ _ Hf); [done|].
  intros i s1 s2 Hi (H1 & H2) Hbody.
  destruct (PulseAmplitudePerChannel s1 !! i); simplify_eq; [|done].
  cbn. split; [done|]. unfold extend.
  rewrite lookup_insert_ne by lia. done.
Qed.

Section Channels.

Context `{Algs : SSPReformatterAlgs} `{Spectrum : TSpectrum}.

(** The per-channel maps after a pass whose header decodes: those of
    [fill_trigger]; the summary map is not touched. *)
Lemma loop_body_decoded (frag : Fragment) (c : Cursor) (a : SSPDiagnosticAna)
    (ch fs : Z) (peakSum prerise integratedSum : float) :
  let daqHeader := headerAt frag (dataPointer c) in
  GetOpChannel daqHeader = Some ch ->
  GetGlobalFirstSample daqHeader = Some fs ->
  GetPeakSum daqHeader = Some peakSum ->
  GetBaselineSum daqHeader = Some prerise ->
  GetIntegratedSum daqHeader = Some integratedSum ->
  let a1 := snd (loop_body frag c a) in
  let filled :=
    fill_trigger (u16 ch) (PulseAmplitude prerise peakSum)
                 (IntegratedCharge prerise integratedSum) a in
  PulseAmplitudePerChannel a1 = PulseAmplitudePerChannel filled /\
  IntegratedChargePerChannel a1 = IntegratedChargePerChannel filled /\
  PulseAmplitudeVsIntegratedChargePerChannel a1 =
    PulseAmplitudeVsIntegratedChargePerChannel filled /\
  PulseAmpVsRun a1 = PulseAmpVsRun a.
Proof.
  intros daqHeader E1 E2 E3 E4 E5 a1 filled. subst a1.
  unfold loop_body, try_block. fold daqHeader.
  rewrite E1, E2, E3, E4, E5.
  destruct (problem_timestamp (u64 fs)); done.
Qed.

(** C10. A record that decodes with a channel id of 100 or more is
    filled by the analysis of its event like any other: the histograms of
    its channel in the three per-channel maps are those it had, or new
    ones, with the amplitude and the charge of the record filled in, one
    entry more. The loops of [endRun] and [endJob] run over the channels 0 to 99 only:
    every line of the calibration report is for a channel below 100, the
    histograms of the channel are left as they were by the formatting
    loop, the channel gets no amplitude-versus-run histogram, and [endJob]
    registers histograms of channels 0 to 99 only. *)
Theorem channels_from_100_left_out (frag : Fragment) (c : Cursor)
    (a : SSPDiagnosticAna) (ch fs : Z) (peakSum prerise integratedSum : float)
    (run : Z) (a2 : SSPDiagnosticAna) (report : list Calibration) :
  let daqHeader := headerAt frag (dataPointer c) in
  let channel := u16 ch in
  let amplitude := PulseAmplitude prerise peakSum in
  let charge := IntegratedCharge prerise integratedSum in
  let a1 := snd (loop_body frag c a) in
  GetOpChannel daqHeader = Some ch ->
  GetGlobalFirstSample daqHeader = Some fs ->
  GetPeakSum daqHeader = Some peakSum ->
  GetBaselineSum daqHeader = Some prerise ->
  GetIntegratedSum daqHeader = Some integratedSum ->
  100 <= channel ->
  PulseAmpVsRun a !! channel = None ->
  endRun run a1 = Some (a2, report) ->
  (PulseAmplitudePerChannel a1 !! channel =
     Some (TH1D.Fill (default (TH1D.make 125 (-20) 230)
                        (PulseAmplitudePerChannel a !! channel)) amplitude) /\
   IntegratedChargePerChannel a1 !! channel =
     Some (TH1D.Fill (default (TH1D.make 300 0 3e4)
                        (IntegratedChargePerChannel a !! channel)) charge) /\
   PulseAmplitudeVsIntegratedChargePerChannel a1 !! channel =
     Some (TH2D.Fill (default (TH2D.make 300 0 3e4 125 (-20) 230)
                        (PulseAmplitudeVsIntegratedChargePerChannel a !! channel))
                     charge amplitude) /\
   entries1 (PulseAmplitudePerChannel a1) channel =
     entries1 (PulseAmplitudePerChannel a) channel + 1) /\
  Forall (fun line => 0 <= cal_channel line < 100) report /\
  PulseAmplitudePerChannel a2 !! channel = PulseAmplitudePerChannel a1 !! channel /\
  PulseAmpVsRun a2 !! channel = None /\
  (forall i, is_Some (endJob a2 !! i) -> 0 <= i < 100).
Proof.
  intros daqHeader channel amplitude charge a1 E1 E2 E3 E4 E5 Hch Hnew Hend.
  destruct (loop_body_decoded frag c a ch fs peakSum prerise integratedSum
              E1 E2 E3 E4 E5) as (HA & HQ & HAQ & HR).
  fold a1 channel amplitude charge in HA, HQ, HAQ, HR.
  assert (PulseAmplitudePerChannel a1 !! channel =
            Some (TH1D.Fill (default (TH1D.make 125 (-20) 230)
                               (PulseAmplitudePerChannel a !! channel))
                            amplitude)) as HfillA.
  { rewrite HA. unfold fill_trigger, book; cbn. rewrite lookup_alter_eq.
    destruct (PulseAmplitudePerChannel a !! channel) eqn:E;
      [by rewrite E|by rewrite lookup_insert_eq]. }
  split; [|split; [|split; [|split]]].
  - split; [exact HfillA|]. split; [|split].
    + rewrite HQ. unfold fill_trigger, book; cbn. rewrite lookup_alter_eq.
      destruct (IntegratedChargePerChannel a !! channel) eqn:E;
        [by rewrite E|by rewrite lookup_insert_eq].
    + rewrite HAQ. unfold fill_trigger, book; cbn. rewrite lookup_alter_eq.
      destruct (PulseAmplitudeVsIntegratedChargePerChannel a !! channel) eqn:E;
        [by rewrite E|by rewrite lookup_insert_eq].
    + unfold entries1. rewrite HfillA.
      destruct (PulseAmplitudePerChannel a !! channel); reflexivity.
  - unfold endRun in Hend.
    destruct (format_plots a1) as [af|]; [|done]. cbn in Hend.
    destruct (analyze_plots af) as [r|] eqn:Hr; [|done]. cbn in Hend.
    destruct (extend_summaries run af); [|done]. cbn in Hend.
    simplify_eq. by apply analyze_plots_channels in Hr.
  - unfold endRun in Hend.
    destruct (format_plots a1) as [af|] eqn:Hf; [|done]. cbn in Hend.
    destruct (analyze_plots af) as [r|]; [|done]. cbn in Hend.
    destruct (extend_summaries run af) as [ae|] eqn:He; [|done]. cbn in Hend.
    simplify_eq.
    destruct (format_plots_outside a1 af channel Hf) as (H1 & _); [lia|].
    destruct (extend_summaries_outside run af a2 channel He) as (H2 & _); [lia|].
    by rewrite H2, H1.
  - unfold endRun in Hend.
    destruct (format_plots a1) as [af|] eqn:Hf; [|done]. cbn in Hend.
    destruct (analyze_plots af) as [r|]; [|done]. cbn in Hend.
    destruct (extend_summaries run af) as [ae|] eqn:He; [|done]. cbn in Hend.
    simplify_eq.
    destruct (format_plots_outside a1 af channel Hf) as (_ & _ & _ & H1); [lia|].
    destruct (extend_summaries_outside run af a2 channel He) as (_ & H2); [lia|].
    by rewrite H2, H1, HR.
  - apply endJob_channels.
Qed.

End Channels.


Lemma channels_from_100_witness :
  let frag :=
    Build_Fragment 0 0 12 (Sim.memory [(0, Sim.good 12 150 late 1100 500 7100)]) in
  let a1 := snd (loop_body frag (Build_Cursor 0 0 []) ana0) in
  exists a2 report,
    endRun 5 a1 = Some (a2, report) /\
    (fun h => (TH1D.fEntries h, TH1D.GetBinContent h 65))
      <$> PulseAmplitudePerChannel a1 !! 150 = Some (1, 1%float) /\
    entries1 (PulseAmplitudePerChannel a1) 150 = 1 /\
    PulseAmpVsRun a2 !! 150 = None.
Proof.
  intros frag a1.
  assert (is_Some (endRun 5 a1)) as [[a2 report] Hend]
    by (vm_compute; eauto).
  exists a2, report. split; [exact Hend|].
  pose proof (channels_from_100_left_out frag (Build_Cursor 0 0 []) ana0
                150 late 1100 500 7100 5 a2 report
                eq_refl eq_refl eq_refl eq_refl eq_refl)
    as Hthm.
  cbv zeta in Hthm.
  destruct Hthm as ((HA & _ & _ & HE) & _ & _ & HR & _).
  - vm_compute. discriminate.
  - reflexivity.
  - exact Hend.
  - split; [|split; [exact HE|exact HR]].
    exact (f_equal (fmap (fun h => (TH1D.fEntries h, TH1D.GetBinContent h 65)))
                   HA).
Defined.

(** One event with records on channels 7 and 150, then the end of run 5
    and the end of the job: both channels have their amplitude histogram
    with one entry; only channel 7 is formatted, calibrated, summarised
    and registered. *)
Lemma channel_150_left_out :
  option_map
    (fun j : SSPDiagnosticAna * SSPDiagnosticAna * list Calibration =>
       let '(a1, a2, report) := j in
       (map_to_list (TH1D.fEntries <$> PulseAmplitudePerChannel a1),
        map_to_list (TH1D.fStats <$> PulseAmplitudePerChannel a2),
        cal_channel <$> report,
        elements (dom (PulseAmpVsRun a2)),
        elements (dom (endJob a2))))
    job_channels_7_150 =
  Some ([(7, 1); (150, 1)], [(7, false); (150, true)], [7], [7], [7]).
Proof. vm_compute. reflexivity. Qed.

(** ** The photo-electron spacing *)

Lemma SFcompare_antisym (x y : spec_float) :
  SFcompare y x = CompOpp <$> SFcompare x y.
Proof.
  destruct x as [sx|sx| |sx mx ex], y as [sy|sy| |sy my ey]; cbn;
    try reflexivity;
    try (destruct sx; reflexivity); try (destruct sy; reflexivity);
    try (destruct sx, sy; reflexivity).
  change (Pos.compare_cont Eq my mx) with (Pos.compare my mx).
  change (Pos.compare_cont Eq mx my) with (Pos.compare mx my).
  rewrite (Z.compare_antisym ex ey), (Pos.compare_antisym mx my).
  destruct sx, sy; cbn; try reflexivity;
    destruct (ex ?= ey); cbn; try reflexivity;
    destruct (mx ?= my)%positive; reflexivity.
Qed.

Lemma SFcompare_None (x y : spec_float) :
  SFcompare x y = None <-> x = S754_nan \/ y = S754_nan.
Proof.
  destruct x as [sx|sx| |sx mx ex], y as [sy|sy| |sy my ey]; cbn;
    split; intros Hn; try discriminate; auto;
    try (destruct Hn; discriminate).
Qed.

Lemma Float32_ltb_asym (x y : Float32.t) :
  Float32.ltb x y = true -> Float32.ltb y x = false.
Proof.
  unfold Float32.ltb, SFltb. rewrite (SFcompare_antisym x y).
  destruct (SFcompare x y) as [[| |]|]; cbn; congruence.
Qed.

Lemma sort_insert_Permutation (x : Float32.t) (l : list Float32.t) :
  sort_insert x l ≡ₚ x :: l.
Proof.
  induction l as [|y l IH]; cbn [sort_insert]; [done|].
  destruct (Float32.ltb x y); [done|].
  rewrite IH. apply Permutation_swap.
Qed.

Lemma sort_Permutation (l : list Float32.t) : sort l ≡ₚ l.
Proof.
  induction l as [|x l IH]; cbn; [done|].
  rewrite sort_insert_Permutation. by rewrite IH.
Qed.

Lemma sort_insert_ascending (x : Float32.t) (l : list Float32.t) :
  ascending l -> ascending (sort_insert x l).
Proof.
  unfold ascending.
  induction l as [|y l IH]; intros Hs; cbn [sort_insert].
  - repeat constructor.
  - destruct (Float32.ltb x y) eqn:Hxy.
    + constructor; [done|]. constructor. by apply Float32_ltb_asym.
    + apply Sorted_inv in Hs as [Hs Hhd].
      constructor; [by apply IH|].
      destruct l as [|z l]; cbn [sort_insert].
      * by constructor.
      * destruct (Float32.ltb x z); constructor; [done|].
        by apply HdRel_inv in Hhd.
Qed.

Lemma sort_ascending (l : list Float32.t) : ascending (sort l).
Proof.
  induction l as [|x l IH]; cbn.
  - constructor.
  - by apply sort_insert_ascending.
Qed.

Lemma differences_drop (v : list Float32.t) (k : nat) (lo hi : Float32.t) :
  v !! k = Some lo -> v !! S k = Some hi ->
  differences (drop k v) =
    Float32.to_double (Float32.sub hi lo) :: differences (drop (S k) v).
Proof.
  intros Hlo Hhi.
  rewrite (drop_S v lo k Hlo), (drop_S v hi (S k) Hhi).
  reflexivity.
Qed.

Lemma differences_short (l : list Float32.t) :
  (List.length l <= 1)%nat -> differences l = [].
Proof. destruct l as [|x [|y l]]; cbn; [done|done|lia]. Qed.

(** The loop over the indices computes the fold over the differences,
    and no access is out of range. *)
Lemma spacing_loop (upper lower : float) (v : list Float32.t) (n : nat) :
  forall (k : nat) (acc : float * Z),
    (k + n = List.length v - 1)%nat ->
    foldl (fun acc p => acc ← acc; spacing_step upper lower v acc p)
          (Some acc) (seqZ (Z.of_nat k) (Z.of_nat n)) =
    Some (foldl (keep_step upper lower) acc (differences (drop k v))).
Proof.
  induction n as [|n IH]; intros k acc Hk.
  - rewrite seqZ_nil by lia. cbn [foldl].
    rewrite differences_short; [done|]. rewrite length_drop. lia.
  - rewrite seqZ_cons by lia. cbn [foldl mbind option_bind].
    destruct (lookup_lt_is_Some_2 v k) as [lo Hlo]; [lia|].
    destruct (lookup_lt_is_Some_2 v (S k)) as [hi Hhi]; [lia|].
    unfold spacing_step at 2.
    replace (Z.to_nat (Z.of_nat k + 1)) with (S k) by lia.
    rewrite Nat2Z.id, Hhi, Hlo. cbn [mbind option_bind].
    rewrite (differences_drop v k lo hi Hlo Hhi). cbn [foldl].
    replace (Z.succ (Z.of_nat k)) with (Z.of_nat (S k)) by lia.
    replace (Z.pred (Z.of_nat (S n))) with (Z.of_nat n) by lia.
    unfold keep_step at 2.
    destruct ((upper <? _)%float || _); by rewrite IH by lia.
Qed.

Lemma keep_step_filter (upper lower : float) (ds : list float) :
  forall acc : float * Z,
    foldl (keep_step upper lower) acc ds =
    (foldl PrimFloat.add (fst acc)
       (List.filter (fun d => negb ((upper <? d)%float || (d <? lower)%float)) ds),
     snd acc +
     Z.of_nat (List.length
       (List.filter (fun d => negb ((upper <? d)%float || (d <? lower)%float)) ds))).
Proof.
  induction ds as [|d ds IH]; intros [s n]; cbn [foldl List.filter].
  - cbn. f_equal. lia.
  - rewrite IH. unfold keep_step.
    destruct ((upper <? d)%float || (d <? lower)%float); cbn; [done|].
    f_equal. lia.
Qed.

(** The test of lines 259 and 277 lets pass the differences inside the
    closed window and the NaN. *)
Lemma cut_is_kept (upper lower d : float) :
  Prim2SF upper <> S754_nan ->
  Prim2SF lower <> S754_nan ->
  negb ((upper <? d)%float || (d <? lower)%float) = kept lower upper d.
Proof.
  intros HU HL. unfold kept, in_window, PrimFloat.is_nan.
  rewrite !FloatAxioms.ltb_spec, !FloatAxioms.leb_spec, FloatAxioms.eqb_spec.
  unfold SFltb, SFleb, SFeqb.
  rewrite (SFcompare_antisym (Prim2SF upper) (Prim2SF d)).
  rewrite (SFcompare_antisym (Prim2SF d) (Prim2SF lower)).
  destruct (SFcompare (Prim2SF d) (Prim2SF d)) as [cdd|] eqn:Hdd.
  - assert (Prim2SF d <> S754_nan) as HD.
    { intros Hn. rewrite Hn in Hdd. discriminate. }
    assert (cdd = Eq) as ->.
    { pose proof (SFcompare_antisym (Prim2SF d) (Prim2SF d)) as Ha.
      rewrite Hdd in Ha. cbn in Ha. destruct cdd; cbn in Ha; congruence. }
    destruct (SFcompare (Prim2SF upper) (Prim2SF d)) as [c1|] eqn:H1;
      [|apply SFcompare_None in H1; tauto].
    destruct (SFcompare (Prim2SF d) (Prim2SF lower)) as [c2|] eqn:H2;
      [|apply SFcompare_None in H2; tauto].
    destruct c1, c2; reflexivity.
  - apply SFcompare_None in Hdd.
    assert (Prim2SF d = S754_nan) as -> by tauto.
    destruct (Prim2SF upper), (Prim2SF lower); reflexivity.
Qed.

Lemma spacing_is_average (upper lower : float) (peaks : list Float32.t) :
  Prim2SF upper <> S754_nan ->
  Prim2SF lower <> S754_nan ->
  spacing upper lower peaks =
    Some (average (List.filter (kept lower upper)
                               (differences (tail (sort peaks))))).
Proof.
  intros HU HL. unfold spacing.
  assert (List.length (sort peaks) = List.length peaks) as Hlen
    by (apply Permutation_length, sort_Permutation).
  destruct (decide (2 <= List.length peaks)%nat) as [Hge|Hlt].
  - replace (Z.of_nat (List.length peaks) - 1 - 1)
      with (Z.of_nat (List.length peaks - 2)) by lia.
    rewrite (spacing_loop upper lower (sort peaks) (List.length peaks - 2) 1)
      by lia.
    cbn [mbind option_bind]. rewrite keep_step_filter. cbn [fst snd].
    rewrite (filter_ext _ (kept lower upper))
      by (intros d; by apply cut_is_kept).
    unfold average. rewrite Z.add_0_l. by destruct (sort peaks).
  - rewrite seqZ_nil by lia. cbn [foldl mbind option_bind fst snd].
    rewrite differences_short; [done|].
    destruct (sort peaks) as [|x l]; cbn in *; lia.
Qed.

(** C9 (amended). The peak positions are sorted in ascending order. The
    differences are those of consecutive sorted positions from the second
    position on: the pair made of the first and the second position is left
    out, the pair that ends in the last position is not. A difference is
    kept when it lies in [10, 20] for the amplitude and in [1000, 1800] for
    the charge. The result is the sum of the kept differences divided by
    their number; with no kept difference it is 0.0 / 0.0, a NaN. *)
Theorem spacing_from_second_peak (peaks : list Float32.t) :
  sort peaks ≡ₚ peaks /\
  ascending (sort peaks) /\
  ADCperPE peaks =
    Some (average (List.filter (kept 10 20)
                               (differences (tail (sort peaks))))) /\
  INTperPE peaks =
    Some (average (List.filter (kept 1000 1800)
                               (differences (tail (sort peaks))))) /\
  average [] = nan.
Proof.
  split; [apply sort_Permutation|].
  split; [apply sort_ascending|].
  split; [|split].
  - apply spacing_is_average; vm_compute; discriminate.
  - apply spacing_is_average; vm_compute; discriminate.
  - vm_compute. reflexivity.
Qed.

(** Four peaks at 0, 10, 20 and 35: the source averages 20 - 10 and
    35 - 20, which gives 12.5; without the first and the last peak the only
    difference is 20 - 10, which gives 10. *)
Lemma spacing_uses_last_peak :
  ADCperPE peaks_example = Some 12.5%float /\
  spec_spacing 10 20 peaks_example = 10%float /\
  ADCperPE peaks_example <> Some (spec_spacing 10 20 peaks_example).
Proof.
  split; [vm_compute; reflexivity|].
  split; [vm_compute; reflexivity|].
  vm_compute. discriminate.
Qed.

(** ** The amplitude-versus-run histograms *)

(** On the amplitude axis the center of a bin, the underflow bin
    included, is found in that bin. *)
Lemma amplitude_axis_center (b : Z) :
  0 <= b <= 125 ->
  TAxis.FindBin amplitude_axis (TAxis.GetBinCenter amplitude_axis b) = b.
Proof.
  intros Hb.
  assert (forallb (fun b => TAxis.FindBin amplitude_axis
                              (TAxis.GetBinCenter amplitude_axis b) =? b)
                  (seqZ 0 126) = true) as Hall by (vm_compute; reflexivity).
  rewrite forallb_forall in Hall.
  apply Z.eqb_eq, Hall, list_elem_of_In, elem_of_seqZ. lia.
Qed.

Lemma clamp_bin_id (n b : Z) : 0 <= b <= n + 1 -> clamp_bin n b = b.
Proof. unfold clamp_bin. lia. Qed.

Lemma int_of_double_id (z : Z) :
  - 2 ^ 31 <= z < 2 ^ 31 -> int_of_double z = z.
Proof.
  intros Hz. unfold int_of_double.
  destruct (Z.leb_spec (- 2 ^ 31) z); [|lia].
  destruct (Z.ltb_spec z (2 ^ 31)); [done|lia].
Qed.

Lemma s32_id (z : Z) : - 2 ^ 31 <= z < 2 ^ 31 -> s32 z = z.
Proof.
  intros Hz. unfold s32, u32.
  destruct (decide (0 <= z)) as [Hpos|Hneg].
  - rewrite Z.mod_small by lia.
    destruct (Z.ltb_spec z (2 ^ 31)); lia.
  - replace (z mod 2 ^ 32) with (z + 2 ^ 32).
    + destruct (Z.ltb_spec (z + 2 ^ 32) (2 ^ 31)); lia.
    + apply (Z.mod_unique_pos _ _ (-1)); lia.
Qed.

Lemma positive_bins_id (n : Z) : 0 < n -> positive_bins n = n.
Proof. intros Hn. unfold positive_bins. destruct (Z.leb_spec n 0); lia. Qed.

Lemma RunAxis_GetBinLowEdge_unit (ax : RunAxis.t) (b : Z) :
  0 < RunAxis.fNbins ax ->
  RunAxis.fXmax ax = RunAxis.fXmin ax + RunAxis.fNbins ax ->
  RunAxis.GetBinLowEdge ax b = RunAxis.fXmin ax + b - 1.
Proof.
  intros Hn Hmax. unfold RunAxis.GetBinLowEdge. rewrite Hmax.
  replace (RunAxis.fXmin ax + RunAxis.fNbins ax - RunAxis.fXmin ax)
    with (RunAxis.fNbins ax) by lia.
  rewrite Z.div_same by lia. lia.
Qed.

Lemma RunAxis_FindBin_unit (ax : RunAxis.t) (x : Z) :
  0 < RunAxis.fNbins ax ->
  RunAxis.fXmax ax = RunAxis.fXmin ax + RunAxis.fNbins ax ->
  RunAxis.FindBin ax x =
    if x <? RunAxis.fXmin ax then 0
    else if RunAxis.fXmin ax + RunAxis.fNbins ax <=? x
         then RunAxis.fNbins ax + 1
         else x - RunAxis.fXmin ax + 1.
Proof.
  intros Hn Hmax. unfold RunAxis.FindBin. rewrite Hmax.
  destruct (x <? RunAxis.fXmin ax); [done|].
  destruct (Z.ltb_spec x (RunAxis.fXmin ax + RunAxis.fNbins ax));
    destruct (Z.leb_spec (RunAxis.fXmin ax + RunAxis.fNbins ax) x);
    cbn; try lia.
  replace (RunAxis.fXmin ax + RunAxis.fNbins ax - RunAxis.fXmin ax)
    with (RunAxis.fNbins ax) by lia.
  rewrite Z.mul_comm, Z.div_mul by lia. lia.
Qed.

(** Cells written one after the other, each with a value that depends
    on its key only. *)
Lemma foldl_set_row (val : Z -> Z -> float) (shift bx : Z) (ys : list Z)
    (m : gmap (Z * Z) float) (x y : Z) :
  foldl (fun m by' => <[(bx + shift, by') := val bx by']> m) m ys !! (x, y) =
    if decide (x = bx + shift /\ y ∈ ys) then Some (val bx y) else m !! (x, y).
Proof.
  revert m. induction ys as [|y0 ys IH]; intros m; cbn [foldl].
  - rewrite decide_False; [done|]. intros [_ H]. by apply elem_of_nil in H.
  - rewrite IH.
    destruct (decide (x = bx + shift /\ y ∈ ys)) as [Hin|Hout].
    + rewrite decide_True; [done|]. destruct Hin. split; [done|by right].
    + destruct (decide (x = bx + shift /\ y = y0)) as [[-> ->]|Hne].
      * rewrite lookup_insert_eq, decide_True; [done|]. split; [done|left].
      * rewrite lookup_insert_ne by (intros [= ? ?]; apply Hne; split; congruence).
        rewrite decide_False; [done|].
        intros [Hx [->|Hy]%elem_of_cons]; tauto.
Qed.

Lemma foldl_set_rows (val : Z -> Z -> float) (shift : Z) (xs ys : list Z)
    (m : gmap (Z * Z) float) (x y : Z) :
  foldl (fun m bx =>
           foldl (fun m by' => <[(bx + shift, by') := val bx by']> m) m ys)
        m xs !! (x, y) =
    if decide (x - shift ∈ xs /\ y ∈ ys) then Some (val (x - shift) y)
    else m !! (x, y).
Proof.
  revert m. induction xs as [|x0 xs IH]; intros m; cbn [foldl].
  - rewrite decide_False; [done|]. intros [H _]. by apply elem_of_nil in H.
  - rewrite IH, foldl_set_row.
    destruct (decide (x - shift ∈ xs /\ y ∈ ys)) as [Hin|Hout].
    + rewrite decide_True; [done|]. destruct Hin. split; [by right|done].
    + destruct (decide (x = x0 + shift /\ y ∈ ys)) as [[-> Hy]|Hne].
      * replace (x0 + shift - shift) with x0 by lia.
        rewrite decide_True; [done|]. split; [left|done].
      * rewrite decide_False; [done|].
        intros [[Hx|Hx]%elem_of_cons Hy]; [|tauto].
        apply Hne. split; [lia|done].
Qed.

(** Weights added one after the other to the cells of one column, each
    cell once. *)
Lemma foldl_add_column (w : Z -> float) (rb : Z) (ys : list Z)
    (m : gmap (Z * Z) float) (x y : Z) :
  NoDup ys ->
  foldl (fun m by' =>
           <[(rb, by') := (default 0 (m !! (rb, by')) + w by')%float]> m)
        m ys !! (x, y) =
    if decide (x = rb /\ y ∈ ys)
    then Some (default 0 (m !! (x, y)) + w y)%float
    else m !! (x, y).
Proof.
  intros Hnd. revert m.
  induction Hnd as [|y0 ys Hy0 Hnd IH]; intros m; cbn [foldl].
  - rewrite decide_False; [done|]. intros [_ H]. by apply elem_of_nil in H.
  - rewrite IH.
    destruct (decide (x = rb /\ y ∈ ys)) as [[-> Hy]|Hout].
    + rewrite decide_True by (split; [done|by right]).
      rewrite lookup_insert_ne; [done|]. intros [= ->]. done.
    + destruct (decide (x = rb /\ y = y0)) as [[-> ->]|Hne].
      * rewrite lookup_insert_eq, decide_True; [done|]. split; [done|left].
      * rewrite lookup_insert_ne by (intros [= ? ?]; apply Hne; split; congruence).
        rewrite decide_False; [done|].
        intros [Hx [->|Hy]%elem_of_cons]; tauto.
Qed.

(** The inner loop of lines 326-332 writes one column of the new
    histogram. *)
Lemma remake_column (oldHist : TH2Run.t) (ax' : RunAxis.t) (shift binX : Z)
    (ys : list Z) :
  RunAxis.FindBin ax'
    (int_of_double (RunAxis.GetBinLowEdge (TH2Run.fXaxis oldHist) binX))
    = binX + shift ->
  0 <= binX + shift <= RunAxis.fNbins ax' + 1 ->
  Forall (fun y => 0 <= y <= 126) ys ->
  forall newHist : TH2Run.t,
    TH2Run.fXaxis newHist = ax' ->
    TH2Run.fYaxis newHist = amplitude_axis ->
    let r :=
      foldl (fun newHist binY =>
        let oldVal := TH2Run.GetBinContent oldHist binX binY in
        let runNum :=
          int_of_double
            (RunAxis.GetBinLowEdge (TH2Run.fXaxis oldHist) binX) in
        let targBin := RunAxis.FindBin (TH2Run.fXaxis newHist) runNum in
        TH2Run.SetBinContent newHist targBin binY oldVal) newHist ys in
    TH2Run.fXaxis r = ax' /\
    TH2Run.fYaxis r = amplitude_axis /\
    TH2Run.fArray r =
      foldl (fun m by' =>
               <[(binX + shift, by') := TH2Run.GetBinContent oldHist binX by']> m)
            (TH2Run.fArray newHist) ys.
Proof.
  intros Htarg Hrange Hys.
  induction Hys as [|y ys Hy Hys IH]; intros newHist Hx Hyax; cbn [foldl].
  - done.
  - cbv zeta. rewrite Hx, Htarg.
    destruct (IH (TH2Run.SetBinContent newHist (binX + shift) y
                    (TH2Run.GetBinContent oldHist binX y)))
      as (IH1 & IH2 & IH3); [done|done|].
    cbv zeta in IH1, IH2, IH3. rewrite IH1, IH2, IH3.
    split; [done|]. split; [done|].
    f_equal. cbn [TH2Run.SetBinContent TH2Run.fArray].
    unfold TH2Run.GetBin, TH2Run.GetNbinsX, TH2Run.GetNbinsY, RunAxis.GetNbins.
    rewrite Hx, Hyax. cbn [TAxis.GetNbins TAxis.fNbins amplitude_axis].
    rewrite !clamp_bin_id by lia. done.
Qed.

Lemma remake_columns (oldHist : TH2Run.t) (ax' : RunAxis.t) (shift : Z)
    (xs ys : list Z) :
  Forall (fun binX =>
    RunAxis.FindBin ax'
      (int_of_double (RunAxis.GetBinLowEdge (TH2Run.fXaxis oldHist) binX))
      = binX + shift /\
    0 <= binX + shift <= RunAxis.fNbins ax' + 1) xs ->
  Forall (fun y => 0 <= y <= 126) ys ->
  forall newHist : TH2Run.t,
    TH2Run.fXaxis newHist = ax' ->
    TH2Run.fYaxis newHist = amplitude_axis ->
    let r :=
      foldl (fun newHist binX =>
        foldl (fun newHist binY =>
          let oldVal := TH2Run.GetBinContent oldHist binX binY in
          let runNum :=
            int_of_double
              (RunAxis.GetBinLowEdge (TH2Run.fXaxis oldHist) binX) in
          let targBin := RunAxis.FindBin (TH2Run.fXaxis newHist) runNum in
          TH2Run.SetBinContent newHist targBin binY oldVal) newHist ys)
        newHist xs in
    TH2Run.fXaxis r = ax' /\
    TH2Run.fYaxis r = amplitude_axis /\
    TH2Run.fArray r =
      foldl (fun m bx =>
        foldl (fun m by' =>
                 <[(bx + shift, by') := TH2Run.GetBinContent oldHist bx by']> m)
              m ys)
        (TH2Run.fArray newHist) xs.
Proof.
  intros Hxs Hys.
  induction Hxs as [|binX xs [Htarg Hrange] Hxs IH]; intros newHist Hx Hyax;
    cbn [foldl].
  - done.
  - destruct (remake_column oldHist ax' shift binX ys Htarg Hrange Hys
                newHist Hx Hyax) as (C1 & C2 & C3).
    cbv zeta in C1, C2, C3.
    destruct (IH _ C1 C2) as (IH1 & IH2 & IH3).
    cbv zeta in IH1, IH2, IH3. rewrite IH1, IH2, IH3, C3. done.
Qed.

(** The histogram made again by lines 321-334, for runs that are [int]
    values: its range, and its cells, which are those of the old histogram
    moved by the number of runs added below the old range. *)
Lemma remake_cells (run : Z) (oldHist : TH2Run.t) :
  unit_bins oldHist ->
  int_runs oldHist ->
  0 <= run < 2 ^ 31 - 1 ->
  let first := RunAxis.fXmin (TH2Run.fXaxis oldHist) in
  let N := RunAxis.fNbins (TH2Run.fXaxis oldHist) in
  let firstRun := Z.min run first in
  let lastRun := Z.max run (first + N - 1) in
  let shift := first - firstRun in
  TH2Run.fXaxis (remake run oldHist) =
    RunAxis.Build (lastRun - firstRun + 1) firstRun (lastRun + 1) /\
  TH2Run.fYaxis (remake run oldHist) = amplitude_axis /\
  forall x y,
    TH2Run.fArray (remake run oldHist) !! (x, y) =
      if decide ((shift <= x <= shift + N) /\ (0 <= y <= 125))
      then Some (TH2Run.GetBinContent oldHist (x - shift) y)
      else None.
Proof.
  intros (HN & Hmax & Hyold) [Hlo Hhi] Hrun first N firstRun lastRun shift.
  rewrite Hmax in Hhi. fold first N in Hlo, Hhi, HN.
  unfold remake.
  rewrite !RunAxis_GetBinLowEdge_unit by done.
  unfold TH2Run.GetNbinsX, TH2Run.GetNbinsY, RunAxis.GetNbins.
  rewrite Hyold. cbn [TAxis.GetNbins TAxis.fNbins amplitude_axis].
  fold first N.
  replace (first + 1 - 1) with first by lia.
  fold firstRun lastRun.
  assert (0 <= firstRun <= run /\ firstRun <= first) as Hf
    by (unfold firstRun; lia).
  assert (run <= lastRun < 2 ^ 31 - 1 /\ first + N - 1 <= lastRun) as Hl
    by (unfold lastRun; lia).
  rewrite (int_of_double_id firstRun), (int_of_double_id lastRun) by lia.
  rewrite (s32_id (lastRun - firstRun + 1)), (s32_id (lastRun + 1)) by lia.
  assert (TH2Run.make (lastRun - firstRun + 1) firstRun (lastRun + 1)
                      125 (-20) 230 =
          TH2Run.Build
            (RunAxis.Build (lastRun - firstRun + 1) firstRun (lastRun + 1))
            amplitude_axis ∅ 0) as ->.
  { unfold TH2Run.make. rewrite positive_bins_id by lia. done. }
  set (ax' := RunAxis.Build (lastRun - firstRun + 1) firstRun (lastRun + 1)).
  destruct (remake_columns oldHist ax' shift (seqZ 0 (N + 1)) (seqZ 0 (125 + 1)))
    with (newHist := TH2Run.Build ax' amplitude_axis ∅ 0)
    as (R1 & R2 & R3).
  - apply Forall_seqZ. intros binX HbinX.
    rewrite RunAxis_GetBinLowEdge_unit by done. fold first.
    rewrite int_of_double_id by lia.
    rewrite RunAxis_FindBin_unit by (cbn; lia).
    cbn [RunAxis.fXmin RunAxis.fNbins ax'].
    destruct (Z.ltb_spec (first + binX - 1) firstRun);
      [|destruct (Z.leb_spec (firstRun + (lastRun - firstRun + 1))
                             (first + binX - 1))]; lia.
  - apply Forall_seqZ. lia.
  - reflexivity.
  - reflexivity.
  - cbv zeta in R1, R2, R3. split; [exact R1|]. split; [exact R2|].
    intros x y. rewrite R3, foldl_set_rows.
    cbn [TH2Run.fArray]. rewrite lookup_empty.
    apply decide_ext. rewrite !elem_of_seqZ. lia.
Qed.

Lemma add_new_data_fold (run : Z) (hA : TH1D.t) (ys : list Z) :
  TH1D.fXaxis hA = amplitude_axis ->
  Forall (fun y => 0 <= y <= 125) ys ->
  forall h : TH2Run.t,
    unit_bins h ->
    RunAxis.fXmin (TH2Run.fXaxis h) <= run
      < RunAxis.fXmin (TH2Run.fXaxis h) + RunAxis.fNbins (TH2Run.fXaxis h) ->
    let rb := run - RunAxis.fXmin (TH2Run.fXaxis h) + 1 in
    let r :=
      foldl (fun h binY =>
        let val := TH1D.GetBinContent hA binY in
        let amp := TH1D.GetBinCenter hA binY in
        TH2Run.Fill h run amp val) h ys in
    TH2Run.fXaxis r = TH2Run.fXaxis h /\
    TH2Run.fYaxis r = amplitude_axis /\
    TH2Run.fArray r =
      foldl (fun m by' =>
        <[(rb, by') :=
            (default 0 (m !! (rb, by')) + TH1D.GetBinContent hA by')%float]> m)
        (TH2Run.fArray h) ys.
Proof.
  intros HA Hys.
  induction Hys as [|y ys Hy Hys IH]; intros h Hunit Hrun; cbn [foldl].
  - destruct Hunit as (_ & _ & Hyax). done.
  - cbv zeta.
    set (rb := run - RunAxis.fXmin (TH2Run.fXaxis h) + 1).
    assert (TH2Run.Fill h run (TH1D.GetBinCenter hA y) (TH1D.GetBinContent hA y) =
            TH2Run.Build (TH2Run.fXaxis h) amplitude_axis
              (<[(rb, y) :=
                   (default 0 (TH2Run.fArray h !!
                      (rb, y))
                    + TH1D.GetBinContent hA y)%float]> (TH2Run.fArray h))
              (TH2Run.fEntries h + 1)) as Hfill.
    { destruct Hunit as (HN & Hmax & Hyax).
      unfold TH2Run.Fill, TH1D.GetBinCenter. rewrite HA, Hyax.
      rewrite amplitude_axis_center by done.
      rewrite RunAxis_FindBin_unit by done.
      destruct (Z.ltb_spec run (RunAxis.fXmin (TH2Run.fXaxis h))); [lia|].
      destruct (Z.leb_spec (RunAxis.fXmin (TH2Run.fXaxis h)
                            + RunAxis.fNbins (TH2Run.fXaxis h)) run); [lia|].
      unfold TH2Run.GetBinContent, TH2Run.GetBin, TH2Run.GetNbinsX,
        TH2Run.GetNbinsY, RunAxis.GetNbins.
      rewrite Hyax. cbn [TAxis.GetNbins TAxis.fNbins amplitude_axis].
      rewrite !clamp_bin_id by lia. done. }
    rewrite Hfill.
    destruct (IH (TH2Run.Build (TH2Run.fXaxis h) amplitude_axis
              (<[(rb, y) :=
                   (default 0 (TH2Run.fArray h !!
                      (rb, y))
                    + TH1D.GetBinContent hA y)%float]> (TH2Run.fArray h))
              (TH2Run.fEntries h + 1)))
      as (IH1 & IH2 & IH3).
    + destruct Hunit as (HN & Hmax & Hyax). done.
    + done.
    + cbv zeta in IH1, IH2, IH3. rewrite IH1, IH2, IH3. done.
Qed.

(** Lines 337-342 add the content of every amplitude bin, underflow
    included, to the cell of the run and of that bin; no other cell
    changes. *)
Lemma add_new_data_cells (run : Z) (hA : TH1D.t) (h : TH2Run.t) :
  TH1D.fXaxis hA = amplitude_axis ->
  unit_bins h ->
  RunAxis.fXmin (TH2Run.fXaxis h) <= run
    < RunAxis.fXmin (TH2Run.fXaxis h) + RunAxis.fNbins (TH2Run.fXaxis h) ->
  TH2Run.fXaxis (add_new_data run hA h) = TH2Run.fXaxis h /\
  TH2Run.fYaxis (add_new_data run hA h) = amplitude_axis /\
  forall x y,
    TH2Run.fArray (add_new_data run hA h) !! (x, y) =
      if decide (x = run - RunAxis.fXmin (TH2Run.fXaxis h) + 1 /\ 0 <= y <= 125)
      then Some (default 0 (TH2Run.fArray h !! (x, y))
                 + TH1D.GetBinContent hA y)%float
      else TH2Run.fArray h !! (x, y).
Proof.
  intros HA Hunit Hrun. unfold add_new_data.
  assert (TH1D.GetNbinsX hA = 125) as ->
    by (unfold TH1D.GetNbinsX; by rewrite HA).
  destruct (add_new_data_fold run hA (seqZ 0 (125 + 1)) HA) with (h := h)
    as (R1 & R2 & R3); [apply Forall_seqZ; lia|done|done|].
  cbv zeta in R1, R2, R3. split; [exact R1|]. split; [exact R2|].
  intros x y. rewrite R3, foldl_add_column by apply NoDup_seqZ.
  apply decide_ext. rewrite elem_of_seqZ. lia.
Qed.

Lemma add_new_data_unit_bins (run : Z) (hA : TH1D.t) (h : TH2Run.t) :
  TH1D.fXaxis hA = amplitude_axis ->
  unit_bins h ->
  RunAxis.fXmin (TH2Run.fXaxis h) <= run
    < RunAxis.fXmin (TH2Run.fXaxis h) + RunAxis.fNbins (TH2Run.fXaxis h) ->
  unit_bins (add_new_data run hA h).
Proof.
  intros HA Hunit Hrun.
  destruct (add_new_data_cells run hA h HA Hunit Hrun) as (E1 & E2 & _).
  destruct Hunit as (HN & Hmax & _).
  unfold unit_bins. rewrite E1, E2. done.
Qed.

Lemma remake_unit_bins (run : Z) (oldHist : TH2Run.t) :
  unit_bins oldHist ->
  int_runs oldHist ->
  0 <= run < 2 ^ 31 - 1 ->
  unit_bins (remake run oldHist) /\
  int_runs (remake run oldHist) /\
  RunAxis.fXmin (TH2Run.fXaxis (remake run oldHist)) <= run
    < RunAxis.fXmin (TH2Run.fXaxis (remake run oldHist))
      + RunAxis.fNbins (TH2Run.fXaxis (remake run oldHist)).
Proof.
  intros Hunit Hint Hrun.
  destruct (remake_cells run oldHist Hunit Hint Hrun) as (E1 & E2 & _).
  destruct Hunit as (HN & Hmax & _). destruct Hint as [Hlo Hhi].
  rewrite Hmax in Hhi.
  cbv zeta in E1. unfold unit_bins, int_runs. rewrite E1, E2.
  cbn [RunAxis.fXmin RunAxis.fXmax RunAxis.fNbins].
  split; [split; [lia|split; [lia|done]]|]. split; lia.
Qed.

Lemma GetBinContent_lookup (s : TH2Run.t) (x y : Z) :
  TH2Run.fYaxis s = amplitude_axis ->
  0 <= x <= RunAxis.fNbins (TH2Run.fXaxis s) + 1 ->
  0 <= y <= 126 ->
  TH2Run.GetBinContent s x y = default 0%float (TH2Run.fArray s !! (x, y)).
Proof.
  intros Hy Hx Hy'.
  unfold TH2Run.GetBinContent, TH2Run.GetBin, TH2Run.GetNbinsX,
    TH2Run.GetNbinsY, RunAxis.GetNbins.
  rewrite Hy. cbn [TAxis.GetNbins TAxis.fNbins amplitude_axis].
  by rewrite !clamp_bin_id by lia.
Qed.

(** The first summary of a channel: one bin for the run, holding the
    amplitude distribution of the run added to empty cells. *)
Lemma extend_new (i run : Z) (hA : TH1D.t) (m : gmap Z TH2Run.t) :
  m !! i = None ->
  0 <= run < 2 ^ 32 - 1 ->
  TH1D.fXaxis hA = amplitude_axis ->
  exists s,
    extend i run hA m !! i = Some s /\
    unit_bins s /\
    TH2Run.fXaxis s = RunAxis.Build 1 run (run + 1) /\
    forall x y,
      TH2Run.fArray s !! (x, y) =
        if decide (x = 1 /\ 0 <= y <= 125)
        then Some (0 + TH1D.GetBinContent hA y)%float
        else None.
Proof.
  intros Hm Hrun HA. unfold extend. rewrite Hm, lookup_insert_eq.
  assert (u32 (run + 1) = run + 1) as ->
    by (unfold u32; apply Z.mod_small; lia).
  set (fresh := TH2Run.make 1 run (run + 1) 125 (-20) 230).
  assert (unit_bins fresh) as Hunit by (repeat split; cbn; lia).
  assert (RunAxis.fXmin (TH2Run.fXaxis fresh) <= run
          < RunAxis.fXmin (TH2Run.fXaxis fresh)
            + RunAxis.fNbins (TH2Run.fXaxis fresh)) as Hin by (cbn; lia).
  destruct (add_new_data_cells run hA fresh HA Hunit Hin) as (E1 & E2 & E3).
  eexists. split; [done|].
  split; [by apply add_new_data_unit_bins|].
  split; [by rewrite E1|].
  intros x y. rewrite E3. cbn [fresh TH2Run.make TH2Run.fArray TH2Run.fXaxis
                               RunAxis.fXmin].
  rewrite lookup_empty. apply decide_ext. lia.
Qed.

(** A summary that exists is made again over the range extended to the
    run: its cells are those of the old histogram, moved by the number of
    runs added below, and the amplitude distribution of the run is added
    to the cells of the run. *)
Lemma extend_existing (i run : Z) (hA : TH1D.t) (m : gmap Z TH2Run.t)
    (oldHist : TH2Run.t) :
  m !! i = Some oldHist ->
  unit_bins oldHist ->
  int_runs oldHist ->
  0 <= run < 2 ^ 31 - 1 ->
  TH1D.fXaxis hA = amplitude_axis ->
  let first := RunAxis.fXmin (TH2Run.fXaxis oldHist) in
  let N := RunAxis.fNbins (TH2Run.fXaxis oldHist) in
  let firstRun := Z.min run first in
  let lastRun := Z.max run (first + N - 1) in
  let shift := first - firstRun in
  exists s,
    extend i run hA m !! i = Some s /\
    unit_bins s /\
    TH2Run.fXaxis s =
      RunAxis.Build (lastRun - firstRun + 1) firstRun (lastRun + 1) /\
    forall x y,
      TH2Run.fArray s !! (x, y) =
        let copied :=
          if decide ((shift <= x <= shift + N) /\ (0 <= y <= 125))
          then Some (TH2Run.GetBinContent oldHist (x - shift) y)
          else None in
        if decide (x = run - firstRun + 1 /\ 0 <= y <= 125)
        then Some (default 0 copied + TH1D.GetBinContent hA y)%float
        else copied.
Proof.
  intros Hm Hunit Hint Hrun HA first N firstRun lastRun shift.
  unfold extend. rewrite Hm, lookup_insert_eq.
  destruct (remake_cells run oldHist Hunit Hint Hrun) as (R1 & R2 & R3).
  destruct (remake_unit_bins run oldHist Hunit Hint Hrun)
    as (Hunit' & _ & Hin).
  destruct (add_new_data_cells run hA (remake run oldHist) HA Hunit' Hin)
    as (E1 & E2 & E3).
  cbv zeta in R1, R3. fold first N firstRun lastRun shift in R1, R3.
  eexists. split; [done|].
  split; [by apply add_new_data_unit_bins|].
  split; [by rewrite E1, R1|].
  intros x y. rewrite E3, R1, !R3. cbn [RunAxis.fXmin]. done.
Qed.

(** C3. For every channel, the summary made for run 5 and extended for
    run 3 has the X range [3, 6) in three bins. Every cell of the summary
    of run 5, underflow and overflow cells included, is found unchanged
    two bins higher on the X axis, so that the contents of run 5 are those
    of the bin of run 5 in the new histogram. The amplitude distribution
    of run 3 is added to the cells of run 3, which were empty; adding a
    further distribution for run 3 adds its bin contents to those cells
    and leaves the cells of run 5 as they are. *)
Theorem extend_run5_then_run3 (C : Z) (h5 h3 : TH1D.t)
    (m : gmap Z TH2Run.t) :
  m !! C = None ->
  TH1D.fXaxis h5 = amplitude_axis ->
  TH1D.fXaxis h3 = amplitude_axis ->
  exists s5 s3,
    extend C 5 h5 m !! C = Some s5 /\
    extend C 3 h3 (extend C 5 h5 m) !! C = Some s3 /\
    TH2Run.fXaxis s5 = RunAxis.Build 1 5 6 /\
    TH2Run.fXaxis s3 = RunAxis.Build 3 3 6 /\
    RunAxis.FindBin (TH2Run.fXaxis s5) 5 = 1 /\
    RunAxis.FindBin (TH2Run.fXaxis s3) 5 = 3 /\
    RunAxis.FindBin (TH2Run.fXaxis s3) 3 = 1 /\
    (forall binX binY, 0 <= binX <= 2 -> 0 <= binY <= 126 ->
       TH2Run.GetBinContent s3 (binX + 2) binY =
       TH2Run.GetBinContent s5 binX binY) /\
    (forall binY, 0 <= binY <= 125 ->
       TH2Run.GetBinContent s5 1 binY = (0 + TH1D.GetBinContent h5 binY)%float /\
       TH2Run.GetBinContent s3 1 binY = (0 + TH1D.GetBinContent h3 binY)%float) /\
    (forall (h3' : TH1D.t), TH1D.fXaxis h3' = amplitude_axis ->
       exists s3',
         extend C 3 h3' (extend C 3 h3 (extend C 5 h5 m)) !! C = Some s3' /\
         TH2Run.fXaxis s3' = RunAxis.Build 3 3 6 /\
         forall binY, 0 <= binY <= 125 ->
           TH2Run.GetBinContent s3' 1 binY =
             (TH2Run.GetBinContent s3 1 binY + TH1D.GetBinContent h3' binY)%float /\
           TH2Run.GetBinContent s3' 3 binY = TH2Run.GetBinContent s3 3 binY).
Proof.
  intros Hm H5 H3.
  destruct (extend_new C 5 h5 m Hm) as (s5 & Hs5 & Hu5 & Hax5 & Hc5);
    [lia|done|].
  assert (int_runs s5) as Hi5
    by (unfold int_runs; rewrite Hax5; cbn; lia).
  destruct (extend_existing C 3 h3 (extend C 5 h5 m) s5 Hs5 Hu5 Hi5
              ltac:(lia) H3)
    as (s3 & Hs3 & Hu3 & Hax3 & Hc3).
  rewrite Hax5 in Hax3, Hc3.
  cbn [RunAxis.fXmin RunAxis.fNbins] in Hax3, Hc3.
  change (Z.min 3 5) with 3 in Hax3, Hc3.
  change (Z.max 3 (5 + 1 - 1)) with 5 in Hax3.
  change (5 - 3 + 1) with 3 in Hax3. change (5 + 1) with 6 in Hax3.
  change (5 - 3) with 2 in Hc3. change (3 - 3 + 1) with 1 in Hc3.
  assert (TH2Run.fYaxis s5 = amplitude_axis) as Hy5 by apply Hu5.
  assert (TH2Run.fYaxis s3 = amplitude_axis) as Hy3 by apply Hu3.
  exists s5, s3.
  split; [done|]. split; [done|]. split; [done|]. split; [done|].
  split; [by rewrite Hax5|]. split; [by rewrite Hax3|].
  split; [by rewrite Hax3|].
  split; [|split].
  - intros binX binY HbinX HbinY.
    rewrite !GetBinContent_lookup by (rewrite ?Hax3, ?Hax5; cbn; done || lia).
    rewrite Hc3, Hc5. cbv zeta.
    rewrite (decide_False (P := binX + 2 = 1 /\ _)) by lia.
    destruct (decide ((2 <= binX + 2 <= 2 + 1) /\ (0 <= binY <= 125)))
      as [Hin|Hout].
    + replace (binX + 2 - 2) with binX by lia. cbn [default].
      rewrite GetBinContent_lookup by (rewrite ?Hax5; cbn; done || lia).
      by rewrite Hc5.
    + rewrite decide_False by lia. done.
  - intros binY HbinY.
    rewrite !GetBinContent_lookup by (rewrite ?Hax3, ?Hax5; cbn; done || lia).
    rewrite Hc3, Hc5. cbv zeta.
    rewrite !(decide_True (P := 1 = 1 /\ _)) by lia.
    rewrite (decide_False (P := (2 <= 1 <= _) /\ _)) by lia. done.
  - intros h3' H3'.
    assert (int_runs s3) as Hi3
      by (unfold int_runs; rewrite Hax3; cbn; lia).
    destruct (extend_existing C 3 h3' (extend C 3 h3 (extend C 5 h5 m)) s3
                Hs3 Hu3 Hi3 ltac:(lia) H3')
      as (s3' & Hs3' & Hu3' & Hax3' & Hc3').
    rewrite Hax3 in Hax3', Hc3'.
    cbn [RunAxis.fXmin RunAxis.fNbins] in Hax3', Hc3'.
    change (Z.min 3 3) with 3 in Hax3', Hc3'.
    change (Z.max 3 (3 + 3 - 1)) with 5 in Hax3'.
    change (5 - 3 + 1) with 3 in Hax3'. change (5 + 1) with 6 in Hax3'.
    change (3 - 3) with 0 in Hc3'. change (0 + 1) with 1 in Hc3'.
    assert (TH2Run.fYaxis s3' = amplitude_axis) as Hy3' by apply Hu3'.
    exists s3'. split; [done|]. split; [done|].
    intros binY HbinY.
    rewrite !(GetBinContent_lookup s3')
      by (rewrite ?Hax3'; cbn; done || lia).
    rewrite !Hc3'. cbv zeta.
    rewrite (decide_True (P := 1 = 1 /\ _)) by lia.
    rewrite (decide_False (P := 3 = 1 /\ _)) by lia.
    rewrite !decide_True by lia. cbn [default].
    by rewrite !Z.sub_0_r.
Qed.


Lemma extend_run5_then_run3_witness :
  exists s5 s3,
    extend 7 5 amplitudes_run5 ∅ !! 7 = Some s5 /\
    extend 7 3 amplitudes_run3 (extend 7 5 amplitudes_run5 ∅) !! 7 = Some s3 /\
    TH2Run.fXaxis s3 = RunAxis.Build 3 3 6 /\
    TH2Run.GetBinContent s3 3 60 = TH2Run.GetBinContent s5 1 60.
Proof.
  destruct (extend_run5_then_run3 7 amplitudes_run5 amplitudes_run3 ∅
              (lookup_empty 7) eq_refl eq_refl)
    as (s5 & s3 & H5 & H3 & _ & Hax & _ & _ & _ & Hmove & _).
  exists s5, s3. split; [exact H5|]. split; [exact H3|]. split; [exact Hax|].
  apply (Hmove 1 60); lia.
Defined.

(** The same two runs, computed: run 5 holds its two entries in bin 3
    of the X axis, run 3 its one entry in bin 1, and the bin of run 4 is
    empty. *)
Lemma summary_runs_5_3_computed :
  (fun s => (TH2Run.fXaxis s,
             TH2Run.GetBinContent s 3 60,
             TH2Run.GetBinContent s 1 33,
             TH2Run.GetBinContent s 2 60))
    <$> (extend 7 3 amplitudes_run3 (extend 7 5 amplitudes_run5 ∅) !! 7) =
  Some (RunAxis.Build 3 3 6, 2%float, 1%float, 0%float).
Proof. vm_compute. reflexivity. Qed.

(** Run 3000000000, which is an [unsigned int] and no [int], at the end
    of two runs: the first summary spans [3000000000, 3000000001); made
    again, it spans [-2147483648, -2147483647), its one bin holds the
    cells of the first run, and the distribution of the second run is
    added to the overflow column. *)
Lemma summary_run_3000000000_computed :
  (fun s => (TH2Run.fXaxis s,
             TH2Run.GetBinContent s 1 60,
             TH2Run.GetBinContent s 2 33))
    <$> (extend 7 3000000000 amplitudes_run3
           (extend 7 3000000000 amplitudes_run5 ∅) !! 7) =
  Some (RunAxis.Build 1 (-2147483648) (-2147483647), 2%float, 1%float).
Proof. vm_compute. reflexivity. Qed.

(** ** The model of the run axis against the axis on doubles *)

(** For first runs from 0 to 20000 and up to 12 runs in the range, the
    run axis kept in [Z] finds the bins and gives the low edges that ROOT's
    formulas on doubles find and give. *)
Lemma run_axis_agrees_with_double_axis :
  forallb (fun first => forallb (axes_agree first) (seqZ 1 12))
          [0; 1; 2; 3; 5; 17; 999; 1000; 15123; 20000] = true.
Proof. vm_compute. reflexivity. Qed.

(** * Further properties *)

(** ** One pass of the trigger loop *)

Section Passes.

Context `{Algs : SSPReformatterAlgs}.

Lemma nADC_half (h : SSPDAQ.EventHeader) :
  nADC h / 2 = (SSPDAQ.length h - SSPDAQ.header_words) mod 2 ^ 31.
Proof.
  unfold nADC, u32.
  change (2 ^ 32) with (2 ^ 31 * 2).
  rewrite Z.mul_mod_distr_r by lia.
  apply Z.div_mul. lia.
Qed.

Lemma loop_body_state (frag : Fragment) (c : Cursor) (a : SSPDiagnosticAna) :
  snd (loop_body frag c a) = process_record (headerAt frag (dataPointer c)) a.
Proof.
  unfold loop_body, process_record.
  destruct (try_block _ a) as [a' [ch fs| |]]; reflexivity.
Qed.

(** How the [try] block ends, read off the decoding of the header. *)
Lemma try_block_exit (h : SSPDAQ.EventHeader) (a : SSPDiagnosticAna) :
  match counted_channel h with
  | Some channel => exists fs, snd (try_block h a) = Completed channel fs
  | None => snd (try_block h a) = ProblemTimestamp \/
            snd (try_block h a) = Thrown
  end.
Proof.
  unfold counted_channel, filled_channel, try_block.
  destruct (GetOpChannel h); [|by right].
  destruct (GetGlobalFirstSample h); [|by right].
  destruct (GetPeakSum h); [|by right].
  destruct (GetBaselineSum h); [|by right].
  destruct (GetIntegratedSum h); [|by right].
  destruct (problem_timestamp _); cbn; [by left|eauto].
Qed.

(** The pointer after a pass, read off the decoding of the header. *)
Lemma loop_body_advance (frag : Fragment) (c : Cursor) (a : SSPDiagnosticAna) :
  let h := headerAt frag (dataPointer c) in
  dataPointer (fst (loop_body frag c a)) =
    dataPointer c + SSPDAQ.header_words +
    match counted_channel h with
    | Some _ => (SSPDAQ.length h - SSPDAQ.header_words) mod 2 ^ 31
    | None => 0
    end.
Proof.
  intros h. unfold loop_body. fold h.
  pose proof (try_block_exit h a) as Hexit.
  destruct (counted_channel h) as [channel|].
  - destruct Hexit as [fs Hexit].
    destruct (try_block h a) as [a' e]. cbn in Hexit. subst e. cbn.
    by rewrite nADC_half.
  - destruct (try_block h a) as [a' e]. cbn in Hexit.
    destruct Hexit as [-> | ->]; cbn; lia.
Qed.

(** A record that keeps the walk in step is passed in exactly its
    declared length. *)
Lemma pass_in_step (frag : Fragment) (c : Cursor) (a : SSPDiagnosticAna) :
  in_step (headerAt frag (dataPointer c)) ->
  dataPointer (fst (loop_body frag c a)) =
    dataPointer c + SSPDAQ.length (headerAt frag (dataPointer c)).
Proof.
  intros [Hlen Hstep]. rewrite loop_body_advance.
  destruct (counted_channel _) as [channel|].
  - rewrite Z.mod_small by lia. lia.
  - destruct Hstep as [[? Hs]|Hs]; [done|lia].
Qed.

(** X3. A pass moves the data pointer by the header size, and, when it
    reaches line 538, by (declared length - header size) mod 2^31 words
    more: the advance of a pass is at least the header size and never
    exceeds header size + 2^31 - 1 words, whatever the declared length. *)
Theorem pass_pointer_advance (frag : Fragment) (c : Cursor) (a : SSPDiagnosticAna) :
  let h := headerAt frag (dataPointer c) in
  dataPointer (fst (loop_body frag c a)) =
    dataPointer c + SSPDAQ.header_words +
    match counted_channel h with
    | Some _ => (SSPDAQ.length h - SSPDAQ.header_words) mod 2 ^ 31
    | None => 0
    end /\
  dataPointer c + SSPDAQ.header_words
    <= dataPointer (fst (loop_body frag c a))
    < dataPointer c + SSPDAQ.header_words + 2 ^ 31.
Proof.
  intros h. pose proof (loop_body_advance frag c a) as Hadv.
  cbv zeta in Hadv. fold h in Hadv. split; [exact Hadv|].
  rewrite Hadv.
  pose proof (Z.mod_pos_bound (SSPDAQ.length h - SSPDAQ.header_words) (2 ^ 31)).
  destruct (counted_channel h); lia.
Qed.

Lemma tiled_bounds (frag : Fragment) (starts : list Z) :
  0 < SSPDAQ.header_words ->
  forall p, tiled frag p starts ->
    p <= dataEnd frag /\
    Forall (fun q => p <= q /\ q + SSPDAQ.header_words <= dataEnd frag) starts.
Proof.
  intros Hw. induction starts as [|q rest IH]; intros p Ht; cbn in Ht.
  - subst p. split; [lia|constructor].
  - destruct Ht as (-> & Hp & [Hlen _] & Ht).
    destruct (IH _ Ht) as [Hend Hall].
    split; [lia|]. constructor; [lia|].
    eapply Forall_impl; [exact Hall|]. cbn. intros q' ?. lia.
Qed.

Lemma trigger_loop_tiled (frag : Fragment) :
  0 < SSPDAQ.header_words ->
  forall (starts : list Z) (fuel : nat) (c : Cursor) (a : SSPDiagnosticAna),
    tiled frag (dataPointer c) starts ->
    nTriggers frag = 0 \/
      (0 <= triggersProcessed c /\
       triggersProcessed c + Z.of_nat (List.length starts) <= nTriggers frag
         < 2 ^ 32) ->
    dataEnd frag - dataPointer c <= Z.of_nat fuel ->
    exists c',
      trigger_loop fuel frag c a =
        Some (c', foldl (fun a p => process_record (headerAt frag p) a) a starts) /\
      headersRead c' = headersRead c ++ starts /\
      dataPointer c' = dataEnd frag.
Proof.
  intros Hw starts.
  induction starts as [|q rest IH]; intros fuel c a Ht Hcount Hfuel;
    cbn [tiled] in Ht.
  - assert (loop_test frag c = false) as Htest.
    { unfold loop_test. rewrite Ht, Z.ltb_irrefl. apply andb_false_r. }
    exists c. destruct fuel; cbn [trigger_loop]; rewrite Htest;
      rewrite app_nil_r; done.
  - destruct Ht as (-> & Hp & Hstep & Ht).
    assert (loop_test frag c = true) as Htest.
    { unfold loop_test. apply andb_true_intro. split.
      - apply orb_true_intro. destruct Hcount as [->|Hc]; [by left|right].
        apply Z.ltb_lt. cbn [List.length] in Hc. lia.
      - apply Z.ltb_lt. done. }
    destruct fuel as [|fuel]; [lia|].
    cbn [trigger_loop foldl]. rewrite Htest.
    pose proof (loop_body_cursor frag c a) as (Htp & Hread & _).
    pose proof (pass_in_step frag c a Hstep) as Hptr.
    pose proof (loop_body_state frag c a) as Hstate.
    destruct (loop_body frag c a) as [c1 a1]. cbn [fst snd] in *. subst a1.
    destruct Hstep as [Hlen _].
    destruct (IH fuel c1 (process_record (headerAt frag (dataPointer c)) a))
      as (c' & Hrun & Hheaders & Hend).
    + by rewrite Hptr.
    + destruct Hcount as [?|Hc]; [by left|right].
      cbn [List.length] in Hc. rewrite Htp. unfold u32.
      rewrite Z.mod_small by lia. lia.
    + lia.
    + exists c'. split; [exact Hrun|]. split; [|exact Hend].
      rewrite Hheaders, Hread, <- app_assoc. done.
Qed.

(** X1. On a fragment whose records fill the data region and keep the
    walk in step, with a trigger count of 0 or of at least the number of
    records, the walk reads exactly one header per record, at the start of
    the record, processes the records in order, ends with the pointer at
    the data end, and reads no word outside the data region. *)
Theorem walk_tiled_fragment (frag : Fragment) (a : SSPDiagnosticAna)
    (starts : list Z) :
  0 < SSPDAQ.header_words ->
  nTriggers frag = 0 \/
    Z.of_nat (List.length starts) <= nTriggers frag < 2 ^ 32 ->
  tiled frag (dataBegin frag) starts ->
  exists c,
    walk_fragment frag a =
      Some (c, foldl (fun a p => process_record (headerAt frag p) a) a starts) /\
    headersRead c = starts /\
    dataPointer c = dataEnd frag /\
    Forall (fun w => dataBegin frag <= w < dataEnd frag) (words_read c).
Proof.
  intros Hw Hcount Ht. unfold walk_fragment.
  destruct (tiled_bounds frag starts Hw _ Ht) as [Hend Hall].
  destruct (trigger_loop_tiled frag Hw starts
              (Z.to_nat (dataEnd frag - dataBegin frag))
              (Build_Cursor 0 (dataBegin frag) []) a)
    as (c & Hrun & Hheaders & Hptr).
  - exact Ht.
  - destruct Hcount as [?|?]; [by left|right]. cbn. lia.
  - cbn. lia.
  - exists c. split; [exact Hrun|]. cbn in Hheaders.
    split; [exact Hheaders|]. split; [exact Hptr|].
    unfold words_read. rewrite Hheaders.
    apply Forall_concat, Forall_fmap.
    eapply Forall_impl; [exact Hall|]. cbn. intros q [Hq1 Hq2].
    apply Forall_seqZ. intros w Hwr. lia.
Qed.

End Passes.

Lemma walk_tiled_fragment_witness :
  exists c,
    walk_fragment (fragment_three 0) ana0 =
      Some (c, foldl (fun a p =>
                        process_record (headerAt (fragment_three 0) p) a)
                     ana0 [0; 12; 24]) /\
    headersRead c = [0; 12; 24] /\
    dataPointer c = 36 /\
    Forall (fun w => 0 <= w < 36) (words_read c).
Proof.
  apply (walk_tiled_fragment (fragment_three 0) ana0 [0; 12; 24]).
  - cbn. lia.
  - left. reflexivity.
  - cbn [tiled]. unfold in_step.
    repeat match goal with
           | |- _ /\ _ => split
           | |- is_Some _ \/ _ => left
           end;
      try (vm_compute; reflexivity); try (vm_compute; discriminate);
      vm_compute; eauto.
Defined.

(** ** What the records of a fragment add to the counters *)

Section Counting.

Context `{Algs : SSPReformatterAlgs}.

Lemma entries1_book_fill (m : gmap Z TH1D.t) (channel ch : Z) (fresh : TH1D.t)
    (x : float) :
  TH1D.fEntries fresh = 0 ->
  entries1 (alter (fun h => TH1D.Fill h x) channel (book m channel fresh)) ch =
    entries1 m ch + (if decide (channel = ch) then 1 else 0).
Proof.
  intros Hfresh. unfold entries1, book.
  destruct (decide (channel = ch)) as [->|Hne].
  - rewrite lookup_alter_eq.
    destruct (m !! ch) as [h|] eqn:E.
    + rewrite E. done.
    + rewrite lookup_insert_eq. cbn. rewrite Hfresh. done.
  - rewrite lookup_alter_ne by done.
    destruct (m !! channel); [|rewrite lookup_insert_ne by done];
      cbn; lia.
Qed.

Lemma entries2_book_fill (m : gmap Z TH2D.t) (channel ch : Z) (fresh : TH2D.t)
    (x y : float) :
  TH2D.fEntries fresh = 0 ->
  entries2 (alter (fun h => TH2D.Fill h x y) channel (book m channel fresh)) ch =
    entries2 m ch + (if decide (channel = ch) then 1 else 0).
Proof.
  intros Hfresh. unfold entries2, book.
  destruct (decide (channel = ch)) as [->|Hne].
  - rewrite lookup_alter_eq.
    destruct (m !! ch) as [h|] eqn:E.
    + rewrite E. done.
    + rewrite lookup_insert_eq. cbn. rewrite Hfresh. done.
  - rewrite lookup_alter_ne by done.
    destruct (m !! channel); [|rewrite lookup_insert_ne by done];
      cbn; lia.
Qed.

(** The state after one record, by cases on its decoding. *)
Lemma process_record_cases (h : SSPDAQ.EventHeader) (a : SSPDiagnosticAna) :
  match filled_channel h with
  | None => process_record h a = a
  | Some channel =>
      exists amplitude charge,
        let filled := fill_trigger channel amplitude charge a in
        match counted_channel h with
        | None => process_record h a = filled
        | Some counted =>
            counted = channel /\
            exists fs, 0 <= fs < 2 ^ 64 /\
                       process_record h a = count_trigger channel fs filled
        end
  end.
Proof.
  unfold process_record, counted_channel, filled_channel, try_block.
  destruct (GetOpChannel h) as [c|]; [|done].
  destruct (GetGlobalFirstSample h) as [f|]; [|done].
  destruct (GetPeakSum h) as [peak|]; [|done].
  destruct (GetBaselineSum h) as [base|]; [|done].
  destruct (GetIntegratedSum h) as [int|]; [|done].
  eexists _, _. cbv zeta.
  destruct (problem_timestamp (u64 f)); [done|].
  split; [done|]. exists (u64 f). split; [|done].
  unfold u64. apply Z.mod_pos_bound. lia.
Qed.

Lemma process_record_counts (h : SSPDAQ.EventHeader) (a : SSPDiagnosticAna)
    (ch : Z) :
  default 0 (triggerCount (process_record h a) !! ch) =
    default 0 (triggerCount a !! ch)
    + (if decide (counted_channel h = Some ch) then 1 else 0) /\
  entries1 (PulseAmplitudePerChannel (process_record h a)) ch =
    entries1 (PulseAmplitudePerChannel a) ch
    + (if decide (filled_channel h = Some ch) then 1 else 0) /\
  TH1D.fEntries (fPulseAmplitude (process_record h a)) =
    TH1D.fEntries (fPulseAmplitude a)
    + (if decide (is_Some (filled_channel h)) then 1 else 0).
Proof.
  pose proof (process_record_cases h a) as Hcases.
  destruct (filled_channel h) as [channel|] eqn:Hf.
  - destruct Hcases as (amplitude & charge & Hcases). cbv zeta in Hcases.
    assert (entries1 (PulseAmplitudePerChannel
                        (fill_trigger channel amplitude charge a)) ch =
            entries1 (PulseAmplitudePerChannel a) ch
            + (if decide (Some channel = Some ch) then 1 else 0)) as HA.
    { unfold fill_trigger. cbn. rewrite entries1_book_fill by done.
      destruct (decide (channel = ch)) as [->|Hne].
      - by rewrite decide_True.
      - rewrite decide_False; [done|]. congruence. }
    rewrite (decide_True (P := is_Some (Some channel))) by eauto.
    destruct (counted_channel h) as [counted|].
    + destruct Hcases as (-> & fs & _ & ->).
      split; [|split; [exact HA|done]].
      unfold count_trigger. cbn.
      destruct (decide (Some channel = Some ch)) as [[= ->]|Hne].
      * by rewrite lookup_insert_eq.
      * rewrite lookup_insert_ne by congruence. cbn. lia.
    + rewrite Hcases. split; [|split; [exact HA|done]].
      rewrite decide_False by done. cbn. lia.
  - rewrite Hcases.
    assert (counted_channel h = None) as ->
      by (unfold counted_channel; by rewrite Hf).
    rewrite !decide_False by (done || by intros [? ?]). lia.
Qed.

(** X2. On such a fragment the walk adds, for every channel, the number
    of records counted for the channel to its trigger count and the number
    of records that decode to the channel to the entries of its amplitude
    histogram; the job-wide amplitude histogram gets one entry for every
    record that decodes. *)
Theorem walk_tiled_counts (frag : Fragment) (a : SSPDiagnosticAna)
    (starts : list Z) (ch : Z) :
  0 < SSPDAQ.header_words ->
  nTriggers frag = 0 \/
    Z.of_nat (List.length starts) <= nTriggers frag < 2 ^ 32 ->
  tiled frag (dataBegin frag) starts ->
  exists c a',
    walk_fragment frag a = Some (c, a') /\
    default 0 (triggerCount a' !! ch) =
      default 0 (triggerCount a !! ch)
      + Z.of_nat (List.length
          (filter (fun p => counted_channel (headerAt frag p) = Some ch) starts)) /\
    entries1 (PulseAmplitudePerChannel a') ch =
      entries1 (PulseAmplitudePerChannel a) ch
      + Z.of_nat (List.length
          (filter (fun p => filled_channel (headerAt frag p) = Some ch) starts)) /\
    TH1D.fEntries (fPulseAmplitude a') =
      TH1D.fEntries (fPulseAmplitude a)
      + Z.of_nat (List.length
          (filter (fun p => is_Some (filled_channel (headerAt frag p))) starts)).
Proof.
  intros Hw Hcount Ht.
  destruct (trigger_loop_tiled frag Hw starts
              (Z.to_nat (dataEnd frag - dataBegin frag))
              (Build_Cursor 0 (dataBegin frag) []) a)
    as (c & Hrun & _).
  { exact Ht. }
  { destruct Hcount as [?|?]; [by left|right]. cbn. lia. }
  { destruct (tiled_bounds frag starts Hw _ Ht). cbn. lia. }
  eexists c, _. split; [exact Hrun|].
  clear. revert a. induction starts as [|p rest IH]; intros a; cbn [foldl].
  - cbn. lia.
  - destruct (IH (process_record (headerAt frag p) a)) as (I1 & I2 & I3).
    destruct (process_record_counts (headerAt frag p) a ch) as (P1 & P2 & P3).
    rewrite I1, I2, I3, P1, P2, P3. clear.
    rewrite !filter_cons.
    repeat case_decide; cbn [List.length]; lia.
Qed.

End Counting.

Lemma walk_tiled_counts_witness :
  exists c a',
    walk_fragment (fragment_three 0) ana0 = Some (c, a') /\
    default 0 (triggerCount a' !! 1) = 2 /\
    entries1 (PulseAmplitudePerChannel a') 1 = 2 /\
    TH1D.fEntries (fPulseAmplitude a') = 3.
Proof.
  destruct (walk_tiled_counts (fragment_three 0) ana0 [0; 12; 24] 1)
    as (c & a' & Hrun & H1 & H2 & H3).
  - cbn. lia.
  - left. reflexivity.
  - cbn [tiled]. unfold in_step.
    repeat match goal with
           | |- _ /\ _ => split
           | |- is_Some _ \/ _ => left
           end;
      try (vm_compute; reflexivity); try (vm_compute; discriminate);
      vm_compute; eauto.
  - exists c, a'. split; [exact Hrun|].
    split; [exact H1|]. split; [exact H2|exact H3].
Defined.

(** ** Every walk *)

Section EveryWalk.

Context `{Algs : SSPReformatterAlgs}.

(** X4. Whatever the fragment holds, the walk only moves forward: the
    header of pass [i] (from 0) is read at least [i] header sizes after the
    start of the data region and below its end, and two consecutive
    headers are at least a header size apart. So no header is read twice,
    and a walk makes at most (size of the data region) / (header size)
    passes, rounded up. *)
Theorem walk_moves_forward (frag : Fragment) (a : SSPDiagnosticAna) :
  0 < SSPDAQ.header_words ->
  exists c a',
    walk_fragment frag a = Some (c, a') /\
    (forall (i : nat) p, headersRead c !! i = Some p ->
       dataBegin frag + Z.of_nat i * SSPDAQ.header_words <= p < dataEnd frag) /\
    (forall (i : nat) p q,
       headersRead c !! i = Some p -> headersRead c !! S i = Some q ->
       p + SSPDAQ.header_words <= q) /\
    (headersRead c <> [] ->
       (Z.of_nat (List.length (headersRead c)) - 1) * SSPDAQ.header_words
         < dataEnd frag - dataBegin frag).
Proof.
  intros Hw. unfold walk_fragment.
  destruct (trigger_loop_invariant frag
    (fun c _ =>
       (forall (i : nat) p, headersRead c !! i = Some p ->
          dataBegin frag + Z.of_nat i * SSPDAQ.header_words <= p < dataEnd frag
          /\ p + SSPDAQ.header_words <= dataPointer c) /\
       (forall (i : nat) p q,
          headersRead c !! i = Some p -> headersRead c !! S i = Some q ->
          p + SSPDAQ.header_words <= q) /\
       dataBegin frag
         + Z.of_nat (List.length (headersRead c)) * SSPDAQ.header_words
         <= dataPointer c) Hw)
    with (fuel := Z.to_nat (dataEnd frag - dataBegin frag))
         (c := Build_Cursor 0 (dataBegin frag) []) (a := a)
    as (c' & a' & Hrun & (Hpos & Hgap & Hlen) & _).
  - intros c a0 (Hpos & Hgap & Hlen) Htest.
    pose proof (loop_body_cursor frag c a0) as (_ & Hread & Hp).
    cbn zeta in Hread, Hp. rewrite Hread.
    unfold loop_test in Htest. apply andb_prop in Htest as [_ Hlt].
    apply Z.ltb_lt in Hlt.
    split; [|split].
    + intros i p Hi. apply lookup_app_Some in Hi as [Hi|[Hge Hi]].
      * destruct (Hpos i p Hi). lia.
      * apply list_lookup_singleton_Some in Hi as [Hi <-].
        assert (i = List.length (headersRead c)) as -> by lia. lia.
    + intros i p q Hi Hsi.
      apply lookup_app_Some in Hsi as [Hsi|[Hge Hsi]].
      * apply (Hgap i p q); [|done].
        apply lookup_app_Some in Hi as [Hi|[Hge' _]]; [done|].
        apply lookup_lt_Some in Hsi. lia.
      * apply list_lookup_singleton_Some in Hsi as [Hsi <-].
        apply lookup_app_Some in Hi as [Hi|[Hge' Hi]].
        -- destruct (Hpos i p Hi). lia.
        -- apply list_lookup_singleton_Some in Hi as [Hi _]. lia.
    + rewrite length_app. cbn [List.length]. lia.
  - cbn. lia.
  - cbn. split; [|split; [|lia]]; intros i p; by rewrite lookup_nil.
  - exists c', a'. split; [done|]. split; [|split; [done|]].
    + intros i p Hi. by destruct (Hpos i p Hi).
    + intros Hne.
      destruct (headersRead c') as [|p0 l] eqn:E using rev_ind; [done|].
      clear IHl. rewrite length_app. cbn [List.length].
      destruct (Hpos (List.length l) p0) as [Hp _].
      { rewrite lookup_app_r by lia. by rewrite Nat.sub_diag. }
      lia.
Qed.

(** The time stamps and the trigger counts over one pass. *)
Lemma process_record_timing (h : SSPDAQ.EventHeader) (a : SSPDiagnosticAna) :
  timing_ok a ->
  timing_ok (process_record h a) /\
  firstTime (process_record h a) <= firstTime a /\
  lastTime a <= lastTime (process_record h a) /\
  (triggerCount a <> ∅ -> triggerCount (process_record h a) <> ∅).
Proof.
  intros Hok. pose proof (process_record_cases h a) as Hcases.
  destruct (filled_channel h) as [channel|].
  - destruct Hcases as (amplitude & charge & Hcases). cbv zeta in Hcases.
    destruct (counted_channel h) as [counted|].
    + destruct Hcases as (-> & fs & _ & ->).
      unfold timing_ok, count_trigger. cbn.
      split; [lia|]. split; [lia|]. split; [lia|].
      intros _. apply insert_non_empty.
    + rewrite Hcases. unfold timing_ok, fill_trigger in *. cbn.
      split; [done|]. split; [lia|]. split; [lia|done].
  - rewrite Hcases. split; [done|]. split; [lia|]. split; [lia|done].
Qed.

(** X5. Over any walk [firstTime] does not grow and [lastTime] does not
    shrink, and once a trigger has been counted [firstTime] is not above
    [lastTime]: the [deltaT] of the rate report is then the span
    [lastTime - firstTime] whenever that span is below 2^63. *)
Theorem walk_keeps_timing (frag : Fragment) (a : SSPDiagnosticAna) :
  0 < SSPDAQ.header_words ->
  timing_ok a ->
  exists c a',
    walk_fragment frag a = Some (c, a') /\
    timing_ok a' /\
    firstTime a' <= firstTime a /\
    lastTime a <= lastTime a' /\
    (triggerCount a' <> ∅ -> lastTime a' - firstTime a' < 2 ^ 63 ->
     deltaT a' = lastTime a' - firstTime a' /\ 0 <= deltaT a').
Proof.
  intros Hw Hok. unfold walk_fragment.
  destruct (trigger_loop_invariant frag
    (fun _ a1 => timing_ok a1 /\ firstTime a1 <= firstTime a /\
                 lastTime a <= lastTime a1) Hw)
    with (fuel := Z.to_nat (dataEnd frag - dataBegin frag))
         (c := Build_Cursor 0 (dataBegin frag) []) (a := a)
    as (c' & a' & Hrun & (Hok' & Hf & Hl) & _).
  - intros c a0 (Hok0 & Hf0 & Hl0) _. rewrite loop_body_state.
    destruct (process_record_timing (headerAt frag (dataPointer c)) a0 Hok0)
      as (H1 & H2 & H3 & _).
    split; [done|lia].
  - cbn. lia.
  - split; [done|lia].
  - exists c', a'. split; [done|]. split; [done|]. split; [done|].
    split; [done|]. intros Hne Hspan. specialize (Hok' Hne).
    unfold deltaT, s64, u64.
    rewrite Z.mod_small by lia.
    destruct (Z.ltb_spec (lastTime a' - firstTime a') (2 ^ 63)); lia.
Qed.

End EveryWalk.

Lemma walk_moves_forward_witness :
  exists c a',
    walk_fragment (fragment_corrupt_first 0) ana0 = Some (c, a') /\
    (Z.of_nat (List.length (headersRead c)) - 1) * 12 < 26.
Proof.
  destruct (walk_moves_forward (fragment_corrupt_first 0) ana0)
    as (c & a' & Hrun & Hpos & _ & Hlen); [cbn; lia|].
  exists c, a'. split; [exact Hrun|].
  apply Hlen. intros Hnil.
  assert (walk_fragment (fragment_corrupt_first 0) ana0 <> Some (c, a')) as Hne.
  { intros Hrun'. revert Hrun'. vm_compute. intros [= Hc _].
    revert Hnil. rewrite <- Hc. discriminate. }
  exact (Hne Hrun).
Defined.

Lemma walk_keeps_timing_witness :
  exists c a',
    walk_fragment (fragment_three 0) ana0 = Some (c, a') /\
    firstTime a' <= 2 ^ 63 /\ 0 <= lastTime a'.
Proof.
  destruct (walk_keeps_timing (fragment_three 0) ana0)
    as (c & a' & Hrun & _ & Hf & Hl & _).
  - cbn. lia.
  - intros Hne. exfalso. apply Hne. reflexivity.
  - exists c, a'. split; [exact Hrun|]. split; [exact Hf|exact Hl].
Defined.

(** ** The loops over the channels, by their index *)

Lemma foldl_option_None {St A : Type} (body : A -> St -> option St) (l : list A) :
  foldl (fun acc i => s ← acc; body i s) None l = None.
Proof. induction l as [|i l IH]; cbn [foldl]; [done|exact IH]. Qed.

Lemma foldl_seqZ_spec {St : Type} (body : Z -> St -> option St)
    (R : Z -> St -> Prop) (ok : Z -> Prop) (hi : Z) :
  (forall i s1, 0 <= i < hi -> R i s1 ->
     match body i s1 with
     | Some s2 => ok i /\ R (i + 1) s2
     | None => ~ ok i
     end) ->
  forall (n : nat) (m : Z) (s : St),
    0 <= m -> m + Z.of_nat n <= hi ->
    R m s -> (forall i, 0 <= i < m -> ok i) ->
    match foldl (fun acc i => s ← acc; body i s) (Some s)
                (seqZ m (Z.of_nat n)) with
    | Some s' => (forall i, 0 <= i < m + Z.of_nat n -> ok i) /\
                 R (m + Z.of_nat n) s'
    | None => exists i, 0 <= i < hi /\ ~ ok i
    end.
Proof.
  intros Hstep. induction n as [|n IH]; intros m s Hm Hhi Hs Hok.
  - cbn. rewrite Z.add_0_r. done.
  - rewrite seqZ_cons by lia. cbn [foldl mbind option_bind].
    replace (Z.pred (Z.of_nat (S n))) with (Z.of_nat n) by lia.
    specialize (Hstep m s ltac:(lia) Hs).
    destruct (body m s) as [s2|].
    + destruct Hstep as [Hokm HR].
      replace (m + Z.of_nat (S n)) with (Z.succ m + Z.of_nat n) by lia.
      apply (IH (Z.succ m) s2); [lia|lia| |].
      * by replace (Z.succ m) with (m + 1) by lia.
      * intros i Hi. destruct (decide (i = m)) as [->|]; [done|].
        apply Hok. lia.
    + rewrite foldl_option_None. exists m. split; [lia|done].
Qed.

(** The invariant of [for (int i = 0; i < 100; ++i)], indexed by [i];
    [ok i] tells whether the pass for channel [i] has a result. *)
Lemma for_channels_spec {St : Type} (body : Z -> St -> option St)
    (R : Z -> St -> Prop) (ok : Z -> Prop) (s : St) :
  R 0 s ->
  (forall i s1, 0 <= i < 100 -> R i s1 ->
     match body i s1 with
     | Some s2 => ok i /\ R (i + 1) s2
     | None => ~ ok i
     end) ->
  match for_channels body s with
  | Some s' => (forall i, 0 <= i < 100 -> ok i) /\ R 100 s'
  | None => exists i, 0 <= i < 100 /\ ~ ok i
  end.
Proof.
  intros Hs Hstep.
  exact (foldl_seqZ_spec body R ok 100 Hstep 100%nat 0 s
           ltac:(lia) ltac:(lia) Hs ltac:(lia)).
Qed.

(** ** What every state of a job keeps true *)

Lemma lookup_book_alter {H : Type} (g : H -> H) (m : gmap Z H)
    (channel ch : Z) (fresh : H) :
  alter g channel (book m channel fresh) !! ch =
    if decide (channel = ch) then Some (g (default fresh (m !! channel)))
    else m !! ch.
Proof.
  unfold book. destruct (decide (channel = ch)) as [->|Hne].
  - rewrite lookup_alter_eq. destruct (m !! ch) as [h|] eqn:E.
    + rewrite E. done.
    + rewrite lookup_insert_eq. done.
  - rewrite lookup_alter_ne by done.
    destruct (m !! channel); [done|]. by rewrite lookup_insert_ne.
Qed.

Section Invariants.

Context `{Algs : SSPReformatterAlgs}.

Lemma fill_trigger_per_channel_ok (channel : Z) (amplitude charge : float)
    (a : SSPDiagnosticAna) :
  0 <= channel < 2 ^ 16 ->
  per_channel_ok a ->
  per_channel_ok (fill_trigger channel amplitude charge a).
Proof.
  intros Hch (Hkeys & Hsame & Hax & Hent).
  unfold per_channel_ok, fill_trigger. cbn.
  split_all.
  - intros ch. rewrite lookup_book_alter.
    destruct (decide (channel = ch)) as [<-|]; [done|apply Hkeys].
  - intros ch. rewrite !lookup_book_alter.
    destruct (decide (channel = ch)); [|apply Hsame].
    split; split; eauto.
  - intros ch h. rewrite lookup_book_alter.
    destruct (decide (channel = ch)) as [<-|]; [|apply Hax].
    intros [= <-].
    destruct (PulseAmplitudePerChannel a !! channel) as [h0|] eqn:E; cbn.
    + apply (Hax channel). done.
    + reflexivity.
  - intros ch. rewrite !entries1_book_fill, entries2_book_fill by done.
    destruct (Hent ch). lia.
Qed.

Lemma filled_channel_range (h : SSPDAQ.EventHeader) (channel : Z) :
  filled_channel h = Some channel -> 0 <= channel < 2 ^ 16.
Proof.
  unfold filled_channel.
  destruct (GetOpChannel h); [|done].
  destruct (GetGlobalFirstSample h); [|done].
  destruct (GetPeakSum h); [|done].
  destruct (GetBaselineSum h); [|done].
  destruct (GetIntegratedSum h); [|done].
  intros [= <-]. apply Z.mod_pos_bound. lia.
Qed.

Lemma process_record_per_channel_ok (h : SSPDAQ.EventHeader)
    (a : SSPDiagnosticAna) :
  per_channel_ok a -> per_channel_ok (process_record h a).
Proof.
  intros Hok. pose proof (process_record_cases h a) as Hcases.
  destruct (filled_channel h) as [channel|] eqn:Hf; [|by rewrite Hcases].
  destruct Hcases as (amplitude & charge & Hcases). cbv zeta in Hcases.
  pose proof (fill_trigger_per_channel_ok channel amplitude charge a
                (filled_channel_range h channel Hf) Hok) as Hfill.
  destruct (counted_channel h).
  - destruct Hcases as (-> & fs & _ & ->). exact Hfill.
  - by rewrite Hcases.
Qed.

(** What a pass of the trigger loop leaves alone. *)
Lemma process_record_frame (h : SSPDAQ.EventHeader) (a : SSPDiagnosticAna) :
  averageWaveforms (process_record h a) = averageWaveforms a /\
  PulseAmpVsRun (process_record h a) = PulseAmpVsRun a /\
  fSampleFreq (process_record h a) = fSampleFreq a.
Proof.
  pose proof (process_record_cases h a) as Hcases.
  destruct (filled_channel h) as [channel|]; [|by rewrite Hcases].
  destruct Hcases as (amplitude & charge & Hcases). cbv zeta in Hcases.
  destruct (counted_channel h).
  - destruct Hcases as (-> & fs & _ & ->). done.
  - by rewrite Hcases.
Qed.

(** A property kept by every pass is kept by the loop. *)
Lemma trigger_loop_preserves (P : SSPDiagnosticAna -> Prop) (frag : Fragment) :
  (forall h a, P a -> P (process_record h a)) ->
  forall fuel c a c' a',
    P a -> trigger_loop fuel frag c a = Some (c', a') -> P a'.
Proof.
  intros Hstep. induction fuel as [|fuel IH]; intros c a c' a' Ha;
    cbn [trigger_loop]; destruct (loop_test frag c);
    try discriminate; try (by intros [= <- <-]).
  destruct (loop_body frag c a) as [c1 a1] eqn:E. intros Hrun.
  apply (IH c1 a1 c' a'); [|done].
  replace a1 with (snd (loop_body frag c a)) by (by rewrite E).
  rewrite loop_body_state. by apply Hstep.
Qed.

Lemma analyze_preserves (P : SSPDiagnosticAna -> Prop) (evt : Event)
    (a a' : SSPDiagnosticAna) :
  (forall a pulse, P a -> P (add_waveform a pulse)) ->
  (forall h a, P a -> P (process_record h a)) ->
  P a -> analyze evt a = Some a' -> P a'.
Proof.
  intros Hwave Hrec Ha. unfold analyze.
  destruct (rawFragments evt) as [frags|]; [|by intros [= <-]].
  cbv zeta.
  assert (P (foldl add_waveform a (waveforms evt))) as Ha1.
  { generalize (waveforms evt). intros l. revert a Ha.
    induction l as [|pulse l IH]; intros a Ha; cbn [foldl]; eauto. }
  revert Ha1. generalize (foldl add_waveform a (waveforms evt)).
  induction frags as [|f frags IH]; intros a1 Ha1; cbn [foldl].
  - by intros [= <-].
  - cbn [mbind option_bind].
    destruct (walk_fragment f a1) as [[c a2]|] eqn:E; cbn [fmap option_fmap option_map snd].
    + apply IH. exact (trigger_loop_preserves P f Hrec _ _ _ _ _ Ha1 E).
    + rewrite foldl_option_None. discriminate.
Qed.

End Invariants.

(** ** endRun: the formatting loop *)

(** The body of the formatting loop dereferences the four histograms of
    a channel that has an amplitude histogram. *)
Lemma format_plots_spec (a : SSPDiagnosticAna) :
  match format_plots a with
  | Some a' => formattable a /\ formatted 100 a a'
  | None => ~ formattable a
  end.
Proof.
  unfold format_plots.
  match goal with |- match for_channels ?body a with _ => _ end =>
    unshelve epose proof (for_channels_spec body (fun n x => formatted n a x)
      (fun i => is_Some (PulseAmplitudePerChannel a !! i) ->
                is_Some (IntegratedChargePerChannel a !! i) /\
                is_Some (PulseAmplitudeVsIntegratedChargePerChannel a !! i) /\
                is_Some (averageWaveforms a !! i)) a _ _) as Hspec
  end.
  - unfold formatted. split_all; try done; intros j;
      rewrite decide_False; (done || lia).
  - cbv beta. intros i s1 Hi (H1 & H2 & H3 & H4 & Hrest).
    pose proof (H1 i) as E1. rewrite decide_False in E1 by lia.
    pose proof (H2 i) as E2. rewrite decide_False in E2 by lia.
    pose proof (H3 i) as E3. rewrite decide_False in E3 by lia.
    pose proof (H4 i) as E4. rewrite decide_False in E4 by lia.
    rewrite E1, E2, E3, E4.
    destruct (PulseAmplitudePerChannel a !! i) as [hA|] eqn:EA.
    + destruct (IntegratedChargePerChannel a !! i) as [hQ|] eqn:EQ;
        [|cbn; intros Hok; destruct (Hok ltac:(eauto)) as ([? ?] & _); done].
      destruct (PulseAmplitudeVsIntegratedChargePerChannel a !! i)
        as [hAQ|] eqn:EAQ;
        [|cbn; intros Hok; destruct (Hok ltac:(eauto)) as (_ & [? ?] & _); done].
      destruct (averageWaveforms a !! i) as [hW|] eqn:EW;
        [|cbn; intros Hok; destruct (Hok ltac:(eauto)) as (_ & _ & [? ?]); done].
      cbn [mbind option_bind]. split; [eauto|].
      unfold formatted. cbn.
      split_all; try apply Hrest; intros j;
        (destruct (decide (j = i)) as [->|Hne];
         [rewrite lookup_insert_eq, decide_True by (split; [lia|eauto]);
          by rewrite ?EA, ?EQ, ?EAQ, ?EW
         |rewrite lookup_insert_ne by done;
          rewrite ?H1, ?H2, ?H3, ?H4; apply decide_ext;
          split; intros [? ?]; (split; [lia|done])]).
    + split; [by intros [? ?]|]. unfold formatted.
      split_all; try apply Hrest; intros j;
        rewrite ?H1, ?H2, ?H3, ?H4; apply decide_ext;
        (split; intros [Hj Hs]; (split; [|done]);
         destruct (decide (j = i)) as [->|]; [|lia| |lia];
         rewrite EA in Hs; by destruct Hs).
  - revert Hspec. destruct (for_channels _ a) as [a'|]; [done|].
    intros (i & Hi & Hnot) Hfmt. apply Hnot. exact (Hfmt i Hi).
Qed.

Lemma format_plots_formatted (a a' : SSPDiagnosticAna) :
  format_plots a = Some a' -> formatted 100 a a'.
Proof.
  intros Hf. pose proof (format_plots_spec a) as Hspec.
  rewrite Hf in Hspec. apply Hspec.
Qed.

Lemma format_plots_succeeds (a : SSPDiagnosticAna) :
  is_Some (format_plots a) <-> formattable a.
Proof.
  pose proof (format_plots_spec a) as Hspec.
  destruct (format_plots a) as [a'|].
  - split; [intros _; apply Hspec|eauto].
  - split; [by intros [? ?]|done].
Qed.

Lemma formatted_domains (n : Z) (a x : SSPDiagnosticAna) :
  formatted n a x ->
  forall j,
    (is_Some (PulseAmplitudePerChannel x !! j) <->
     is_Some (PulseAmplitudePerChannel a !! j)) /\
    (is_Some (IntegratedChargePerChannel x !! j) <->
     is_Some (IntegratedChargePerChannel a !! j)) /\
    (is_Some (PulseAmplitudeVsIntegratedChargePerChannel x !! j) <->
     is_Some (PulseAmplitudeVsIntegratedChargePerChannel a !! j)) /\
    (is_Some (averageWaveforms x !! j) <->
     is_Some (averageWaveforms a !! j)).
Proof.
  intros (H1 & H2 & H3 & H4 & _) j.
  rewrite H1, H2, H3, H4.
  destruct (decide _); rewrite ?fmap_is_Some; done.
Qed.

Lemma formatted_per_channel_ok (n : Z) (a x : SSPDiagnosticAna) :
  formatted n a x -> per_channel_ok a -> per_channel_ok x.
Proof.
  intros Hfmt (Hkeys & Hsame & Hax & Hent).
  pose proof (formatted_domains n a x Hfmt) as Hdom.
  destruct Hfmt as (H1 & H2 & H3 & _).
  unfold per_channel_ok. split_all.
  - intros ch Hch. apply Hkeys. by apply Hdom.
  - intros ch. destruct (Hdom ch) as (D1 & D2 & D3 & _).
    rewrite D1, D2, D3. apply Hsame.
  - intros ch h. rewrite H1.
    destruct (decide _); [|apply Hax].
    destruct (PulseAmplitudePerChannel a !! ch) as [h0|] eqn:E; [|done].
    intros [= <-]. exact (Hax ch h0 E).
  - intros ch. unfold entries1, entries2. rewrite H1, H2, H3.
    destruct (Hent ch) as [E1 E2]. unfold entries1, entries2 in E1, E2.
    destruct (decide _); [|done].
    destruct (PulseAmplitudePerChannel a !! ch),
             (IntegratedChargePerChannel a !! ch),
             (PulseAmplitudeVsIntegratedChargePerChannel a !! ch); done.
Qed.

(** ** endRun: the summaries *)

Lemma extend_lookup (i run : Z) (hA : TH1D.t) (m1 m2 : gmap Z TH2Run.t) :
  m1 !! i = m2 !! i ->
  extend i run hA m1 !! i = extend i run hA m2 !! i.
Proof.
  intros E. unfold extend. rewrite !lookup_insert_eq, E. done.
Qed.

(** The loop of lines 311-344 always runs to its end: it extends the
    summary of every channel below 100 that has an amplitude histogram,
    once, and changes nothing else. *)
Lemma extend_summaries_spec (run : Z) (a : SSPDiagnosticAna) :
  exists m,
    extend_summaries run a = Some (set_PulseAmpVsRun m a) /\
    forall j,
      m !! j =
        match PulseAmplitudePerChannel a !! j with
        | Some hA =>
            if decide (0 <= j < 100)
            then extend j run hA (PulseAmpVsRun a) !! j
            else PulseAmpVsRun a !! j
        | None => PulseAmpVsRun a !! j
        end.
Proof.
  unfold extend_summaries.
  match goal with |- exists m, for_channels ?body a = _ /\ _ =>
    unshelve epose proof (for_channels_spec body
      (fun n x => exists m,
         x = set_PulseAmpVsRun m a /\
         forall j,
           m !! j =
             match PulseAmplitudePerChannel a !! j with
             | Some hA =>
                 if decide (0 <= j < n)
                 then extend j run hA (PulseAmpVsRun a) !! j
                 else PulseAmpVsRun a !! j
             | None => PulseAmpVsRun a !! j
             end)
      (fun _ => True) a _ _) as Hspec
  end.
  - exists (PulseAmpVsRun a). split; [by destruct a|].
    intros j. destruct (PulseAmplitudePerChannel a !! j); [|done].
    rewrite decide_False by lia. done.
  - cbv beta. intros i s1 Hi (m & -> & Hm).
    cbn [PulseAmplitudePerChannel set_PulseAmpVsRun PulseAmpVsRun].
    destruct (PulseAmplitudePerChannel a !! i) as [hA|] eqn:EA.
    + split; [done|].
      exists (extend i run hA m). split; [done|]. intros j.
      destruct (decide (j = i)) as [->|Hne].
      * rewrite EA, decide_True by lia. apply extend_lookup.
        rewrite Hm, EA, decide_False by lia. done.
      * unfold extend at 1. rewrite lookup_insert_ne by done. rewrite Hm.
        destruct (PulseAmplitudePerChannel a !! j); [|done].
        apply decide_ext. lia.
    + split; [done|]. exists m. split; [done|]. intros j. rewrite Hm.
      destruct (PulseAmplitudePerChannel a !! j) eqn:EJ; [|done].
      apply decide_ext. split; [lia|]. intros Hj.
      destruct (decide (j = i)) as [->|]; [congruence|lia].
  - revert Hspec. destruct (for_channels _ a) as [a'|].
    + intros (_ & m & -> & Hm). by exists m.
    + intros (i & _ & Hnot). by destruct Hnot.
Qed.

(** ** endRun: the calibration report *)

Lemma ADCperPE_average (peaks : list Float32.t) :
  ADCperPE peaks =
    Some (average (List.filter (kept 10 20) (differences (tail (sort peaks))))).
Proof. apply spacing_is_average; vm_compute; discriminate. Qed.

Lemma INTperPE_average (peaks : list Float32.t) :
  INTperPE peaks =
    Some (average (List.filter (kept 1000 1800)
                               (differences (tail (sort peaks))))).
Proof. apply spacing_is_average; vm_compute; discriminate. Qed.

Section Report.

Context `{Spectrum : TSpectrum}.

Lemma analyze_plots_spec (a : SSPDiagnosticAna) :
  match analyze_plots a with
  | Some report =>
      cal_channel <$> report =
        filter (fun i => is_Some (PulseAmplitudePerChannel a !! i))
               (seqZ 0 100) /\
      Forall (line_of a) report
  | None =>
      exists i, 0 <= i < 100 /\
        is_Some (PulseAmplitudePerChannel a !! i) /\
        IntegratedChargePerChannel a !! i = None
  end.
Proof.
  unfold analyze_plots.
  match goal with |- match for_channels ?body [] with _ => _ end =>
    unshelve epose proof (for_channels_spec body
      (fun n report =>
         cal_channel <$> report =
           filter (fun i => is_Some (PulseAmplitudePerChannel a !! i))
                  (seqZ 0 n) /\
         Forall (line_of a) report)
      (fun i => is_Some (PulseAmplitudePerChannel a !! i) ->
                is_Some (IntegratedChargePerChannel a !! i)) [] _ _) as Hspec
  end.
  - split; [done|constructor].
  - cbv beta. intros i r Hi [Hch Hlines].
    assert (seqZ 0 (i + 1) = seqZ 0 i ++ [i]) as Hseq.
    { rewrite seqZ_app by lia. rewrite Z.add_0_l. done. }
    rewrite Hseq, filter_app, filter_cons, filter_nil.
    destruct (PulseAmplitudePerChannel a !! i) as [hA|] eqn:EA.
    + rewrite ADCperPE_average. cbn [mbind option_bind].
      destruct (IntegratedChargePerChannel a !! i) as [hQ|] eqn:EQ.
      * cbn [mbind option_bind]. rewrite INTperPE_average.
        cbn [mbind option_bind].
        split; [eauto|]. split.
        -- rewrite fmap_app, Hch. rewrite decide_True by eauto. done.
        -- apply Forall_app. split; [done|]. apply Forall_singleton.
           exists hA, hQ. done.
      * cbn [mbind option_bind]. intros Hok.
        destruct (Hok ltac:(eauto)) as [? ?]. done.
    + split; [by intros [? ?]|]. split; [|done].
      rewrite decide_False by (by intros [? ?]).
      by rewrite app_nil_r.
  - revert Hspec. destruct (for_channels _ []) as [report|].
    + intros (_ & Hch & Hlines). done.
    + intros (i & Hi & Hnot). exists i. split; [done|].
      destruct (PulseAmplitudePerChannel a !! i) as [hA|];
        [|exfalso; apply Hnot; by intros [? ?]].
      split; [eauto|].
      destruct (IntegratedChargePerChannel a !! i); [|done].
      exfalso. apply Hnot. eauto.
Qed.

End Report.

(** ** endRun as a whole *)

Section EndRun.

Context `{Spectrum : TSpectrum}.

Lemma endRun_Some (run : Z) (a a' : SSPDiagnosticAna)
    (report : list Calibration) :
  endRun run a = Some (a', report) ->
  exists af,
    format_plots a = Some af /\
    analyze_plots af = Some report /\
    extend_summaries run af = Some a'.
Proof.
  unfold endRun. destruct (format_plots a) as [af|]; [|done].
  cbn [mbind option_bind].
  destruct (analyze_plots af) as [r|] eqn:Er; [|done].
  cbn [mbind option_bind].
  destruct (extend_summaries run af) as [s|] eqn:Es; [|done].
  cbn [mbind option_bind]. intros [= <- <-]. by exists af.
Qed.

(** X9. [endRun] runs to its end exactly when every channel below 100
    that has an amplitude histogram also has its charge histogram, its
    charge-amplitude histogram and its average-waveform histogram;
    otherwise the formatting loop dereferences the null pointer that
    [operator[]] has just put in the map. *)
Theorem endRun_completes_iff (run : Z) (a : SSPDiagnosticAna) :
  is_Some (endRun run a) <-> formattable a.
Proof.
  split.
  - intros [[a' r] Hrun]. apply endRun_Some in Hrun as (af & Hf & _).
    apply format_plots_succeeds. eauto.
  - intros Hfmt. pose proof (format_plots_spec a) as Hs.
    unfold endRun. destruct (format_plots a) as [af|]; [|done].
    destruct Hs as [_ Hfd]. cbn [mbind option_bind].
    pose proof (analyze_plots_spec af) as Hr.
    destruct (analyze_plots af) as [report|].
    + cbn [mbind option_bind].
      destruct (extend_summaries_spec run af) as (m & -> & _).
      cbn [mbind option_bind]. eauto.
    + exfalso. destruct Hr as (i & Hi & HA & HQ).
      destruct (formatted_domains 100 a af Hfd i) as (D1 & D2 & _).
      apply D1 in HA. destruct (Hfmt i Hi HA) as (HQ' & _).
      apply D2 in HQ'. rewrite HQ in HQ'. by destruct HQ'.
Qed.

(** X10. The report of the calibration loop has one line for every
    channel from 0 to 99 that has an amplitude histogram, in ascending
    order of the channel, and no other line; a line holds, for the
    amplitude and for the charge, the average of the kept differences of
    the sorted peak positions from the second position on. *)
Theorem analyze_plots_report (a : SSPDiagnosticAna)
    (report : list Calibration) :
  analyze_plots a = Some report ->
  cal_channel <$> report =
    filter (fun i => is_Some (PulseAmplitudePerChannel a !! i)) (seqZ 0 100) /\
  Forall (line_of a) report.
Proof.
  intros Hrun. pose proof (analyze_plots_spec a) as Hs.
  rewrite Hrun in Hs. exact Hs.
Qed.

(** X12. [endRun] changes the statistics flag of the histograms of the
    channels below 100 and the summaries, and nothing else: contents,
    entries and binning of every per-run histogram, the job-wide
    histogram, the two time stamps and the trigger counts are as before.
    The summaries of the channels from 100 on, and of the channels without
    an amplitude histogram, are as before too. *)
Theorem endRun_frame (run : Z) (a a' : SSPDiagnosticAna)
    (report : list Calibration) :
  endRun run a = Some (a', report) ->
  formatted 100 a (set_PulseAmpVsRun (PulseAmpVsRun a) a') /\
  forall j,
    ~ (0 <= j < 100) \/ PulseAmplitudePerChannel a !! j = None ->
    PulseAmpVsRun a' !! j = PulseAmpVsRun a !! j.
Proof.
  intros Hrun. apply endRun_Some in Hrun as (af & Hf & _ & He).
  apply format_plots_formatted in Hf.
  destruct (extend_summaries_spec run af) as (m & He' & Hm).
  rewrite He' in He. injection He as <-.
  pose proof Hf as (H1 & H2 & H3 & H4 & H5 & Hrest).
  split.
  - unfold formatted. cbn. split_all; try done; apply Hrest.
  - intros j Hj. cbn. rewrite Hm, H5, H1.
    destruct Hj as [Hj|Hj].
    + rewrite decide_False by (intros [? ?]; done).
      destruct (PulseAmplitudePerChannel a !! j); [|done].
      by rewrite decide_False.
    + rewrite Hj. by destruct (decide _).
Qed.


End EndRun.

(** ** The states of a job *)

Section JobStates.

Context `{Algs : SSPReformatterAlgs} `{Spectrum : TSpectrum}.

Lemma reachable_invariant (a : SSPDiagnosticAna) :
  reachable a -> job_invariant a.
Proof.
  induction 1 as [f|a _ IH|evt a a' _ IH Hrun|run a a' report _ IH Hr Hrun].
  - unfold job_invariant, per_channel_ok, timing_ok. cbn.
    split_all; try done.
    + intros ch [? Hc]. by rewrite lookup_empty in Hc.
    + intros ch. rewrite !lookup_empty.
      split; split; intros [? ?]; done.
    + intros i [? Hi]. by rewrite lookup_empty in Hi.
  - destruct IH as (_ & Ht & Hk).
    split; [|split; [exact Ht|exact Hk]].
    unfold per_channel_ok, beginRun. cbn. split_all; try done.
    + intros ch [? Hc]. by rewrite lookup_empty in Hc.
    + intros ch. rewrite !lookup_empty.
      split; split; intros [? ?]; done.
  - refine (analyze_preserves job_invariant evt a a' _ _ IH Hrun).
    + intros a0 pulse Ha0. exact Ha0.
    + intros h a0 (Hp & Ht & Hk).
      destruct (process_record_frame h a0) as (_ & Hsum & _).
      split; [by apply process_record_per_channel_ok|].
      split; [by apply process_record_timing|].
      rewrite Hsum. done.
  - destruct IH as (Hp & Ht & Hk).
    apply endRun_Some in Hrun as (af & Hf & _ & He).
    apply format_plots_formatted in Hf.
    pose proof (formatted_per_channel_ok 100 a af Hf Hp) as Hpf.
    destruct (extend_summaries_spec run af) as (m & He' & Hm).
    rewrite He' in He. injection He as <-.
    destruct Hf as (_ & _ & _ & _ & H5 & _ & _ & Hft & Hlt & Htc).
    split; [exact Hpf|].
    split; [unfold timing_ok; cbn; rewrite Hft, Hlt, Htc; exact Ht|].
    intros j Hj. cbn in Hj. rewrite Hm, H5 in Hj.
    destruct (PulseAmplitudePerChannel af !! j); [|by apply Hk].
    destruct (decide (0 <= j < 100)); [done|by apply Hk].
Qed.

Lemma reachable_int_reachable (a : SSPDiagnosticAna) :
  reachable_int a -> reachable a.
Proof.
  induction 1 as [f|a _ IH|evt a a' _ IH Hrun|run a a' report _ IH Hr Hrun].
  - apply reach_beginJob.
  - by apply reach_beginRun.
  - by apply (reach_analyze evt a).
  - apply (reach_endRun run a a' report); [done|lia|done].
Qed.

(** The summaries in a job whose run numbers are below 2^31 - 1. *)
Lemma reachable_int_summaries (a : SSPDiagnosticAna) :
  reachable_int a -> summaries_ok a /\ summaries_int a.
Proof.
  induction 1 as [f|a Ha IH|evt a a' Ha IH Hrun|run a a' report Ha IH Hr Hrun].
  - split; intros i h; cbn; by rewrite lookup_empty.
  - exact IH.
  - refine (analyze_preserves (fun x => summaries_ok x /\ summaries_int x)
              evt a a' _ _ IH Hrun).
    + intros a0 pulse Ha0. exact Ha0.
    + intros h a0 Ha0. destruct (process_record_frame h a0) as (_ & Hsum & _).
      unfold summaries_ok, summaries_int. rewrite Hsum. exact Ha0.
  - destruct IH as (Hs & Hi).
    destruct (reachable_invariant a (reachable_int_reachable a Ha))
      as (Hp & _).
    apply endRun_Some in Hrun as (af & Hf & _ & He).
    apply format_plots_formatted in Hf.
    pose proof (formatted_per_channel_ok 100 a af Hf Hp) as Hpf.
    destruct (extend_summaries_spec run af) as (m & He' & Hm).
    rewrite He' in He. injection He as <-.
    destruct Hf as (_ & _ & _ & _ & H5 & _).
    assert (forall j h, m !! j = Some h -> unit_bins h /\ int_runs h) as Hall.
    { intros j h. rewrite Hm, H5.
      destruct (PulseAmplitudePerChannel af !! j) as [hA|] eqn:EA;
        [destruct (decide (0 <= j < 100)) as [Hj|Hj]|].
      - assert (TH1D.fXaxis hA = amplitude_axis) as HAx
          by (destruct Hpf as (_ & _ & Hax & _); exact (Hax j hA EA)).
        destruct (PulseAmpVsRun a !! j) as [oldHist|] eqn:EO.
        + pose proof (Hs j oldHist EO) as Hu0.
          pose proof (Hi j oldHist EO) as Hi0.
          destruct (extend_existing j run hA (PulseAmpVsRun a) oldHist
                      EO Hu0 Hi0 Hr HAx) as (s & -> & Hu & Hax & _).
          intros [= <-]. split; [done|].
          destruct Hu0 as (HN & Hmax & _). destruct Hi0 as [Hlo Hhi].
          cbv zeta in Hax. unfold int_runs. rewrite Hax.
          cbn [RunAxis.fXmin RunAxis.fXmax]. lia.
        + destruct (extend_new j run hA (PulseAmpVsRun a) EO ltac:(lia) HAx)
            as (s & -> & Hu & Hax & _).
          intros [= <-]. split; [done|].
          unfold int_runs. rewrite Hax. cbn [RunAxis.fXmin RunAxis.fXmax]. lia.
      - intros Hj'. split; [exact (Hs j h Hj')|exact (Hi j h Hj')].
      - intros Hj'. split; [exact (Hs j h Hj')|exact (Hi j h Hj')]. }
    split; intros j h Hj; cbn in Hj; by destruct (Hall j h Hj).
Qed.

(** X6. In every state of a job the three maps filled by the trigger
    loop hold the same channels, all of them [unsigned short] values, with
    the same number of entries in the three histograms of a channel and
    the amplitude axis of 125 bins over [-20, 230); and once a trigger is
    counted [firstTime] is not above [lastTime]. *)
Theorem reachable_per_channel_ok (a : SSPDiagnosticAna) :
  reachable a -> per_channel_ok a /\ timing_ok a.
Proof.
  intros Hr. destruct (reachable_invariant a Hr) as (Hp & Ht & _).
  by split.
Qed.

(** X7. In every state of a job whose run numbers are below 2^31 - 1,
    only channels 0 to 99 have a summary, and every summary has one bin
    per run, the amplitude axis, and a run range between 0 and 2^31 - 1.
    (From run 2^31 - 1 on the conversions to [int] and the [int] sums of
    lines 322-324 are no longer exact.) *)
Theorem reachable_summaries_ok (a : SSPDiagnosticAna) :
  reachable_int a ->
  summaries_ok a /\
  summaries_int a /\
  forall i, is_Some (PulseAmpVsRun a !! i) -> 0 <= i < 100.
Proof.
  intros Hr. destruct (reachable_int_summaries a Hr) as (Hs & Hi).
  destruct (reachable_invariant a (reachable_int_reachable a Hr))
    as (_ & _ & Hk).
  split; [exact Hs|]. split; [exact Hi|exact Hk].
Qed.

(** X15. In a job [endRun] runs to its end exactly when every channel
    below 100 that has got a trigger in the run has got a waveform in the
    job: a channel with triggers and no waveform stops the job in the
    formatting loop. *)
Theorem job_endRun_needs_waveforms (run : Z) (a : SSPDiagnosticAna) :
  reachable a ->
  (is_Some (endRun run a) <->
   forall i, 0 <= i < 100 ->
     is_Some (PulseAmplitudePerChannel a !! i) ->
     is_Some (averageWaveforms a !! i)).
Proof.
  intros Hr. destruct (reachable_invariant a Hr) as ((_ & Hsame & _) & _).
  split.
  - intros [[a' r] Hrun] i Hi HA.
    apply endRun_Some in Hrun as (af & Hf & _).
    pose proof (format_plots_spec a) as Hs. rewrite Hf in Hs.
    destruct Hs as [Hfmt _]. by destruct (Hfmt i Hi HA) as (_ & _ & ?).
  - intros Hw.
    assert (formattable a) as Hfmt.
    { intros i Hi HA. destruct (Hsame i) as [H1 H2].
      split; [by apply H1|]. split; [by apply H2|by apply Hw]. }
    pose proof (format_plots_spec a) as Hs.
    unfold endRun. destruct (format_plots a) as [af|]; [|done].
    destruct Hs as [_ Hfd]. cbn [mbind option_bind].
    pose proof (analyze_plots_spec af) as Hrep.
    destruct (analyze_plots af) as [report|].
    + cbn [mbind option_bind].
      destruct (extend_summaries_spec run af) as (m & -> & _).
      cbn [mbind option_bind]. eauto.
    + exfalso. destruct Hrep as (i & Hi & HA & HQ).
      destruct (formatted_domains 100 a af Hfd i) as (D1 & D2 & _).
      apply D1 in HA. destruct (Hfmt i Hi HA) as (HQ' & _).
      apply D2 in HQ'. rewrite HQ in HQ'. by destruct HQ'.
Qed.

End JobStates.

(** ** The waveform loop *)

Lemma fill_waveform_fold (sampleFreq : float) (pulse : list Z)
    (ticks : list Z) (h : TH2D.t) :
  let h' :=
    foldl (fun h tick =>
             TH2D.Fill h (Double.of_Z tick / sampleFreq)%float
                       (Double.of_Z (default 0 (pulse !! Z.to_nat tick))))
          h ticks in
  TH2D.fEntries h' = TH2D.fEntries h + Z.of_nat (List.length ticks) /\
  TH2D.fXaxis h' = TH2D.fXaxis h /\
  TH2D.fYaxis h' = TH2D.fYaxis h /\
  TH2D.fStats h' = TH2D.fStats h.
Proof.
  cbv zeta. revert h. induction ticks as [|tick ticks IH]; intros h.
  - cbn. split; [lia|done].
  - cbn [foldl]. destruct (IH (TH2D.Fill h (Double.of_Z tick / sampleFreq)%float
                     (Double.of_Z (default 0 (pulse !! Z.to_nat tick)))))
      as (E1 & E2 & E3 & E4).
    rewrite E1, E2, E3, E4. cbn [TH2D.Fill TH2D.fEntries TH2D.fXaxis
                                 TH2D.fYaxis TH2D.fStats List.length].
    split; [lia|done].
Qed.

(** X8. A waveform adds one entry per sample to the waveform histogram
    of its channel and touches no other channel and no other member. The
    histogram is booked when the channel has none, over the time of the
    waveform: with as many time bins as the waveform has samples when
    that number is positive (and an [int]), and with one time bin for a
    waveform without samples, since the constructor of TH2 replaces a
    number of bins that is not positive by 1. A later waveform, whatever
    its length, is filled into the binning the histogram already has. *)
Theorem add_waveform_entries (a : SSPDiagnosticAna) (pulse : OpDetWaveform) :
  let channel := ChannelNumber pulse in
  let size := Z.of_nat (List.length (samples pulse)) in
  let a' := add_waveform a pulse in
  entries2 (averageWaveforms a') channel =
    entries2 (averageWaveforms a) channel + size /\
  (exists h',
     averageWaveforms a' !! channel = Some h' /\
     match averageWaveforms a !! channel with
     | Some h =>
         TH2D.fXaxis h' = TH2D.fXaxis h /\ TH2D.fYaxis h' = TH2D.fYaxis h
     | None =>
         TH2D.fXaxis h' =
           TAxis.Build (positive_bins (s32 size)) 0
                       (Double.of_Z size / fSampleFreq a)%float /\
         TH2D.fYaxis h' = TAxis.Build 2000 1200 5200
     end) /\
  (0 < size < 2 ^ 31 -> positive_bins (s32 size) = size) /\
  (size = 0 -> positive_bins (s32 size) = 1) /\
  (forall other, other <> channel ->
     averageWaveforms a' !! other = averageWaveforms a !! other) /\
  a' = set_averageWaveforms (averageWaveforms a') a.
Proof.
  cbv zeta. unfold add_waveform.
  cbn [averageWaveforms set_averageWaveforms].
  set (fresh := TH2D.make _ _ _ _ _ _).
  assert (forall h,
            TH2D.fEntries (fill_waveform (fSampleFreq a) (samples pulse) h) =
              TH2D.fEntries h + Z.of_nat (List.length (samples pulse)) /\
            TH2D.fXaxis (fill_waveform (fSampleFreq a) (samples pulse) h) =
              TH2D.fXaxis h /\
            TH2D.fYaxis (fill_waveform (fSampleFreq a) (samples pulse) h) =
              TH2D.fYaxis h) as Hfold.
  { intros h. unfold fill_waveform.
    pose proof (fill_waveform_fold (fSampleFreq a) (samples pulse)
                  (seqZ 0 (Z.of_nat (List.length (samples pulse)))) h) as Hf.
    cbv zeta in Hf. rewrite length_seqZ, Nat2Z.id in Hf.
    destruct Hf as (E1 & E2 & E3 & _). done. }
  split_all.
  - unfold entries2. rewrite lookup_book_alter, decide_True by done.
    destruct (Hfold (default fresh (averageWaveforms a !! ChannelNumber pulse)))
      as (E1 & _).
    cbn [fmap option_fmap option_map default]. rewrite E1.
    by destruct (averageWaveforms a !! ChannelNumber pulse).
  - eexists. rewrite lookup_book_alter, decide_True by done.
    split; [reflexivity|].
    destruct (Hfold (default fresh (averageWaveforms a !! ChannelNumber pulse)))
      as (_ & E2 & E3).
    rewrite E2, E3.
    destruct (averageWaveforms a !! ChannelNumber pulse); [done|].
    split; reflexivity.
  - intros Hsize. rewrite s32_id by lia. apply positive_bins_id. lia.
  - intros ->. reflexivity.
  - intros other Hne. rewrite lookup_book_alter.
    by rewrite decide_False.
  - reflexivity.
Qed.

(** ** endJob *)

Lemma foldl_register {V W : Type} (src : Z -> option W) (g : W -> V)
    (l : list Z) (m : gmap Z V) (i : Z) :
  i ∈ l ->
  foldl (fun registered k =>
           match src k with
           | None => registered
           | Some h => <[k := g h]> registered
           end) m l !! i =
    match src i with
    | Some h => Some (g h)
    | None => m !! i
    end.
Proof.
  revert m. induction l as [|k l IH]; intros m Hi; [by inversion Hi|].
  cbn [foldl]. destruct (decide (i ∈ l)) as [Hin|Hnin].
  - rewrite IH by done. destruct (src i) eqn:E; [done|].
    destruct (src k) eqn:Ek; [|done].
    rewrite lookup_insert_ne; [done|]. congruence.
  - assert (i = k) as -> by (inversion Hi; subst; done).
    rewrite foldl_lookup_outside.
    + destruct (src k); [|done]. by rewrite lookup_insert_eq.
    + intros m' k' Hk'. destruct (src k'); [|done].
      rewrite lookup_insert_ne; [done|]. congruence.
Qed.

(** X13. At the end of the job, every summary of a channel from 0 to 99
    is registered as a new histogram with the binning of the summary,
    each cell holding 0 plus the cell of the summary; a channel without
    summary registers nothing. *)
Theorem endJob_registers (a : SSPDiagnosticAna) (i : Z) (h : TH2Run.t) :
  0 <= i < 100 ->
  PulseAmpVsRun a !! i = Some h ->
  unit_bins h ->
  exists h',
    endJob a !! i = Some h' /\
    TH2Run.fXaxis h' = TH2Run.fXaxis h /\
    TH2Run.fYaxis h' = TH2Run.fYaxis h /\
    forall x y,
      TH2Run.fArray h' !! (x, y) =
        (fun c => (0 + c)%float) <$> TH2Run.fArray h !! (x, y).
Proof.
  intros Hi Hh (HN & Hmax & HY). unfold endJob.
  assert (i ∈ seqZ 0 100) as Hin by (apply elem_of_seqZ; lia).
  revert Hin. generalize (seqZ 0 100). intros l Hin.
  rewrite (foldl_register (fun k => PulseAmpVsRun a !! k)
             (fun h =>
                TH2Run.Add
                  (TH2Run.make
                     (TH2Run.GetNbinsX h)
                     (RunAxis.GetBinLowEdge (TH2Run.fXaxis h) 1)
                     (RunAxis.GetBinLowEdge (TH2Run.fXaxis h)
                        (TH2Run.GetNbinsX h + 1))
                     (TH2Run.GetNbinsY h)
                     (TAxis.GetBinLowEdge (TH2Run.fYaxis h) 1)
                     (TAxis.GetBinLowEdge (TH2Run.fYaxis h)
                        (TH2Run.GetNbinsY h + 1))) h) l ∅ i Hin).
  rewrite Hh. eexists. split; [reflexivity|].
  cbn [TH2Run.Add TH2Run.make TH2Run.fXaxis TH2Run.fYaxis TH2Run.fArray].
  split; [|split].
  - unfold TH2Run.GetNbinsX, RunAxis.GetNbins, RunAxis.GetBinLowEdge.
    rewrite positive_bins_id by done.
    rewrite Hmax.
    replace (RunAxis.fXmin (TH2Run.fXaxis h)
             + RunAxis.fNbins (TH2Run.fXaxis h)
             - RunAxis.fXmin (TH2Run.fXaxis h))
      with (RunAxis.fNbins (TH2Run.fXaxis h)) by lia.
    rewrite Z.div_same by lia.
    destruct (TH2Run.fXaxis h) as [n lo hi]. cbn in *. f_equal; lia.
  - unfold TH2Run.GetNbinsY. rewrite HY. vm_compute. reflexivity.
  - intros x y. rewrite lookup_merge, lookup_empty.
    by destruct (TH2Run.fArray h !! (x, y)).
Qed.

(** ** Fewer than three peaks *)

(** X14. When the search finds fewer than three peaks no difference is
    taken, and both values of the report line are 0.0 / 0.0, a NaN. *)
Theorem spacing_needs_three_peaks (peaks : list Float32.t) :
  (List.length peaks <= 2)%nat ->
  ADCperPE peaks = Some nan /\ INTperPE peaks = Some nan.
Proof.
  intros Hlen.
  assert (differences (tail (sort peaks)) = []) as Hd.
  { assert (List.length (sort peaks) = List.length peaks) as Hl
      by (apply Permutation_length, sort_Permutation).
    destruct (sort peaks) as [|x [|y [|z l]]]; cbn in *; try done. lia. }
  rewrite ADCperPE_average, INTperPE_average, Hd.
  split; vm_compute; reflexivity.
Qed.

(** ** Examples *)

Lemma computed_Some {A : Type} (x : option A) :
  match x with Some _ => True | None => False end ->
  exists y, x = Some y.
Proof. destruct x as [y|]; [eauto|intros []]. Qed.

Lemma computed_default {A : Type} (x : option A) (d : A) :
  match x with Some _ => True | None => False end ->
  x = Some (default d x).
Proof. destruct x as [y|]; [done|intros []]. Qed.

Lemma computed_default_pair {A B : Type} (x : option (A * B)) (d1 : A) (d2 : B) :
  match x with Some _ => True | None => False end ->
  x = Some (default d1 (fst <$> x), default d2 (snd <$> x)).
Proof. destruct x as [[y z]|]; [done|intros []]. Qed.

Lemma reachable_int_after_event_7_150 : reachable_int after_event_7_150.
Proof.
  apply (reach_int_analyze event_channels_7_150 (beginRun ana0)).
  - apply reach_int_beginRun. apply reach_int_beginJob.
  - apply computed_default. vm_compute. exact I.
Qed.

Lemma reachable_after_event_7_150 : reachable after_event_7_150.
Proof. apply reachable_int_reachable, reachable_int_after_event_7_150. Qed.

Lemma endRun5_after_event_7_150 :
  endRun 5 after_event_7_150 =
    Some (after_run5, default [] (snd <$> endRun 5 after_event_7_150)).
Proof. apply computed_default_pair. vm_compute. exact I. Qed.

Lemma reachable_int_after_run5 : reachable_int after_run5.
Proof.
  apply (reach_int_endRun 5 after_event_7_150 after_run5
           (default [] (snd <$> endRun 5 after_event_7_150))).
  - apply reachable_int_after_event_7_150.
  - lia.
  - apply endRun5_after_event_7_150.
Qed.

Lemma reachable_per_channel_ok_witness :
  per_channel_ok after_event_7_150 /\ timing_ok after_event_7_150.
Proof.
  apply reachable_per_channel_ok. apply reachable_after_event_7_150.
Defined.

Lemma reachable_summaries_ok_witness :
  summaries_ok after_run5 /\
  summaries_int after_run5 /\
  forall i, is_Some (PulseAmpVsRun after_run5 !! i) -> 0 <= i < 100.
Proof.
  apply reachable_summaries_ok. apply reachable_int_after_run5.
Defined.

Lemma job_endRun_needs_waveforms_witness :
  is_Some (endRun 5 after_event_7_150) <->
  forall i, 0 <= i < 100 ->
    is_Some (PulseAmplitudePerChannel after_event_7_150 !! i) ->
    is_Some (averageWaveforms after_event_7_150 !! i).
Proof.
  apply job_endRun_needs_waveforms. apply reachable_after_event_7_150.
Defined.

(** Three triggers on channels 1 and 2 and no waveform: [endRun] does
    not run to its end. *)
Lemma endRun_stops_without_waveform :
  analyze (Build_Event (Some [fragment_three 0]) []) (beginRun ana0)
    ≫= endRun 5 = None.
Proof. vm_compute. reflexivity. Qed.

Lemma analyze_plots_report_witness :
  exists report,
    analyze_plots after_event_7_150 = Some report /\
    cal_channel <$> report =
      filter (fun i => is_Some (PulseAmplitudePerChannel after_event_7_150 !! i))
             (seqZ 0 100).
Proof.
  destruct (computed_Some (analyze_plots after_event_7_150)) as [report E];
    [vm_compute; exact I|].
  exists report. split; [exact E|].
  exact (proj1 (analyze_plots_report after_event_7_150 report E)).
Defined.

Lemma endRun_frame_witness :
  exists a' report,
    endRun 5 after_event_7_150 = Some (a', report) /\
    triggerCount a' = triggerCount after_event_7_150 /\
    PulseAmpVsRun a' !! 150 = PulseAmpVsRun after_event_7_150 !! 150.
Proof.
  destruct (computed_Some (endRun 5 after_event_7_150)) as [[a' report] E];
    [vm_compute; exact I|].
  exists a', report. split; [exact E|].
  destruct (endRun_frame 5 after_event_7_150 a' report E) as [Hf Hs].
  split.
  - apply Hf.
  - apply Hs. left. lia.
Defined.


(** A waveform without samples books a histogram of one time bin. *)
Lemma empty_waveform_books_one_bin :
  TH2D.fXaxis
    <$> averageWaveforms (add_waveform ana0 (Build_OpDetWaveform 7 [])) !! 7 =
  Some (TAxis.Build 1 0 0).
Proof. vm_compute. reflexivity. Qed.

Lemma endJob_registers_witness :
  exists h h',
    PulseAmpVsRun after_run5 !! 7 = Some h /\
    endJob after_run5 !! 7 = Some h' /\
    TH2Run.fXaxis h' = TH2Run.fXaxis h.
Proof.
  destruct (computed_Some (PulseAmpVsRun after_run5 !! 7)) as [h EO];
    [vm_compute; exact I|].
  destruct (reachable_int_summaries after_run5 reachable_int_after_run5)
    as (Hs & _).
  destruct (endJob_registers after_run5 7 h ltac:(lia) EO (Hs 7 h EO))
    as (h' & Hh' & Hax & _).
  exists h, h'. split; [exact EO|]. split; [exact Hh'|exact Hax].
Defined.

Lemma spacing_needs_three_peaks_witness :
  ADCperPE (Float32.of_Z <$> [35; 0]) = Some nan /\
  INTperPE (Float32.of_Z <$> [35; 0]) = Some nan.
Proof. apply spacing_needs_three_peaks. cbn. lia. Defined.
